(** * Family Bank ledger: a shallow embedding of the balance-mutation core

    The development follows the Python sources of the backend:
    - [common/models.py]      key patterns, enums and constants;
    - [common/errors.py]      the exception taxonomy;
    - [common/dynamodb.py]    [DynamoDBClient], the ledger store;
    - [lambdas/transactions/list_transactions.py]  page-size handling;
    - [lambdas/interest/calculate_interest.py]     the interest job.

    The table service (DynamoDB through boto3) is not part of the
    repository; module [Store] gives the fragment of its documented
    behaviour that the client code relies on. *)

From Stdlib Require Import ZArith QArith Qpower Lia Lqa List Bool Ascii.
From stdpp Require Import base option gmap strings list fin_maps sorting.

Local Close Scope Q_scope.
Local Open Scope string_scope.
Local Open Scope Z_scope.

(* ===================================================================== *)
(** * Decimal numbers *)
(* ===================================================================== *)

(** A finite [decimal.Decimal]: the signed coefficient and the exponent,
    denoting [coef * 10 ^ dexp].  Python keeps the exponent of a value
    (["100.00"] and ["100"] are different representations of one number),
    and so does the model.  The arithmetic below is the exact arithmetic
    Python performs while coefficients stay within the context precision
    (28 significant digits); NaN and the infinities are not values of
    this type. *)
Record Decimal : Type := mkDecimal { coef : Z; dexp : Z }.

#[global] Instance Decimal_eq_dec : EqDecision Decimal.
Proof. solve_decision. Defined.

Module Dec.

(** The number a representation denotes. *)
Definition dval (d : Decimal) : Q :=
  (inject_Z (coef d) * Qpower (inject_Z 10) (dexp d))%Q.

(** [Decimal(n)] for a Python int. *)
Definition of_int (n : Z) : Decimal := mkDecimal n 0.

(** The coefficient of [d] once written with exponent [e <= dexp d]. *)
Definition scaled (e : Z) (d : Decimal) : Z := coef d * 10 ^ (dexp d - e).

(** [a + b]: the result carries the smaller exponent. *)
Definition add (a b : Decimal) : Decimal :=
  let e := Z.min (dexp a) (dexp b) in
  mkDecimal (scaled e a + scaled e b) e.

(** [a * b]. *)
Definition mul (a b : Decimal) : Decimal :=
  mkDecimal (coef a * coef b) (dexp a + dexp b).

(** [d == 0] and [d < 0] (comparison with the int 0). *)
Definition is_zero (d : Decimal) : bool := coef d =? 0.
Definition is_neg (d : Decimal) : bool := coef d <? 0.

(** Numeric equality [a == b]; also the store's comparison of two
    values of type N. *)
Definition eqb (a b : Decimal) : bool :=
  let e := Z.min (dexp a) (dexp b) in
  scaled e a =? scaled e b.

(** [round-half-up] of the rational [n / 10 ^ k], [k > 0]: ties go away
    from zero, as [decimal.ROUND_HALF_UP] does. *)
Definition div_half_up (n : Z) (k : Z) : Z :=
  let p := 10 ^ k in
  let q := Z.abs n / p in
  let r := Z.abs n mod p in
  Z.sgn n * (if 2 * r >=? p then q + 1 else q).

(** [d.quantize(Decimal('0.01'), rounding=ROUND_HALF_UP)]: the value of
    [d] written with exponent [-2]. *)
Definition quantize_cents (d : Decimal) : Decimal :=
  if dexp d >=? -2
  then mkDecimal (coef d * 10 ^ (dexp d + 2)) (-2)
  else mkDecimal (div_half_up (coef d) (- 2 - dexp d)) (-2).

End Dec.

Notation "a +d b" := (Dec.add a b) (at level 50, left associativity).

(** Decimal literals used by the sources and the tests, in cents. *)
Definition cents (n : Z) : Decimal := mkDecimal n (-2).


(* ===================================================================== *)
(** * Library functions the sources call *)
(* ===================================================================== *)

(** A value produced by [json.loads] (numbers are kept as text: the
    ledger never computes with them). *)
#[warnings="-register-all"] Inductive JSON : Type :=
| JNull
| JBool (b : bool)
| JNum (text : string)
| JStr (s : string)
| JArr (xs : list JSON)
| JObj (fields : list (string * JSON)).

(** The Python library functions used by the sources on text that comes
    from outside.  Each parser returns [None] where Python raises. *)
Class PyLib : Type := {
  (** [int(text)] *)
  py_int : string -> option Z;
  (** [Decimal(text)] *)
  py_Decimal : string -> option Decimal;
  (** [base64.b64encode(data).decode()] and [base64.b64decode(text)] *)
  b64encode : string -> string;
  b64decode : string -> option string;
  (** [json.dumps(value)] and [json.loads(text)] *)
  json_dumps : JSON -> string;
  json_loads : string -> option JSON;
  (** [f"{float(rate * 100):.2f}"], the percentage shown in descriptions *)
  fmt_percent : Decimal -> string
}.

(** The Python dictionary [{"PK": pk, "SK": sk}]. *)
Definition key_dict (pk sk : string) : JSON :=
  JObj [("PK", JStr pk); ("SK", JStr sk)].

(** What the library guarantees about the two codecs: base64 decoding
    undoes encoding and encodes text that is not empty as text that is not
    empty; the JSON text of a dictionary of two strings is not empty and
    reads back as the same dictionary. *)
Class PyLibLaws (L : PyLib) : Prop := {
  b64_roundtrip : forall data, b64decode (b64encode data) = Some data;
  b64_nonempty : forall data, data <> "" -> b64encode data <> "";
  json_roundtrip :
    forall pk sk, json_loads (json_dumps (key_dict pk sk)) = Some (key_dict pk sk);
  json_nonempty : forall pk sk, json_dumps (key_dict pk sk) <> ""
}.

(* ===================================================================== *)
(** * Time stamps *)
(* ===================================================================== *)

(** A naive [datetime.datetime] as returned by [datetime.utcnow()]. *)
Record datetime : Type := mkDatetime {
  year : N; month : N; day : N;
  hour : N; minute : N; second : N; microsecond : N
}.

Module Datetime.

(** The ranges the class enforces on its fields. *)
Definition valid (t : datetime) : bool :=
  ((1 <=? year t) && (year t <=? 9999) &&
   (1 <=? month t) && (month t <=? 12) &&
   (1 <=? day t) && (day t <=? 31) &&
   (hour t <=? 23) && (minute t <=? 59) && (second t <=? 59) &&
   (microsecond t <=? 999999))%N.

(** Chronological order [t1 < t2]. *)
Definition fields (t : datetime) : list N :=
  [year t; month t; day t; hour t; minute t; second t; microsecond t].

Fixpoint lex_ltb (xs ys : list N) : bool :=
  match xs, ys with
  | x :: xs', y :: ys' =>
      if (x <? y)%N then true
      else if (x =? y)%N then lex_ltb xs' ys' else false
  | _, _ => false
  end.

Definition ltb (t1 t2 : datetime) : bool := lex_ltb (fields t1) (fields t2).

(** The low [width] decimal digits of [n], most significant first:
    ["%0<width>d"] for numbers of at most [width] digits. *)
Fixpoint digits (width : nat) (n : N) : string :=
  match width with
  | O => ""
  | S w => digits w (n / 10)%N +:+ String (Ascii.ascii_of_N (48 + n mod 10)%N) ""
  end.

(** The fraction of a second as [isoformat] prints it: nothing when the
    microsecond field is zero. *)
Definition fraction (t : datetime) : string :=
  if (microsecond t =? 0)%N then "" else "." +:+ digits 6 (microsecond t).

(** [t.isoformat()] *)
Definition isoformat (t : datetime) : string :=
  digits 4 (year t) +:+ "-" +:+ digits 2 (month t) +:+ "-" +:+
  digits 2 (day t) +:+ "T" +:+ digits 2 (hour t) +:+ ":" +:+
  digits 2 (minute t) +:+ ":" +:+ digits 2 (second t) +:+ fraction t.

End Datetime.

(** [datetime.utcnow().isoformat() + "Z"], the time stamp text written by
    every operation of the store client. *)
Definition utc_timestamp (now : datetime) : string :=
  Datetime.isoformat now +:+ "Z".

(* ===================================================================== *)
(** * models.py *)
(* ===================================================================== *)

Inductive UserRole : Type := PARENT | CHILD.

Inductive TransactionType : Type := DEPOSIT | WITHDRAWAL | INTEREST | ADJUSTMENT.

Definition role_value (r : UserRole) : string :=
  match r with PARENT => "parent" | CHILD => "child" end.

Definition type_value (t : TransactionType) : string :=
  match t with
  | DEPOSIT => "deposit"
  | WITHDRAWAL => "withdrawal"
  | INTEREST => "interest"
  | ADJUSTMENT => "adjustment"
  end.

Module KeyPattern.
Definition user_pk (user_id : string) : string := "USER#" +:+ user_id.
Definition profile_sk : string := "PROFILE".
Definition transaction_sk (timestamp transaction_id : string) : string :=
  "TRANS#" +:+ timestamp +:+ "#" +:+ transaction_id.
Definition parent_gsi1_pk (parent_id : string) : string := "PARENT#" +:+ parent_id.
Definition child_gsi1_sk (child_id : string) : string := "CHILD#" +:+ child_id.
Definition role_gsi2_pk (role : UserRole) : string := "ROLE#" +:+ role_value role.
Definition user_gsi2_sk (user_id : string) : string := "USER#" +:+ user_id.
End KeyPattern.

Definition DEFAULT_INTEREST_RATE : Decimal := mkDecimal 5 (-2).
Definition DEFAULT_CHILD_BALANCE : Decimal := mkDecimal 0 (-2).
Definition TRANSACTION_PAGINATION_LIMIT : Z := 50.
Definition MAX_TRANSACTION_PAGINATION_LIMIT : Z := 100.

(* ===================================================================== *)
(** * errors.py and the exceptions of the libraries *)
(* ===================================================================== *)

(** The exceptions that can leave the modelled functions.  The first
    group is [FamilyBankError] and its subclasses; [ClientError] and
    [TransactionCanceledException] are what the table service reports
    (the second is a subclass of the first and carries the cancellation
    codes, one per item of the transaction); the rest are Python's own. *)
Inductive Exn : Type :=
| NotFoundError
| InsufficientFundsError
| ConflictError
| DatabaseError
| ForbiddenError
| ClientError (code : string)
| TransactionCanceledException (codes : list string)
| ParamValidationError
| KeyError (key : string)
| InvalidOperation
| ValueError.

Definition status_code (e : Exn) : option Z :=
  match e with
  | NotFoundError => Some 404
  | InsufficientFundsError => Some 400
  | ConflictError => Some 409
  | DatabaseError => Some 500
  | ForbiddenError => Some 403
  | _ => None
  end.

Inductive result (A : Type) : Type :=
| Ok (a : A)
| Raise (e : Exn).
Arguments Ok {A} a.
Arguments Raise {A} e.

(* ===================================================================== *)
(** * The table service *)
(* ===================================================================== *)

(** An attribute value of type S (string) or N (number). *)
Inductive AttrValue : Type :=
| SAttr (s : string)
| NAttr (d : Decimal).

#[global] Instance AttrValue_eq_dec : EqDecision AttrValue.
Proof. solve_decision. Defined.

(** An item is a dictionary from attribute names to values; a table maps
    a primary key (partition key, sort key) to the other attributes of
    the item stored under it. *)
Abbreviation Item := (gmap string AttrValue).
Abbreviation Key := (string * string)%type.
Abbreviation Table := (gmap (string * string) (gmap string AttrValue)).

(** What the service can answer instead of performing an operation: an
    error response with a code, or, for a transaction, a cancellation
    with one reason code per item. *)
Inductive Fault : Type :=
| ServiceError (code : string)
| Canceled (codes : list string).

Definition exn_of_fault (f : Fault) : Exn :=
  match f with
  | ServiceError code => ClientError code
  | Canceled codes => TransactionCanceledException codes
  end.

(** [isinstance(e, ClientError)] *)
Definition is_ClientError (e : Exn) : bool :=
  match e with
  | ClientError _ | TransactionCanceledException _ => true
  | _ => false
  end.

Module Store.

(** The item as a reader sees it: the stored attributes and the key. *)
Definition full_item (k : Key) (attrs : Item) : Item :=
  <["PK" := SAttr k.1]> (<["SK" := SAttr k.2]> attrs).

Definition key_of (item : Item) : option Key :=
  match item !! "PK", item !! "SK" with
  | Some (SAttr pk), Some (SAttr sk) => Some (pk, sk)
  | _, _ => None
  end.

Definition strip_key (item : Item) : Item := delete "PK" (delete "SK" item).

(** Equality of two attribute values as a condition expression sees
    it: numbers are compared as numbers. *)
Definition attr_eqb (a b : AttrValue) : bool :=
  match a, b with
  | SAttr x, SAttr y => String.eqb x y
  | NAttr x, NAttr y => Dec.eqb x y
  | _, _ => false
  end.

(** Condition expressions used by the client. *)
Inductive Cond : Type :=
| attribute_exists (name : string)
| attr_equals (name : string) (v : AttrValue)
| cond_and (c1 c2 : Cond).

Fixpoint holds (c : Cond) (current : option Item) : bool :=
  match c with
  | attribute_exists name =>
      match current with
      | Some item => bool_decide (is_Some (item !! name))
      | None => false
      end
  | attr_equals name v =>
      match current with
      | Some item =>
          match item !! name with
          | Some v' => attr_eqb v' v
          | None => false
          end
      | None => false
      end
  | cond_and c1 c2 => holds c1 current && holds c2 current
  end.

(** [SET a1 = v1, a2 = v2, ...] applied to the stored attributes. *)
Definition apply_set (sets : list (string * AttrValue)) (attrs : Item) : Item :=
  foldl (fun m kv => <[kv.1 := kv.2]> m) attrs sets.

(** ** Single-item operations *)

Definition get_item (fault : option Fault) (tbl : Table) (k : Key)
  : result (option Item) :=
  match fault with
  | Some f => Raise (exn_of_fault f)
  | None => Ok (full_item k <$> tbl !! k)
  end.

(** [put_item]: stores the item under its key, replacing whatever was
    there. *)
Definition put_item (fault : option Fault) (tbl : Table) (item : Item)
  : result Table :=
  match fault with
  | Some f => Raise (exn_of_fault f)
  | None =>
      match key_of item with
      | Some k => Ok (<[k := strip_key item]> tbl)
      | None => Raise (ClientError "ValidationException")
      end
  end.

(** [update_item] with a SET expression, no condition and
    [ReturnValues="ALL_NEW"]: the assignments are applied to the item
    under the key, or to a new empty item when there is none; the answer
    is the item after the update. *)
Definition update_item (fault : option Fault) (tbl : Table) (k : Key)
    (sets : list (string * AttrValue)) : result (Table * Item) :=
  match fault with
  | Some f => Raise (exn_of_fault f)
  | None =>
      let attrs := apply_set sets (default ∅ (tbl !! k)) in
      Ok (<[k := attrs]> tbl, full_item k attrs)
  end.

(** ** Transactions *)

Inductive TransactItem : Type :=
| Update (k : Key) (sets : list (string * AttrValue)) (condition : option Cond)
| Put (item : Item).

(** The cancellation code of one item of a transaction. *)
Definition reason (tbl : Table) (it : TransactItem) : string :=
  match it with
  | Update k _ (Some c) =>
      if holds c (full_item k <$> tbl !! k) then "None"
      else "ConditionalCheckFailed"
  | Update _ _ None => "None"
  | Put _ => "None"
  end.

(** A request is well formed when every item to put carries its key. *)
Definition well_formed (it : TransactItem) : bool :=
  match it with
  | Update _ _ _ => true
  | Put item => bool_decide (is_Some (key_of item))
  end.

Definition apply_item (tbl : Table) (it : TransactItem) : Table :=
  match it with
  | Update k sets _ => <[k := apply_set sets (default ∅ (tbl !! k))]> tbl
  | Put item =>
      match key_of item with
      | Some k => <[k := strip_key item]> tbl
      | None => tbl
      end
  end.

(** [transact_write_items]: all conditions are checked against the
    table as it is; when one fails nothing is written and the
    transaction is cancelled with the list of reasons, otherwise every
    item is applied.  A malformed request is refused as a whole. *)
Definition transact_write_items (fault : option Fault) (tbl : Table)
    (items : list TransactItem) : result Table :=
  match fault with
  | Some f => Raise (exn_of_fault f)
  | None =>
      if negb (forallb well_formed items)
      then Raise (ClientError "ValidationException")
      else
        let reasons := reason tbl <$> items in
        if forallb (String.eqb "None") reasons
        then Ok (foldl apply_item tbl items)
        else Raise (TransactionCanceledException reasons)
  end.

(** ** Queries *)

Record QueryResponse : Type := mkQueryResponse {
  Items : list Item;
  LastEvaluatedKey : option Key
}.

(** A key as the Python value the resource layer hands out and takes
    back: a dictionary with the two key attributes. *)
Definition key_to_json (k : Key) : JSON := key_dict k.1 k.2.

(** The Python value given as [ExclusiveStartKey]: a dictionary of
    exactly the two key attributes is a start key, any other dictionary
    is refused by the service and any other value by the client
    library. *)
Definition start_key (v : JSON) : result Key :=
  match v with
  | JObj [("PK", JStr pk); ("SK", JStr sk)]
  | JObj [("SK", JStr sk); ("PK", JStr pk)] => Ok (pk, sk)
  | JObj _ => Raise (ClientError "ValidationException")
  | _ => Raise ParamValidationError
  end.

(** Sort keys in descending order. *)
Definition sk_desc (a b : Key * Item) : Prop := String.leb b.1.2 a.1.2 = true.

#[global] Instance sk_desc_dec a b : Decision (sk_desc a b).
Proof. unfold sk_desc. apply _. Defined.

(** Strictly descending sort keys. *)
Definition strictly_desc (a b : Key * Item) : Prop :=
  String.ltb b.1.2 a.1.2 = true.

(** The rows of partition [pk] whose sort key starts with [sk_prefix],
    newest (largest sort key) first. *)
Definition partition_desc (tbl : Table) (pk sk_prefix : string)
  : list (Key * Item) :=
  merge_sort sk_desc
    (filter (fun r => bool_decide (r.1.1 = pk) && String.prefix sk_prefix r.1.2)
            (map_to_list tbl)).

(** The rows a scan in descending order still has to visit after the
    exclusive start key. *)
Definition rows_after (rows : list (Key * Item)) (start : option Key)
  : list (Key * Item) :=
  match start with
  | None => rows
  | Some k => filter (fun r => String.ltb r.1.2 k.2) rows
  end.

(** One page: the first [limit] rows to visit; the key of the last one
    is handed out when the page is full. *)
Definition page_of (limit : Z) (rows : list (Key * Item)) : QueryResponse :=
  let page := take (Z.to_nat limit) rows in
  mkQueryResponse
    ((fun r => full_item r.1 r.2) <$> page)
    (if Z.of_nat (length rows) <? limit then None else fst <$> last page).

(** [query] with [PK = :pk AND begins_with(SK, :sk)],
    [ScanIndexForward=False], a [Limit] and possibly an
    [ExclusiveStartKey]: the page holds the first [limit] rows after the
    start key, and [LastEvaluatedKey] is present when the page is
    full. *)
Definition query (fault : option Fault) (tbl : Table) (pk sk_prefix : string)
    (limit : Z) (exclusive_start : option JSON) : result QueryResponse :=
  match fault with
  | Some f => Raise (exn_of_fault f)
  | None =>
      if limit <=? 0 then Raise (ClientError "ValidationException")
      else
        let rows := partition_desc tbl pk sk_prefix in
        match exclusive_start with
        | None => Ok (page_of limit (rows_after rows None))
        | Some v =>
            match start_key v with
            | Ok k =>
                if String.eqb k.1 pk
                then Ok (page_of limit (rows_after rows (Some k)))
                else Raise (ClientError "ValidationException")
            | Raise e => Raise e
            end
        end
  end.

End Store.

(* ===================================================================== *)
(** * dynamodb.py: the ledger store client *)
(* ===================================================================== *)

Inductive Level : Type := DEBUG | INFO | WARNING | ERROR.

(** What a call can change: the table and the log. *)
Record World : Type := mkWorld {
  table : Table;
  log : list (Level * string)
}.

Definition logged (lvl : Level) (msg : string) (w : World) : World :=
  mkWorld (table w) (log w ++ [(lvl, msg)]).

Definition stored (tbl : Table) (w : World) : World := mkWorld tbl (log w).

(** What a call takes from its surroundings: the clock, the random
    identifier, the faults of the service on its read and on its write,
    and the writes other clients commit between the two. *)
Record Env : Type := mkEnv {
  now : datetime;
  uuid4 : string;
  read_fault : option Fault;
  write_fault : option Fault;
  concurrent : Table -> Table
}.

(** The dictionary returned by [adjust_balance_with_transaction]; the
    source converts the two amounts with [float] for the response, the
    model keeps the decimals they are converted from. *)
Record TransactionDict : Type := mkTransactionDict {
  transactionId : string;
  userId : string;
  amount : Decimal;
  type_ : string;
  description : string;
  balanceAfter : Decimal;
  initiatedBy : string;
  timestamp : string
}.

(** The dictionary returned by [get_transactions]. *)
Record TransactionPage : Type := mkTransactionPage {
  transactions : list Item;
  nextToken : option string
}.

(** Truth value of an optional string ([None] and [""] are false). *)
Definition truthy (s : option string) : bool :=
  match s with
  | Some (String _ _) => true
  | _ => false
  end.

Section Client.

Context {L : PyLib}.

(** [Decimal(str(item.get(name, 0)))] *)
Definition Decimal_of_attr (v : option AttrValue) : option Decimal :=
  match v with
  | None => Some (Dec.of_int 0)
  | Some (NAttr d) => Some d
  | Some (SAttr s) => py_Decimal s
  end.

Definition profile_key (user_id : string) : Key :=
  (KeyPattern.user_pk user_id, KeyPattern.profile_sk).

Definition get_user_profile (env : Env) (user_id : string) (w : World)
  : result (option Item) * World :=
  match Store.get_item (read_fault env) (table w) (profile_key user_id) with
  | Ok item => (Ok item, w)
  | Raise e =>
      if is_ClientError e
      then (Raise DatabaseError, logged ERROR "Failed to get user profile" w)
      else (Raise e, w)
  end.

(** The item [create_user_profile] builds. *)
Definition new_profile_item (timestamp user_id email name : string)
    (role : UserRole) (parent_id : option string)
    (balance interest_rate : Decimal) : Item :=
  let item : Item :=
    list_to_map [
      ("PK", SAttr (KeyPattern.user_pk user_id));
      ("SK", SAttr KeyPattern.profile_sk);
      ("userId", SAttr user_id);
      ("email", SAttr email);
      ("name", SAttr name);
      ("role", SAttr (role_value role));
      ("balance", NAttr balance);
      ("interestRate", NAttr interest_rate);
      ("createdAt", SAttr timestamp);
      ("updatedAt", SAttr timestamp)
    ] in
  match role, parent_id with
  | CHILD, Some parent =>
      if truthy (Some parent) then
        <["GSI2SK" := SAttr (KeyPattern.user_gsi2_sk user_id)]>
        (<["GSI2PK" := SAttr (KeyPattern.role_gsi2_pk CHILD)]>
        (<["GSI1SK" := SAttr (KeyPattern.child_gsi1_sk user_id)]>
        (<["GSI1PK" := SAttr (KeyPattern.parent_gsi1_pk parent)]>
        (<["parentId" := SAttr parent]> item))))
      else item
  | _, _ => item
  end.

(** [create_user_profile]; the source returns the item wrapped in the
    [UserProfile] dataclass, the model returns the item. *)
Definition create_user_profile (env : Env) (user_id email name : string)
    (role : UserRole) (parent_id : option string)
    (balance interest_rate : Decimal) (w : World) : result Item * World :=
  let timestamp := utc_timestamp (now env) in
  let item :=
    new_profile_item timestamp user_id email name role parent_id
                     balance interest_rate in
  match Store.put_item (write_fault env) (table w) item with
  | Ok tbl => (Ok item, logged INFO "Created user profile" (stored tbl w))
  | Raise e =>
      if is_ClientError e
      then (Raise DatabaseError, logged ERROR "Failed to create user profile" w)
      else (Raise e, w)
  end.

(** The assignments of the update expression [update_user_profile]
    builds. *)
Definition profile_sets (timestamp : string) (name : option string)
    (interest_rate : option Decimal) : list (string * AttrValue) :=
  [("updatedAt", SAttr timestamp)]
  ++ match name with Some n => [("name", SAttr n)] | None => [] end
  ++ match interest_rate with Some r => [("interestRate", NAttr r)] | None => [] end.

Definition update_user_profile (env : Env) (user_id : string)
    (name : option string) (interest_rate : option Decimal) (w : World)
  : result Item * World :=
  let timestamp := utc_timestamp (now env) in
  match Store.update_item (write_fault env) (table w) (profile_key user_id)
                          (profile_sets timestamp name interest_rate) with
  | Ok (tbl, attributes) => (Ok attributes, stored tbl w)
  | Raise e =>
      if is_ClientError e
      then (Raise DatabaseError, logged ERROR "Failed to update user profile" w)
      else (Raise e, w)
  end.

(** [json.loads(base64.b64decode(next_token))] *)
Definition decode_token (next_token : string) : option JSON :=
  match b64decode next_token with
  | Some text => json_loads text
  | None => None
  end.

(** [base64.b64encode(json.dumps(key).encode()).decode()] *)
Definition encode_token (k : Key) : string :=
  b64encode (json_dumps (Store.key_to_json k)).

(** The first half of [get_transactions]: the start key to query with
    and the world after the possible warning. *)
Definition exclusive_start_key (next_token : option string) (w : World)
  : option JSON * World :=
  if truthy next_token then
    match decode_token (default "" next_token) with
    | Some decoded => (Some decoded, w)
    | None => (None, logged WARNING "Invalid pagination token" w)
    end
  else (None, w).

(** The second half: the query and the shaping of its answer. *)
Definition run_query (env : Env) (user_id : string) (limit : Z)
    (start : option JSON) (w : World) : result TransactionPage * World :=
  match Store.query (read_fault env) (table w) (KeyPattern.user_pk user_id)
                    "TRANS#" limit start with
  | Ok response =>
      (Ok (mkTransactionPage (Store.Items response)
             (encode_token <$> Store.LastEvaluatedKey response)), w)
  | Raise e =>
      if is_ClientError e
      then (Raise DatabaseError, logged ERROR "Failed to get transactions" w)
      else (Raise e, w)
  end.

Definition get_transactions (env : Env) (user_id : string) (limit : Z)
    (next_token : option string) (w : World)
  : result TransactionPage * World :=
  let (start, w1) := exclusive_start_key next_token w in
  run_query env user_id limit start w1.

(** The two items of the transactional write. *)
Definition balance_update (user_id timestamp : string)
    (current_balance new_balance : Decimal) : Store.TransactItem :=
  Store.Update (profile_key user_id)
    [("balance", NAttr new_balance); ("updatedAt", SAttr timestamp)]
    (Some (Store.cond_and (Store.attribute_exists "PK")
             (Store.attr_equals "balance" (NAttr current_balance)))).

Definition transaction_item (user_id timestamp transaction_id : string)
    (amount : Decimal) (transaction_type : TransactionType)
    (description : string) (new_balance : Decimal) (initiated_by : string)
  : Item :=
  list_to_map [
    ("PK", SAttr (KeyPattern.user_pk user_id));
    ("SK", SAttr (KeyPattern.transaction_sk timestamp transaction_id));
    ("transactionId", SAttr transaction_id);
    ("userId", SAttr user_id);
    ("amount", NAttr amount);
    ("type", SAttr (type_value transaction_type));
    ("description", SAttr description);
    ("balanceAfter", NAttr new_balance);
    ("initiatedBy", SAttr initiated_by);
    ("timestamp", SAttr timestamp)
  ].

(** The handler of [TransactionCanceledException]: the first reason
    with code [ConditionalCheckFailed] turns the failure into a
    conflict. *)
Definition on_cancellation (codes : list string) (w : World)
  : Exn * World :=
  if existsb (String.eqb "ConditionalCheckFailed") codes
  then (ConflictError, logged WARNING "Balance changed during transaction" w)
  else (DatabaseError, logged ERROR "Transaction cancelled" w).

Definition adjust_balance_with_transaction (env : Env) (user_id : string)
    (amount : Decimal) (transaction_type : TransactionType)
    (description initiated_by : string) (w : World)
  : result TransactionDict * World :=
  let timestamp := utc_timestamp (now env) in
  let transaction_id := uuid4 env in
  match get_user_profile env user_id w with
  | (Raise e, w1) => (Raise e, w1)
  | (Ok None, w1) => (Raise NotFoundError, w1)
  | (Ok (Some user_profile), w1) =>
      if bool_decide (user_profile = ∅) then (Raise NotFoundError, w1)
      else
        match Decimal_of_attr (user_profile !! "balance") with
        | None => (Raise InvalidOperation, w1)
        | Some current_balance =>
            let new_balance := current_balance +d amount in
            if Dec.is_neg new_balance then (Raise InsufficientFundsError, w1)
            else
              let w2 := stored (concurrent env (table w1)) w1 in
              match
                Store.transact_write_items (write_fault env) (table w2)
                  [ balance_update user_id timestamp current_balance new_balance;
                    Store.Put (transaction_item user_id timestamp transaction_id
                                 amount transaction_type description
                                 new_balance initiated_by) ]
              with
              | Ok tbl =>
                  (Ok (mkTransactionDict transaction_id user_id amount
                         (type_value transaction_type) description
                         new_balance initiated_by timestamp),
                   logged INFO "Transaction successful" (stored tbl w2))
              | Raise (TransactionCanceledException codes) =>
                  let (e, w3) := on_cancellation codes w2 in (Raise e, w3)
              | Raise e =>
                  if is_ClientError e
                  then (Raise DatabaseError, logged ERROR "Transaction failed" w2)
                  else (Raise e, w2)
              end
        end
  end.

End Client.

(* ===================================================================== *)
(** * list_transactions.py *)
(* ===================================================================== *)

(** The part of the event the handler reads: the authorizer context and
    the query string. *)
Record ListEvent : Type := mkListEvent {
  current_user_id : string;
  groups : list string;
  queryStringParameters : option (gmap string string)
}.

(** [is_parent(groups)] of auth.py *)
Definition is_parent (groups : list string) : bool :=
  existsb (String.eqb "Parents") groups.

Section ListTransactions.

Context {L : PyLib}.

(** [int(query_params.get("limit", 50))] *)
Definition requested_limit (query_params : gmap string string) : result Z :=
  match query_params !! "limit" with
  | None => Ok 50
  | Some text =>
      match py_int text with
      | Some n => Ok n
      | None => Raise ValueError
      end
  end.

(** The validation of the limit: the only test is against the
    maximum. *)
Definition validate_limit (limit : Z) : Z :=
  if limit >? MAX_TRANSACTION_PAGINATION_LIMIT
  then MAX_TRANSACTION_PAGINATION_LIMIT
  else limit.

(** The limit the handler hands to [get_transactions]. *)
Definition effective_limit (query_params : gmap string string) : result Z :=
  match requested_limit query_params with
  | Ok limit => Ok (validate_limit limit)
  | Raise e => Raise e
  end.

(** The authorization check of the handler. *)
Definition authorize_target (env : Env) (event : ListEvent)
    (target_user_id : string) (w : World) : result unit * World :=
  if String.eqb target_user_id (current_user_id event) then (Ok tt, w)
  else if negb (is_parent (groups event)) then (Raise ForbiddenError, w)
  else
    match get_user_profile env target_user_id w with
    | (Raise e, w1) => (Raise e, w1)
    | (Ok None, w1) => (Raise ForbiddenError, w1)
    | (Ok (Some target_profile), w1) =>
        if bool_decide (target_profile = ∅) then (Raise ForbiddenError, w1)
        else if bool_decide (target_profile !! "parentId"
                             = Some (SAttr (current_user_id event)))
        then (Ok tt, w1)
        else (Raise ForbiddenError, w1)
    end.

(** The body of the handler's [try] block up to the call of the store;
    the rendering of the page as a JSON response is not modelled. *)
Definition list_transactions (env : Env) (event : ListEvent) (w : World)
  : result TransactionPage * World :=
  let query_params := default ∅ (queryStringParameters event) in
  let target_user_id :=
    default (current_user_id event) (query_params !! "userId") in
  match effective_limit query_params with
  | Raise e => (Raise e, w)
  | Ok limit =>
      let next_token := query_params !! "nextToken" in
      match authorize_target env event target_user_id w with
      | (Raise e, w1) => (Raise e, w1)
      | (Ok _, w1) =>
          get_transactions env target_user_id limit next_token
            (logged INFO "Fetching transactions" w1)
      end
  end.

(** The status code of the response: the code of a [FamilyBankError],
    500 for any other exception. *)
Definition response_status {A} (r : result A) : Z :=
  match r with
  | Ok _ => 200
  | Raise e => default 500 (status_code e)
  end.

End ListTransactions.

(* ===================================================================== *)
(** * calculate_interest.py *)
(* ===================================================================== *)

(** The counters of the job. *)
Record Tally : Type := mkTally {
  successful : nat;
  skipped : nat;
  failed : nat;
  failed_details : list (string * Exn)
}.

(** How the [try] block of one iteration ends when no exception leaves
    it: by one of the [continue] statements or after the adjustment. *)
Inductive Step : Type :=
| Skipped
| Applied (transaction : TransactionDict).

Section Interest.

Context {L : PyLib}.

Definition interest_description (interest_rate : Decimal) : string :=
  "Monthly interest (" +:+ fmt_percent interest_rate +:+ "%)".

(** The body of the [try] block for one child.  The adjustment is
    typed for identifiers that are strings; for a row whose [userId] is a
    number the model lets the call fail in the parameter check of the
    client library, where the source would first look the formatted
    number up as an identifier. *)
Definition try_child (env : Env) (child : Item) (w : World)
  : result Step * World :=
  match child !! "userId" with
  | None => (Raise (KeyError "userId"), w)
  | Some user_id =>
      match Decimal_of_attr (child !! "balance") with
      | None => (Raise InvalidOperation, w)
      | Some current_balance =>
          match Decimal_of_attr (child !! "interestRate") with
          | None => (Raise InvalidOperation, w)
          | Some interest_rate =>
              if Dec.is_zero interest_rate
              then (Ok Skipped, logged DEBUG "Skipping: interest rate is 0" w)
              else if Dec.is_zero current_balance
              then (Ok Skipped, logged DEBUG "Skipping: balance is 0" w)
              else
                let interest_amount :=
                  Dec.quantize_cents (Dec.mul current_balance interest_rate) in
                if Dec.is_zero interest_amount
                then (Ok Skipped,
                      logged DEBUG "Skipping: calculated interest is 0" w)
                else
                  match user_id with
                  | NAttr _ => (Raise ParamValidationError, w)
                  | SAttr user_id =>
                      match
                        adjust_balance_with_transaction env user_id
                          interest_amount INTEREST
                          (interest_description interest_rate) "SYSTEM" w
                      with
                      | (Ok transaction, w1) =>
                          (Ok (Applied transaction),
                           logged INFO "Applied interest" w1)
                      | (Raise e, w1) => (Raise e, w1)
                      end
                  end
          end
      end
  end.

(** [child.get('userId', 'unknown')] as text for the failure report. *)
Definition reported_id (child : Item) : string :=
  match child !! "userId" with
  | Some (SAttr user_id) => user_id
  | Some (NAttr _) => "<number>"
  | None => "unknown"
  end.

(** One iteration of the loop: the [try] block and its two handlers,
    both of which count a failure and go on. *)
Definition process_child (env : Env) (child : Item) (st : Tally * World)
  : Tally * World :=
  let (t, w) := st in
  match try_child env child w with
  | (Ok Skipped, w1) =>
      (mkTally (successful t) (S (skipped t)) (failed t) (failed_details t), w1)
  | (Ok (Applied _), w1) =>
      (mkTally (S (successful t)) (skipped t) (failed t) (failed_details t), w1)
  | (Raise e, w1) =>
      (mkTally (successful t) (skipped t) (S (failed t))
         (failed_details t ++ [(reported_id child, e)]),
       logged ERROR
         (match e with
          | DatabaseError => "Failed to apply interest"
          | _ => "Unexpected error processing"
          end) w1)
  end.

(** [for child in children]; the [i]-th iteration runs in the
    surroundings [envs i]. *)
Fixpoint interest_loop (envs : nat -> Env) (i : nat) (children : list Item)
    (st : Tally * World) : Tally * World :=
  match children with
  | [] => st
  | child :: rest => interest_loop envs (S i) rest (process_child (envs i) child st)
  end.

(** The summary the handler returns. *)
Record Summary : Type := mkSummary {
  statusCode : Z;
  totalChildren : nat;
  tally : Tally
}.

(** [lambda_handler]; [scanned] is the answer of
    [db.scan_all_children()]. *)
Definition interest_handler (envs : nat -> Env) (scanned : result (list Item))
    (w : World) : Summary * World :=
  let w0 := logged INFO "Starting monthly interest calculation" w in
  match scanned with
  | Raise e =>
      (mkSummary 500 0 (mkTally 0 0 0 []),
       logged ERROR "Interest calculation failed" w0)
  | Ok children =>
      let (t, w1) :=
        interest_loop envs 0 children
          (mkTally 0 0 0 [], logged INFO "Found child accounts to process" w0) in
      (mkSummary 200 (length children) t,
       logged INFO "Interest calculation complete" w1)
  end.

End Interest.

(* ===================================================================== *)
(** * An instance of the library interface *)
(* ===================================================================== *)

(** Executable versions of the library functions, used to run the model
    on concrete inputs: numerals are read in their plain form only
    (digits with an optional sign and, for decimals, an optional
    fraction), base64 is the standard alphabet with padding, and the JSON
    reader accepts the text of a key dictionary as the writer prints
    it. *)
Module PlainLib.

(** ** Numerals *)

Definition digit_value (c : ascii) : option Z :=
  let n := Z.of_N (Ascii.N_of_ascii c) in
  if (48 <=? n) && (n <=? 57) then Some (n - 48) else None.

Fixpoint digits_value (acc : Z) (s : string) : option Z :=
  match s with
  | "" => Some acc
  | String c rest =>
      match digit_value c with
      | Some d => digits_value (10 * acc + d) rest
      | None => None
      end
  end.

Definition natural (s : string) : option Z :=
  match s with
  | "" => None
  | _ => digits_value 0 s
  end.

Definition signed (read : string -> option Decimal) (s : string)
  : option Decimal :=
  match s with
  | String "-" rest =>
      (fun d => mkDecimal (- coef d) (dexp d)) <$> read rest
  | _ => read s
  end.

(** The text before and after the first ['.'], if there is one. *)
Fixpoint split_point (s : string) : string * option string :=
  match s with
  | "" => ("", None)
  | String "." rest => ("", Some rest)
  | String c rest =>
      let (whole, frac) := split_point rest in (String c whole, frac)
  end.

Definition unsigned_decimal (s : string) : option Decimal :=
  match split_point s with
  | (whole, None) => (fun n => mkDecimal n 0) <$> natural whole
  | (whole, Some frac) =>
      match natural (whole +:+ frac) with
      | Some n =>
          if bool_decide (whole = "") || bool_decide (frac = "") then None
          else Some (mkDecimal n (- Z.of_nat (String.length frac)))
      | None => None
      end
  end.

Definition int (s : string) : option Z :=
  coef <$> signed (fun t => (fun n => mkDecimal n 0) <$> natural t) s.

Definition decimal (s : string) : option Decimal := signed unsigned_decimal s.

(** ** Base64 *)

Definition char_of_sextet (n : N) : ascii :=
  (if n <? 26 then Ascii.ascii_of_N (65 + n)
   else if n <? 52 then Ascii.ascii_of_N (71 + n)
   else if n <? 62 then Ascii.ascii_of_N (n - 4)
   else if n =? 62 then "+"%char else "/"%char)%N.

Definition sextet_of_char (c : ascii) : option N :=
  (let n := Ascii.N_of_ascii c in
   if (65 <=? n) && (n <=? 90) then Some (n - 65)
   else if (97 <=? n) && (n <=? 122) then Some (n - 71)
   else if (48 <=? n) && (n <=? 57) then Some (n + 4)
   else if n =? 43 then Some 62
   else if n =? 47 then Some 63
   else None)%N.

Definition byte (n : N) : ascii := Ascii.ascii_of_N (n mod 256).
Definition code (c : ascii) : N := Ascii.N_of_ascii c.
Definition pad : ascii := "="%char.

Fixpoint encode (data : string) : string :=
  match data with
  | "" => ""
  | String a "" =>
      (let a := code a in
       String (char_of_sextet (a / 4))
         (String (char_of_sextet ((a mod 4) * 16))
            (String pad (String pad ""))))%N
  | String a (String b "") =>
      (let a := code a in
       let b := code b in
       String (char_of_sextet (a / 4))
         (String (char_of_sextet ((a mod 4) * 16 + b / 16))
            (String (char_of_sextet ((b mod 16) * 4))
               (String pad ""))))%N
  | String a (String b (String c rest)) =>
      (let a := code a in
       let b := code b in
       let c := code c in
       String (char_of_sextet (a / 4))
         (String (char_of_sextet ((a mod 4) * 16 + b / 16))
            (String (char_of_sextet ((b mod 16) * 4 + c / 64))
               (String (char_of_sextet (c mod 64)) (encode rest)))))%N
  end.

(** The bytes of one group of four characters; the last group may end
    with one or two padding characters. *)
Definition decode_group (c1 c2 c3 c4 : ascii) (final : bool) : option string :=
  match sextet_of_char c1, sextet_of_char c2 with
  | Some s1, Some s2 =>
      let b1 := byte (s1 * 4 + s2 / 16)%N in
      if final && bool_decide (c3 = pad) && bool_decide (c4 = pad)
      then Some (String b1 "")
      else
        match sextet_of_char c3 with
        | Some s3 =>
            let b2 := byte ((s2 mod 16) * 16 + s3 / 4)%N in
            if final && bool_decide (c4 = pad)
            then Some (String b1 (String b2 ""))
            else
              match sextet_of_char c4 with
              | Some s4 =>
                  let b3 := byte ((s3 mod 4) * 64 + s4)%N in
                  Some (String b1 (String b2 (String b3 "")))
              | None => None
              end
        | None => None
        end
  | _, _ => None
  end.

Fixpoint decode (text : string) : option string :=
  match text with
  | "" => Some ""
  | String c1 (String c2 (String c3 (String c4 rest))) =>
      match decode_group c1 c2 c3 c4 (bool_decide (rest = "")), decode rest with
      | Some bytes, Some more => Some (bytes +:+ more)
      | _, _ => None
      end
  | _ => None
  end.

(** ** JSON text of string dictionaries *)

Definition dq : ascii := Ascii.ascii_of_nat 34.
Definition bs : ascii := Ascii.ascii_of_nat 92.

(** A string literal: quotes and backslashes are escaped. *)
Fixpoint escape (s : string) : string :=
  match s with
  | "" => ""
  | String c rest =>
      if bool_decide (c = dq) || bool_decide (c = bs)
      then String bs (String c (escape rest))
      else String c (escape rest)
  end.

Definition quote (s : string) : string :=
  String dq (escape s) +:+ String dq "".

Fixpoint dumps (v : JSON) : string :=
  match v with
  | JNull => "null"
  | JBool true => "true"
  | JBool false => "false"
  | JNum text => text
  | JStr s => quote s
  | JArr xs =>
      "[" +:+ (fix items (xs : list JSON) : string :=
                 match xs with
                 | [] => ""
                 | [x] => dumps x
                 | x :: rest => dumps x +:+ ", " +:+ items rest
                 end) xs +:+ "]"
  | JObj fields =>
      "{" +:+ (fix members (fs : list (string * JSON)) : string :=
                 match fs with
                 | [] => ""
                 | [(k, x)] => quote k +:+ ": " +:+ dumps x
                 | (k, x) :: rest =>
                     quote k +:+ ": " +:+ dumps x +:+ ", " +:+ members rest
                 end) fields +:+ "}"
  end.

(** The body of a string literal up to its closing quote, and the text
    after it. *)
Fixpoint read_body (s : string) : option (string * string) :=
  match s with
  | "" => None
  | String c rest =>
      if bool_decide (c = dq) then Some ("", rest)
      else if bool_decide (c = bs) then
        match rest with
        | String c' rest' =>
            match read_body rest' with
            | Some (body, after) => Some (String c' body, after)
            | None => None
            end
        | "" => None
        end
      else
        match read_body rest with
        | Some (body, after) => Some (String c body, after)
        | None => None
        end
  end.

(** [expect p s]: the text of [s] after the prefix [p]. *)
Fixpoint expect (p s : string) : option string :=
  match p, s with
  | "", _ => Some s
  | String a p', String b s' => if bool_decide (a = b) then expect p' s' else None
  | _, _ => None
  end.

Definition read_member (name : string) (s : string) : option (string * string) :=
  match expect (quote name +:+ ": " +:+ String dq "") s with
  | Some rest => read_body rest
  | None => None
  end.

(** The reader: a dictionary with the two key attributes, in the
    writer's layout. *)
Definition loads (s : string) : option JSON :=
  match expect "{" s with
  | Some s1 =>
      match read_member "PK" s1 with
      | Some (pk, s2) =>
          match expect ", " s2 with
          | Some s3 =>
              match read_member "SK" s3 with
              | Some (sk, "}") => Some (JObj [("PK", JStr pk); ("SK", JStr sk)])
              | _ => None
              end
          | None => None
          end
      | None => None
      end
  | None => None
  end.

(** The percentage is shown as the rate's coefficient; the float
    rendering of the source is not reproduced. *)
Definition percent (rate : Decimal) : string :=
  Datetime.digits 4 (Z.to_N (Z.abs (coef rate))).

#[global] Instance lib : PyLib := {
  py_int := int;
  py_Decimal := decimal;
  b64encode := encode;
  b64decode := decode;
  json_dumps := dumps;
  json_loads := loads;
  fmt_percent := percent
}.

End PlainLib.

(* ===================================================================== *)
(** * auth.py: group checks and the authorization decorator *)
(* ===================================================================== *)

(** What a handler answers: the payload of a 200 response, or the status
    code of an error response. *)
Inductive Reply (A : Type) : Type :=
| Success (a : A)
| Failure (status : Z).
Arguments Success {A} a.
Arguments Failure {A} status.

(** The two [except] clauses every handler ends with: a
    [FamilyBankError] is answered with its status code, any other
    exception with 500. *)
Definition reply_of {A} (r : result A) : Reply A :=
  match r with
  | Ok a => Success a
  | Raise e => Failure (default 500 (status_code e))
  end.

(** The same two clauses with their log lines. *)
Definition answer_error {A} (e : Exn) (w : World) : Reply A * World :=
  match status_code e with
  | Some status => (Failure status, logged WARNING "Business logic error" w)
  | None => (Failure 500, logged ERROR "Unexpected error" w)
  end.

(** A [BadRequestError] (status 400) raised by a handler. *)
Definition bad_request {A} (w : World) : Reply A * World :=
  (Failure 400, logged WARNING "Business logic error" w).

(** The authorizer context the decorator adds to the event. *)
Record AuthContext : Type := mkAuthContext {
  auth_userId : string;
  auth_groups : list string
}.

(** [is_child(groups)] *)
Definition is_child (groups : list string) : bool :=
  existsb (String.eqb "Children") groups.

(** [any(group in groups for group in required_groups)] *)
Definition in_required_group (required_groups groups : list string) : bool :=
  existsb (fun group => existsb (String.eqb group) groups) required_groups.

(** [authorize(required_groups)(func)]: [verified] is the outcome of
    [verify_jwt] on the bearer token, which fails with
    [UnauthorizedError] only ([None]); a list of required groups that is
    absent or empty admits every authenticated caller. *)
Definition authorize {A} (required_groups : option (list string))
    (verified : option AuthContext)
    (func : AuthContext -> World -> Reply A * World) (w : World)
  : Reply A * World :=
  match verified with
  | None => (Failure 401, logged WARNING "Authorization failed" w)
  | Some ctx =>
      let w1 := logged INFO "Authenticated user" w in
      match required_groups with
      | Some (g :: gs) =>
          if in_required_group (g :: gs) (auth_groups ctx) then func ctx w1
          else (Failure 403, logged WARNING "Authorization failed" w1)
      | _ => func ctx w1
      end
  end.

(* ===================================================================== *)
(** * adjust_balance.py *)
(* ===================================================================== *)

(** The fields of the JSON body once parsed: the child identifier, the
    text [str(amount)] of the amount and the description, each absent
    when the body has no such field. *)
Record AdjustBody : Type := mkAdjustBody {
  body_childId : option string;
  body_amount : option string;
  body_description : option string
}.

Section AdjustBalanceHandler.

Context {L : PyLib}.

(** The handler body.  [between] is what other clients write after the
    handler has checked the parent and before the adjustment reads the
    balance.  A text that is not a decimal makes [Decimal] raise
    [InvalidOperation], an [ArithmeticError], which the clause for
    [ValueError] and [TypeError] does not catch. *)
Definition adjust_balance_handler (env : Env) (between : Table -> Table)
    (ctx : AuthContext) (body : AdjustBody) (w : World)
  : Reply TransactionDict * World :=
  let parent_id := auth_userId ctx in
  if negb (truthy (body_childId body)) then bad_request w
  else
    let child_id := default "" (body_childId body) in
    match body_amount body with
    | None => bad_request w
    | Some text =>
        match py_Decimal text with
        | None => answer_error InvalidOperation w
        | Some amount =>
            if Dec.is_zero amount then bad_request w
            else
              let w0 := logged INFO "Adjusting balance" w in
              match get_user_profile env child_id w0 with
              | (Raise e, w1) => answer_error e w1
              | (Ok None, w1) => answer_error NotFoundError w1
              | (Ok (Some child), w1) =>
                  if bool_decide (child = ∅) then answer_error NotFoundError w1
                  else if negb (bool_decide
                                  (child !! "parentId" = Some (SAttr parent_id)))
                  then answer_error ForbiddenError w1
                  else
                    match
                      adjust_balance_with_transaction env child_id amount
                        ADJUSTMENT
                        (default "Balance adjustment" (body_description body))
                        parent_id (stored (between (table w1)) w1)
                    with
                    | (Ok transaction, w2) =>
                        (Success transaction,
                         logged INFO "Balance adjusted successfully" w2)
                    | (Raise e, w2) => answer_error e w2
                    end
              end
        end
    end.

(** The endpoint: the handler behind the decorator that admits parents
    only. *)
Definition adjust_balance_endpoint (env : Env) (between : Table -> Table)
    (verified : option AuthContext) (body : AdjustBody) (w : World)
  : Reply TransactionDict * World :=
  authorize (Some ["Parents"]) verified
    (fun ctx => adjust_balance_handler env between ctx body) w.

End AdjustBalanceHandler.

(* ===================================================================== *)
(** * update_user.py *)
(* ===================================================================== *)

(** The fields of the parsed body: the target, the new name and the
    text [str(interestRate)] of the new rate. *)
Record UpdateBody : Type := mkUpdateBody {
  upd_userId : option string;
  upd_name : option string;
  upd_interestRate : option string
}.

Section UpdateUserHandler.

Context {L : PyLib}.

(** The checks of the handler before it touches the profile. *)
Definition may_update (env : Env) (ctx : AuthContext) (body : UpdateBody)
    (w : World) : Reply unit * World :=
  let current_user_id := auth_userId ctx in
  let target_user_id := default current_user_id (upd_userId body) in
  match upd_name body, upd_interestRate body with
  | None, None => bad_request w
  | _, _ =>
      let checked : Reply unit * World :=
        if String.eqb target_user_id current_user_id then (Success tt, w)
        else if negb (is_parent (auth_groups ctx))
        then answer_error ForbiddenError w
        else
          match get_user_profile env target_user_id w with
          | (Raise e, w1) => answer_error e w1
          | (Ok None, w1) => bad_request w1
          | (Ok (Some target_profile), w1) =>
              if bool_decide (target_profile = ∅) then bad_request w1
              else if bool_decide (target_profile !! "parentId"
                                   = Some (SAttr current_user_id))
              then (Success tt, w1)
              else answer_error ForbiddenError w1
          end in
      match checked with
      | (Failure status, w1) => (Failure status, w1)
      | (Success _, w1) =>
          match upd_interestRate body with
          | Some _ =>
              if is_parent (auth_groups ctx) then (Success tt, w1)
              else answer_error ForbiddenError w1
          | None => (Success tt, w1)
          end
      end
  end.

(** The handler body up to the update; the rendering of the updated
    profile as a JSON response is not modelled.  [between] is what other
    clients write after the checks and before the update. *)
Definition update_user_handler (env : Env) (between : Table -> Table)
    (ctx : AuthContext) (body : UpdateBody) (w : World)
  : Reply Item * World :=
  let target_user_id := default (auth_userId ctx) (upd_userId body) in
  match may_update env ctx body w with
  | (Failure status, w1) => (Failure status, w1)
  | (Success _, w1) =>
      let name := if truthy (upd_name body) then upd_name body else None in
      let update (rate : option Decimal) :=
        match
          update_user_profile env target_user_id name rate
            (stored (between (table w1)) w1)
        with
        | (Ok updated_profile, w2) =>
            (Success updated_profile, logged INFO "Updated profile" w2)
        | (Raise e, w2) => answer_error e w2
        end in
      match upd_interestRate body with
      | None => update None
      | Some text =>
          match py_Decimal text with
          | Some rate => update (Some rate)
          | None => answer_error InvalidOperation w1
          end
      end
  end.

End UpdateUserHandler.

(* ===================================================================== *)
(** * get_user.py and get_child_summary.py *)
(* ===================================================================== *)

Section ReadHandlers.

Context {L : PyLib}.

(** The handler of get_user.py up to the profile it renders. *)
Definition get_user_handler (env : Env) (ctx : AuthContext) (w : World)
  : Reply Item * World :=
  let w0 := logged INFO "Fetching profile" w in
  match get_user_profile env (auth_userId ctx) w0 with
  | (Raise e, w1) => answer_error e w1
  | (Ok None, w1) => answer_error NotFoundError w1
  | (Ok (Some user_profile), w1) =>
      if bool_decide (user_profile = ∅) then answer_error NotFoundError w1
      else (Success user_profile, w1)
  end.

(** The handler of get_child_summary.py up to the profile and the
    transactions it renders. *)
Definition get_child_summary_handler (env : Env) (ctx : AuthContext)
    (childId : option string) (w : World)
  : Reply (Item * list Item) * World :=
  let parent_id := auth_userId ctx in
  if negb (truthy childId) then answer_error NotFoundError w
  else
    let child_id := default "" childId in
    let w0 := logged INFO "Fetching summary" w in
    match get_user_profile env child_id w0 with
    | (Raise e, w1) => answer_error e w1
    | (Ok None, w1) => answer_error NotFoundError w1
    | (Ok (Some child_profile), w1) =>
        if bool_decide (child_profile = ∅) then answer_error NotFoundError w1
        else if negb (bool_decide
                        (child_profile !! "parentId" = Some (SAttr parent_id)))
        then answer_error ForbiddenError w1
        else
          match get_transactions env child_id 10 None w1 with
          | (Ok page, w2) => (Success (child_profile, transactions page), w2)
          | (Raise e, w2) => answer_error e w2
          end
    end.

Definition get_child_summary_endpoint (env : Env)
    (verified : option AuthContext) (childId : option string) (w : World)
  : Reply (Item * list Item) * World :=
  authorize (Some ["Parents"]) verified
    (fun ctx => get_child_summary_handler env ctx childId) w.

End ReadHandlers.

(* ===================================================================== *)
(** * Notions used in the statements *)
(* ===================================================================== *)


(** The table after a committed adjustment. *)
Definition committed (tbl : Table) (user_id ts id : string)
    (amount : Decimal) (ty : TransactionType) (desc : string)
    (nb : Decimal) (by_ : string) : Table :=
  <[(KeyPattern.user_pk user_id, KeyPattern.transaction_sk ts id) :=
      Store.strip_key (transaction_item user_id ts id amount ty desc nb by_)]>
  (<[profile_key user_id :=
      Store.apply_set [("balance", NAttr nb); ("updatedAt", SAttr ts)]
                (default ∅ (tbl !! profile_key user_id))]> tbl).

(** The interest of an account and the test that makes the job skip
    it. *)
Definition interest_of (balance rate : Decimal) : Decimal :=
  Dec.quantize_cents (Dec.mul balance rate).


Definition count (t : Tally) : nat := (successful t + skipped t + failed t)%nat.

(* ===================================================================== *)
(** * Sample data: the fixtures of the unit tests and the scenarios *)
(* ===================================================================== *)

(** The fixtures of the unit tests. *)
Definition sample_child_attrs : Item :=
  list_to_map [
    ("GSI1PK", SAttr "PARENT#parent-123");
    ("GSI1SK", SAttr "CHILD#child-456");
    ("GSI2PK", SAttr "ROLE#child");
    ("GSI2SK", SAttr "USER#child-456");
    ("userId", SAttr "child-456");
    ("email", SAttr "child@example.com");
    ("name", SAttr "Jane Doe");
    ("role", SAttr "child");
    ("balance", NAttr (cents 10000));
    ("interestRate", NAttr (mkDecimal 5 (-2)));
    ("parentId", SAttr "parent-123");
    ("createdAt", SAttr "2024-01-01T00:00:00Z");
    ("updatedAt", SAttr "2024-01-01T00:00:00Z")
  ].

Definition sample_world : World :=
  mkWorld {[ ("USER#child-456", "PROFILE") := sample_child_attrs ]} [].

Definition empty_world : World := mkWorld ∅ [].

Definition sample_env : Env :=
  mkEnv (mkDatetime 2024 2 1 0 0 0 250000) "txn-789" None None (fun tbl => tbl).

Definition balance_in (w : World) (user_id : string) : option AttrValue :=
  table w !! profile_key user_id ≫= fun attrs => attrs !! "balance".

Definition records_in (w : World) (user_id : string) : nat :=
  length (Store.partition_desc (table w) (KeyPattern.user_pk user_id) "TRANS#").

Definition deposit_50 : result TransactionDict * World :=
  adjust_balance_with_transaction sample_env "child-456" (cents 5000)
    DEPOSIT "Birthday gift" "parent-123" sample_world.

Definition withdraw_200 : result TransactionDict * World :=
  adjust_balance_with_transaction sample_env "child-456" (cents (-20000))
    WITHDRAWAL "Too much" "child-456" sample_world.

(** Surroundings in which another client sets the balance of the sample
    child to 120.00 between the read and the write. *)
Definition racing_env : Env :=
  mkEnv (mkDatetime 2024 2 1 0 0 0 250000) "txn-790" None None
    (fun tbl =>
       <[("USER#child-456", "PROFILE") :=
           <["balance" := NAttr (cents 12000)]> sample_child_attrs]> tbl).

Definition deposit_10_racing : result TransactionDict * World :=
  adjust_balance_with_transaction racing_env "child-456" (cents 1000)
    DEPOSIT "Pocket money" "parent-123" sample_world.

(** Creating the sample child again, with the default balance. *)
Definition create_again : result Item * World :=
  create_user_profile sample_env "child-456" "child@example.com" "Jane Doe"
    CHILD (Some "parent-123") (cents 0) DEFAULT_INTEREST_RATE sample_world.

(** Renaming a user nobody has created. *)
Definition rename_ghost : result Item * World :=
  update_user_profile sample_env "ghost" (Some "Nobody") None empty_world.

(** The sample child as a row of the role index, and the surroundings of
    the job. *)
Definition sample_child_row : Item :=
  Store.full_item ("USER#child-456", "PROFILE") sample_child_attrs.

Definition interest_run : Tally * World :=
  process_child sample_env sample_child_row (mkTally 0 0 0 [], sample_world).

(** The first page of two of the transactions of a user with three. *)
Definition three_records : World :=
  mkWorld
    (list_to_map [
       (("USER#u", "TRANS#2024-01-01T00:00:00.000001Z#a"), ∅);
       (("USER#u", "TRANS#2024-01-02T00:00:00.000001Z#b"), ∅);
       (("USER#u", "TRANS#2024-01-03T00:00:00.000001Z#c"), ∅);
       (("USER#u", "PROFILE"), ∅) ])
    [].

Definition first_page : result TransactionPage * World :=
  get_transactions sample_env "u" 2 None three_records.

(* ===================================================================== *)
(** * Notions used in the further properties *)
(* ===================================================================== *)

(** One call of the adjustment for a fixed account, with its
    surroundings. *)
Record AdjustCall : Type := mkAdjustCall {
  call_env : Env;
  call_amount : Decimal;
  call_type : TransactionType;
  call_description : string;
  call_initiated_by : string
}.

Section Sequences.

Context {L : PyLib}.

(** A sequence of calls for one account, each started when the one
    before has ended, whatever its outcome. *)
Definition adjust_all (user_id : string) (calls : list AdjustCall) (w : World)
  : World :=
  foldl (fun w call =>
           (adjust_balance_with_transaction (call_env call) user_id
              (call_amount call) (call_type call) (call_description call)
              (call_initiated_by call) w).2)
        w calls.

End Sequences.

(** The account has a stored balance that is a number and not negative. *)
Definition nonneg_balance (tbl : Table) (user_id : string) : Prop :=
  exists (attrs : Item) b,
    tbl !! profile_key user_id = Some attrs
    /\ attrs !! "balance" = Some (NAttr b)
    /\ (0 <= Dec.dval b)%Q.

(** The sort key attribute of an item. *)
Definition sort_key (item : Item) : option string :=
  match item !! "SK" with
  | Some (SAttr sk) => Some sk
  | _ => None
  end.

(* ===================================================================== *)
(** * dynamodb.py: the reads through the indexes and the scan *)
(* ===================================================================== *)

Module Index.

(** The keys of a row in the index with hash attribute [pk_attr] and
    range attribute [sk_attr]: the index is sparse, a row is in it when
    it carries both attributes as strings. *)
Definition index_key (pk_attr sk_attr : string) (attrs : Item)
  : option (string * string) :=
  match attrs !! pk_attr, attrs !! sk_attr with
  | Some (SAttr pk), Some (SAttr sk) => Some (pk, sk)
  | _, _ => None
  end.

(** Ascending order of the range key of the index. *)
Definition index_le (pk_attr sk_attr : string) (a b : Key * Item) : Prop :=
  String.leb (default "" (snd <$> index_key pk_attr sk_attr a.2))
             (default "" (snd <$> index_key pk_attr sk_attr b.2)) = true.

#[global] Instance index_le_dec pk_attr sk_attr a b :
  Decision (index_le pk_attr sk_attr a b).
Proof. unfold index_le. apply _. Defined.

(** The rows of the index under the hash key [pk], in the order a query
    visits them. *)
Definition index_rows (tbl : Table) (pk_attr sk_attr pk : string)
  : list (Key * Item) :=
  merge_sort (index_le pk_attr sk_attr)
    (filter (fun r => bool_decide
                        (fst <$> index_key pk_attr sk_attr r.2 = Some pk))
            (map_to_list tbl)).

(** The rows of the table in the order a scan visits them. *)
Definition scan_rows (tbl : Table) : list (Key * Item) := map_to_list tbl.

(** The rows that follow the row with key [k]. *)
Fixpoint after_key (k : Key) (rows : list (Key * Item)) : list (Key * Item) :=
  match rows with
  | [] => []
  | r :: rest => if bool_decide (r.1 = k) then rest else after_key k rest
  end.

(** One request of a query or scan without [Limit]: the service
    evaluates the rows after the start key, at most [cap] of them (what
    fits into one answer, at least one), hands out those that pass the
    filter, and the key of the last row evaluated unless it ran out of
    rows before the answer was full. *)
Definition read_page (fault : option Fault) (rows : list (Key * Item))
    (keep : Item -> bool) (cap : nat) (start : option Key)
  : result Store.QueryResponse :=
  match fault with
  | Some f => Raise (exn_of_fault f)
  | None =>
      let rest :=
        match start with
        | None => rows
        | Some k => after_key k rows
        end in
      let evaluated := take cap rest in
      Ok (Store.mkQueryResponse
            (filter (fun item => keep item = true)
                    ((fun r => Store.full_item r.1 r.2) <$> evaluated))
            (if (length rest <? cap)%nat then None else fst <$> last evaluated))
  end.

End Index.

(** [while True: response = ...; items.extend(response.get("Items", []));
    if "LastEvaluatedKey" not in response: break;
    params["ExclusiveStartKey"] = response["LastEvaluatedKey"]]: the
    [i]-th request is [request i]; [None] when [fuel] requests were not
    enough. *)
Fixpoint read_all (fuel : nat)
    (request : nat -> option Key -> result Store.QueryResponse)
    (i : nat) (start : option Key) (items : list Item)
  : option (result (list Item)) :=
  match fuel with
  | O => None
  | S fuel' =>
      match request i start with
      | Raise e => Some (Raise e)
      | Ok response =>
          let items' := (items ++ Store.Items response)%list in
          match Store.LastEvaluatedKey response with
          | None => Some (Ok items')
          | Some k => read_all fuel' request (S i) (Some k) items'
          end
      end
  end.

(** The filter of the fallback scan: [#role = :role AND SK = :sk]. *)
Definition is_child_profile (item : Item) : bool :=
  bool_decide (item !! "role" = Some (SAttr (role_value CHILD)))
  && bool_decide (item !! "SK" = Some (SAttr KeyPattern.profile_sk)).

(** [scan_all_children]: [use_gsi] is the setting [USE_ROLE_GSI];
    the [i]-th request meets the fault [faults i] and an answer that
    holds [S (caps i)] rows. *)
Definition scan_all_children (use_gsi : bool) (faults : nat -> option Fault)
    (caps : nat -> nat) (fuel : nat) (w : World)
  : option (result (list Item) * World) :=
  let request (i : nat) (start : option Key) :=
    if use_gsi
    then Index.read_page (faults i)
           (Index.index_rows (table w) "GSI2PK" "GSI2SK"
              (KeyPattern.role_gsi2_pk CHILD))
           (fun _ => true) (S (caps i)) start
    else Index.read_page (faults i) (Index.scan_rows (table w))
           is_child_profile (S (caps i)) start in
  match read_all fuel request 0 None [] with
  | None => None
  | Some (Ok items) => Some (Ok items, w)
  | Some (Raise e) =>
      if is_ClientError e
      then Some (Raise DatabaseError, logged ERROR "Failed to scan children" w)
      else Some (Raise e, w)
  end.

(** The rows each mode of the scan looks for. *)
Definition scanned_row (use_gsi : bool) (k : Key) (attrs : Item) : Prop :=
  if use_gsi
  then attrs !! "GSI2PK" = Some (SAttr "ROLE#child")
       /\ exists sk, attrs !! "GSI2SK" = Some (SAttr sk)
  else attrs !! "role" = Some (SAttr "child") /\ k.2 = "PROFILE".

(** [get_children_for_parent]: one request, whose answer holds [S cap]
    rows; a [LastEvaluatedKey] in the answer is not followed. *)
Definition get_children_for_parent (env : Env) (cap : nat)
    (parent_id : string) (w : World) : result (list Item) * World :=
  match
    Index.read_page (read_fault env)
      (Index.index_rows (table w) "GSI1PK" "GSI1SK"
         (KeyPattern.parent_gsi1_pk parent_id))
      (fun _ => true) (S cap) None
  with
  | Ok response => (Ok (Store.Items response), w)
  | Raise e =>
      if is_ClientError e
      then (Raise DatabaseError, logged ERROR "Failed to get children" w)
      else (Raise e, w)
  end.

(* ===================================================================== *)
(** * list_children.py *)
(* ===================================================================== *)

(** The handler up to the children it renders. *)
Definition list_children_handler (env : Env) (cap : nat) (ctx : AuthContext)
    (w : World) : Reply (list Item) * World :=
  let w0 := logged INFO "Fetching children" w in
  match get_children_for_parent env cap (auth_userId ctx) w0 with
  | (Ok children, w1) => (Success children, logged INFO "Found children" w1)
  | (Raise e, w1) => answer_error e w1
  end.

Definition list_children_endpoint (env : Env) (cap : nat)
    (verified : option AuthContext) (w : World)
  : Reply (list Item) * World :=
  authorize (Some ["Parents"]) verified (list_children_handler env cap) w.

(* ===================================================================== *)
(** * Sample data for the further properties *)
(* ===================================================================== *)

(** What [deposit_50] returns. *)
Definition deposit_50_tx : TransactionDict :=
  mkTransactionDict "txn-789" "child-456" (cents 5000) "deposit"
    "Birthday gift" (cents 15000) "parent-123" "2024-02-01T00:00:00.250000Z".


(** A deposit followed by a withdrawal that the balance does not
    cover. *)
Definition sample_calls : list AdjustCall :=
  [ mkAdjustCall sample_env (cents 5000) DEPOSIT "Birthday gift" "parent-123";
    mkAdjustCall sample_env (cents (-20000)) WITHDRAWAL "Too much" "child-456" ].

(** Creating a second child of the sample parent. *)
Definition create_sibling : result Item * World :=
  create_user_profile sample_env "child-457" "sib@example.com" "John Doe"
    CHILD (Some "parent-123") (cents 0) DEFAULT_INTEREST_RATE sample_world.


(** The history of the sample child after [deposit_50]. *)
Definition history_after_deposit : result TransactionPage * World :=
  get_transactions sample_env "child-456" 10 None deposit_50.2.

(** The callers of the handlers: the parent and the child of the
    fixtures. *)
Definition sample_parent : AuthContext := mkAuthContext "parent-123" ["Parents"].
Definition sample_child : AuthContext := mkAuthContext "child-456" ["Children"].

(** The parent lists the transactions of the child. *)
Definition parent_lists_child : result TransactionPage * World :=
  list_transactions sample_env
    (mkListEvent "parent-123" ["Parents"] (Some {[ "userId" := "child-456" ]}))
    deposit_50.2.

(** The child asks for the transactions of another account. *)
Definition child_asks_other : ListEvent :=
  mkListEvent "child-456" ["Children"] (Some {[ "userId" := "child-457" ]}).

(** The parent deposits 50.00, and tries to withdraw 200.00. *)
Definition parent_deposits : Reply TransactionDict * World :=
  adjust_balance_endpoint sample_env (fun tbl => tbl) (Some sample_parent)
    (mkAdjustBody (Some "child-456") (Some "50.00") (Some "Birthday gift"))
    sample_world.

Definition parent_overdraws : Reply TransactionDict * World :=
  adjust_balance_endpoint sample_env (fun tbl => tbl) (Some sample_parent)
    (mkAdjustBody (Some "child-456") (Some "-200.00") None) sample_world.

(** The parent asks for the summary of the child after the deposit. *)
Definition parent_reads_summary : Reply (Item * list Item) * World :=
  get_child_summary_endpoint sample_env (Some sample_parent)
    (Some "child-456") deposit_50.2.

(** The parent sets the rate of the child to 10 %. *)
Definition parent_sets_rate : Reply Item * World :=
  update_user_handler sample_env (fun tbl => tbl) sample_parent
    (mkUpdateBody (Some "child-456") None (Some "0.10")) sample_world.

(** A child created without a parent identifier. *)
Definition create_orphan : result Item * World :=
  create_user_profile sample_env "child-458" "orphan@example.com" "Ann Roe"
    CHILD None (cents 0) DEFAULT_INTEREST_RATE sample_world.

(** A service that never fails and puts one row into each answer. *)
Definition no_faults : nat -> option Fault := fun _ => None.
Definition one_row_answers : nat -> nat := fun _ => 0%nat.


(** The parent lists the children. *)
Definition parent_lists_children : Reply (list Item) * World :=
  list_children_endpoint sample_env 0 (Some sample_parent) sample_world.

(* ===================================================================== *)
(** * Facts about decimals *)
(* ===================================================================== *)

Module DecFacts.

Import Dec.

Lemma ten_neq_0 : ~ (inject_Z 10 == 0)%Q.
Proof. discriminate. Qed.

Lemma pow10_pos (e : Z) : (0 < Qpower (inject_Z 10) e)%Q.
Proof. apply Qpower_0_lt. reflexivity. Qed.

(** Writing a decimal with a smaller exponent does not change the
    number it denotes. *)
Lemma dval_scaled (e : Z) (d : Decimal) :
  e <= dexp d ->
  (dval d == inject_Z (scaled e d) * Qpower (inject_Z 10) e)%Q.
Proof.
  intros He. unfold dval, scaled.
  replace (dexp d) with ((dexp d - e) + e) at 1 by lia.
  rewrite Qpower_plus by apply ten_neq_0.
  rewrite inject_Z_mult.
  rewrite (Zpower_Qpower 10 (dexp d - e)) by lia.
  ring.
Qed.

(** Addition is exact. *)
Lemma dval_add (a b : Decimal) : (dval (a +d b) == dval a + dval b)%Q.
Proof.
  set (e := Z.min (dexp a) (dexp b)).
  rewrite (dval_scaled e a), (dval_scaled e b) by (unfold e; lia).
  unfold dval, add; cbn [coef dexp]. fold e.
  rewrite inject_Z_plus. ring.
Qed.


(** The three tests read the sign of the number. *)
Lemma is_neg_spec (d : Decimal) : is_neg d = true <-> (dval d < 0)%Q.
Proof.
  unfold is_neg, dval. rewrite Z.ltb_lt.
  pose proof (pow10_pos (dexp d)) as Hp.
  split; intros H.
  - rewrite <- (Qmult_0_l (Qpower (inject_Z 10) (dexp d))).
    apply Qmult_lt_compat_r; [exact Hp|].
    unfold Qlt; cbn. lia.
  - destruct (Z_lt_ge_dec (coef d) 0) as [Hlt|Hge]; [exact Hlt|exfalso].
    apply (Qlt_not_le _ _ H).
    apply Qmult_le_0_compat; [|apply Qlt_le_weak, Hp].
    unfold Qle; cbn. lia.
Qed.

Lemma is_neg_false (d : Decimal) : is_neg d = false <-> (0 <= dval d)%Q.
Proof.
  split; intros H.
  - apply Qnot_lt_le. intros Hlt. apply is_neg_spec in Hlt. congruence.
  - destruct (is_neg d) eqn:E; [|reflexivity].
    apply is_neg_spec in E. exfalso. exact (Qlt_not_le _ _ E H).
Qed.

Lemma is_zero_spec (d : Decimal) : is_zero d = true <-> (dval d == 0)%Q.
Proof.
  unfold is_zero, dval. rewrite Z.eqb_eq.
  pose proof (pow10_pos (dexp d)) as Hp.
  split; intros H.
  - rewrite H. ring.
  - apply Qmult_integral in H. destruct H as [H|H].
    + apply (inject_Z_injective (coef d) 0). exact H.
    + rewrite H in Hp. exfalso. exact (Qlt_irrefl _ Hp).
Qed.

(** Numeric equality is equality of the numbers denoted. *)
Lemma eqb_spec (a b : Decimal) : eqb a b = true <-> (dval a == dval b)%Q.
Proof.
  set (e := Z.min (dexp a) (dexp b)).
  rewrite (dval_scaled e a), (dval_scaled e b) by (unfold e; lia).
  unfold eqb. fold e. rewrite Z.eqb_eq.
  pose proof (pow10_pos e) as Hp.
  split; intros H.
  - rewrite H. reflexivity.
  - apply inject_Z_injective.
    apply (Qmult_inj_r _ _ (Qpower (inject_Z 10) e)); [|exact H].
    intros H0. rewrite H0 in Hp. exact (Qlt_irrefl _ Hp).
Qed.

Lemma eqb_refl (a : Decimal) : eqb a a = true.
Proof. apply eqb_spec. reflexivity. Qed.





End DecFacts.

(* ===================================================================== *)
(** * Facts about the order of strings *)
(* ===================================================================== *)

Module StringOrder.

Lemma ltb_compare (a b : string) : String.ltb a b = true <-> String.compare a b = Lt.
Proof. unfold String.ltb. destruct (String.compare a b); split; congruence. Qed.

Lemma leb_compare (a b : string) : String.leb a b = true <-> String.compare a b <> Gt.
Proof. unfold String.leb. destruct (String.compare a b); split; congruence. Qed.

Lemma compare_refl (a : string) : String.compare a a = Eq.
Proof. induction a as [|c a IH]; cbn; [reflexivity|]. unfold Ascii.compare. rewrite N.compare_refl. exact IH. Qed.

Lemma ltb_irrefl (a : string) : String.ltb a a = false.
Proof. unfold String.ltb. rewrite compare_refl. reflexivity. Qed.

Lemma ltb_leb (a b : string) : String.ltb a b = negb (String.leb b a).
Proof.
  unfold String.ltb, String.leb. rewrite (String.compare_antisym b a).
  destruct (String.compare a b); reflexivity.
Qed.

Lemma ltb_asym (a b : string) : String.ltb a b = true -> String.ltb b a = false.
Proof.
  unfold String.ltb. rewrite (String.compare_antisym b a).
  destruct (String.compare a b); cbn; congruence.
Qed.

Lemma leb_trans (a b c : string) :
  String.leb a b = true -> String.leb b c = true -> String.leb a c = true.
Proof.
  intros H1 H2. apply Is_true_true.
  apply (transitivity (R := String.le) (y := b)); apply Is_true_true; assumption.
Qed.

Lemma ltb_iff (a b : string) :
  String.ltb a b = true <-> String.leb a b = true /\ a <> b.
Proof.
  unfold String.ltb, String.leb. split.
  - destruct (String.compare a b) eqn:E; try discriminate.
    intros _. split; [reflexivity|]. intros ->. rewrite compare_refl in E. discriminate.
  - intros [H Hne]. destruct (String.compare a b) eqn:E; try congruence.
    apply String.compare_eq_iff in E. contradiction.
Qed.

Lemma ltb_trans (a b c : string) :
  String.ltb a b = true -> String.ltb b c = true -> String.ltb a c = true.
Proof.
  intros H1 H2. apply ltb_iff. apply ltb_iff in H1 as [L1 N1], H2 as [L2 N2].
  split; [eapply leb_trans; eassumption|].
  intros ->. apply N1. apply String.leb_antisym; assumption.
Qed.

(** Appending. *)
Lemma app_nil (s : string) : EmptyString +:+ s = s.
Proof. reflexivity. Qed.

Lemma app_cons (c : ascii) (a b : string) :
  String c a +:+ b = String c (a +:+ b).
Proof. reflexivity. Qed.

Lemma app_assoc (a b c : string) : (a +:+ b) +:+ c = a +:+ (b +:+ c).
Proof.
  induction a as [|x a IH]; [reflexivity|].
  rewrite !app_cons, IH. reflexivity.
Qed.

Lemma app_length (a b : string) :
  String.length (a +:+ b) = (String.length a + String.length b)%nat.
Proof. induction a as [|c a IH]; [reflexivity|]. rewrite app_cons. cbn. lia. Qed.

Lemma ascii_compare_refl (c : ascii) : Ascii.compare c c = Eq.
Proof. unfold Ascii.compare. apply N.compare_refl. Qed.

(** Comparing two texts that start with the same text. *)
Lemma compare_app_same (p s t : string) :
  String.compare (p +:+ s) (p +:+ t) = String.compare s t.
Proof.
  induction p as [|c p IH]; [reflexivity|].
  rewrite !app_cons. cbn [String.compare]. rewrite ascii_compare_refl. exact IH.
Qed.

(** Comparing two texts that start with fields of the same width. *)
Lemma compare_app_field (x y s t : string) :
  String.length x = String.length y ->
  String.compare (x +:+ s) (y +:+ t)
  = match String.compare x y with
    | Eq => String.compare s t
    | c => c
    end.
Proof.
  revert y. induction x as [|a x IH]; intros [|b y] Hlen; try discriminate.
  - reflexivity.
  - rewrite !app_cons. cbn [String.compare].
    destruct (Ascii.compare a b); [|reflexivity..].
    apply IH. cbn in Hlen. lia.
Qed.

End StringOrder.

(* ===================================================================== *)
(** * Facts about the table service *)
(* ===================================================================== *)

Module StoreFacts.

Import Store.

Lemma full_item_lookup (k : Key) (attrs : Item) (name : string) :
  name <> "PK" -> name <> "SK" -> full_item k attrs !! name = attrs !! name.
Proof.
  intros H1 H2. unfold full_item.
  rewrite lookup_insert_ne by congruence.
  rewrite lookup_insert_ne by congruence. reflexivity.
Qed.

Lemma full_item_PK (k : Key) (attrs : Item) :
  full_item k attrs !! "PK" = Some (SAttr k.1).
Proof. unfold full_item. apply lookup_insert_eq. Qed.

Lemma start_key_of_json (k : Key) : start_key (key_to_json k) = Ok k.
Proof. destruct k; reflexivity. Qed.

Lemma full_item_nonempty (k : Key) (attrs : Item) : full_item k attrs <> ∅.
Proof. unfold full_item. apply insert_non_empty. Qed.

(** The condition of the balance update holds exactly when the row
    exists and its balance is a number equal to the expected one. *)
Lemma balance_condition (tbl : Table) (k : Key) (expected : Decimal) :
  holds (cond_and (attribute_exists "PK")
                  (attr_equals "balance" (NAttr expected)))
        (full_item k <$> tbl !! k) = true
  <-> exists attrs found,
        tbl !! k = Some attrs
        /\ attrs !! "balance" = Some (NAttr found)
        /\ Dec.eqb found expected = true.
Proof.
  cbn [holds]. destruct (tbl !! k) as [attrs|] eqn:E; cbn.
  - rewrite full_item_PK, full_item_lookup by discriminate.
    rewrite bool_decide_eq_true_2 by eauto. cbn.
    destruct (attrs !! "balance") as [[s|d]|] eqn:Eb; cbn.
    + split; [discriminate|]. intros (? & ? & [= <-] & H & _). congruence.
    + split.
      * intros H. exists attrs, d. auto.
      * intros (? & ? & [= <-] & H1 & H). congruence.
    + split; [discriminate|]. intros (? & ? & [= <-] & H & _). congruence.
  - split; [discriminate|]. intros (? & ? & [=] & _).
Qed.


(** ** Pages *)

#[local] Instance sk_desc_total : Total sk_desc.
Proof.
  intros a b. unfold sk_desc.
  destruct (String.leb_total a.1.2 b.1.2); auto.
Qed.

#[local] Instance sk_desc_trans : Transitive sk_desc.
Proof.
  intros a b c. unfold sk_desc. intros H1 H2.
  eapply StringOrder.leb_trans; eassumption.
Qed.

Lemma partition_desc_elem (tbl : Table) (pk sk_prefix : string) (r : Key * Item) :
  r ∈ partition_desc tbl pk sk_prefix ->
  tbl !! r.1 = Some r.2 /\ r.1.1 = pk /\ String.prefix sk_prefix r.1.2 = true.
Proof.
  unfold partition_desc. rewrite merge_sort_Permutation.
  rewrite list_elem_of_filter. intros [Hp Hin].
  apply andb_prop_elim in Hp as [Hpk Hpre].
  apply bool_decide_unpack in Hpk. apply Is_true_true in Hpre.
  destruct r as [k attrs]. apply elem_of_map_to_list in Hin. auto.
Qed.

(** The rows of a partition come in strictly descending order of their
    sort keys. *)
Lemma partition_desc_sorted (tbl : Table) (pk sk_prefix : string) :
  StronglySorted strictly_desc (partition_desc tbl pk sk_prefix).
Proof.
  assert (Hnd : NoDup (partition_desc tbl pk sk_prefix)).
  { unfold partition_desc. rewrite merge_sort_Permutation.
    apply NoDup_filter, NoDup_map_to_list. }
  assert (Hel := partition_desc_elem tbl pk sk_prefix).
  assert (Hs : StronglySorted sk_desc (partition_desc tbl pk sk_prefix)).
  { unfold partition_desc. apply StronglySorted_merge_sort; apply _. }
  induction Hs as [|x l Hs IH Hx]; [constructor|].
  apply NoDup_cons in Hnd as [Hnotin Hnd].
  constructor.
  - apply IH; [exact Hnd|]. intros r Hr. apply Hel. right. exact Hr.
  - apply Forall_forall. intros y Hy.
    rewrite Forall_forall in Hx. specialize (Hx y Hy).
    unfold sk_desc in Hx. unfold strictly_desc.
    apply StringOrder.ltb_iff. split; [exact Hx|].
    intros Heq.
    destruct (Hel x) as (Hx1 & Hx2 & _); [left|].
    destruct (Hel y) as (Hy1 & Hy2 & _); [right; exact Hy|].
    assert (Hk : y.1 = x.1).
    { destruct x as [[a b] xa], y as [[c d] ya]. cbn in *. congruence. }
    apply Hnotin. rewrite Hk in Hy1. rewrite Hx1 in Hy1.
    destruct x as [kx ax], y as [ky ay]. cbn in *. injection Hy1 as <-.
    subst ky. exact Hy.
Qed.

Lemma filter_none {A} (P : A -> Prop) `{forall x, Decision (P x)} (l : list A) :
  Forall (fun x => ~ P x) l -> filter P l = [].
Proof.
  induction 1 as [|x l Hx _ IH]; [reflexivity|].
  rewrite filter_cons_False by exact Hx. exact IH.
Qed.

Lemma filter_all {A} (P : A -> Prop) `{forall x, Decision (P x)} (l : list A) :
  Forall P l -> filter P l = l.
Proof.
  induction 1 as [|x l Hx _ IH]; [reflexivity|].
  rewrite filter_cons_True by exact Hx. rewrite IH. reflexivity.
Qed.

(** In a strictly descending list, the rows below the last row of the
    first [n] are the rows after the first [n]. *)
Lemma rows_below_last (l : list (Key * Item)) (n : nat) (r : Key * Item) :
  StronglySorted strictly_desc l ->
  last (take n l) = Some r ->
  filter (fun x => String.ltb x.1.2 r.1.2) l = drop n l.
Proof.
  intros Hs Hlast.
  apply last_Some in Hlast as [l1 Hl1].
  rewrite <- (take_drop n l) in Hs |- * at 1. rewrite Hl1 in Hs |- *.
  rewrite <- (assoc_L (++)) in Hs.
  apply StronglySorted_app in Hs as (H12 & _ & Hs2).
  apply StronglySorted_inv in Hs2 as [_ Hr].
  rewrite !filter_app.
  rewrite (filter_none _ l1), (filter_none _ [r]), (filter_all _ (drop n l)).
  - reflexivity.
  - eapply Forall_impl; [exact Hr|]. intros y Hy. apply Is_true_true. exact Hy.
  - constructor; [|constructor].
    rewrite StringOrder.ltb_irrefl. exact id.
  - apply Forall_forall. intros x Hx Hlt. apply Is_true_true in Hlt.
    specialize (H12 x r Hx). unfold strictly_desc in H12.
    rewrite (StringOrder.ltb_asym _ _ Hlt) in H12.
    discriminate H12. left.
Qed.

Lemma StronglySorted_filter {A} (R : relation A) (P : A -> Prop)
    `{forall x, Decision (P x)} (l : list A) :
  StronglySorted R l -> StronglySorted R (filter P l).
Proof.
  induction 1 as [|x l Hs IH Hx]; [constructor|].
  rewrite filter_cons. destruct (decide (P x)); [|exact IH].
  constructor; [exact IH|].
  apply Forall_forall. intros y Hy. apply list_elem_of_filter in Hy as [_ Hy].
  rewrite Forall_forall in Hx. auto.
Qed.

Lemma page_of_items (limit : Z) (rows : list (Key * Item)) :
  Items (page_of limit rows)
  = (fun r => full_item r.1 r.2) <$> take (Z.to_nat limit) rows.
Proof. reflexivity. Qed.

(** The key handed out with a page is the key of its last row. *)
Lemma page_of_last_key (limit : Z) (rows : list (Key * Item)) (k : Key) :
  LastEvaluatedKey (page_of limit rows) = Some k ->
  exists r, last (take (Z.to_nat limit) rows) = Some r /\ r.1 = k.
Proof.
  unfold page_of. cbn [LastEvaluatedKey].
  destruct (_ <? _); [discriminate|].
  destruct (last _) as [r|]; [|discriminate].
  intros [= <-]. eauto.
Qed.

(** The rows a scan has to visit after a start key, whatever the start
    key, are strictly descending and belong to the partition. *)
Lemma rows_after_sorted (tbl : Table) (pk sk_prefix : string) (start : option Key) :
  StronglySorted strictly_desc
    (rows_after (partition_desc tbl pk sk_prefix) start).
Proof.
  destruct start as [k0|]; cbn [rows_after].
  - apply StronglySorted_filter, partition_desc_sorted.
  - apply partition_desc_sorted.
Qed.

(** Resuming after the key handed out with a page visits the rows that
    follow the page. *)
Lemma rows_after_resume (tbl : Table) (pk sk_prefix : string)
    (start : option Key) (n : nat) (r : Key * Item) :
  let rows := partition_desc tbl pk sk_prefix in
  last (take n (rows_after rows start)) = Some r ->
  rows_after rows (Some r.1) = drop n (rows_after rows start).
Proof.
  intros rows Hlast. subst rows.
  rewrite <- (rows_below_last _ n r (rows_after_sorted tbl pk sk_prefix start) Hlast).
  destruct start as [k0|]; cbn [rows_after]; [|reflexivity].
  rewrite list_filter_filter. apply list_filter_iff. intros x.
  split; [|tauto]. intros Hx. split; [exact Hx|].
  assert (Hr : r ∈ filter (fun x => String.ltb x.1.2 k0.2)
                     (partition_desc tbl pk sk_prefix)).
  { apply last_Some_elem_of in Hlast. apply elem_of_take in Hlast as (i & Hi & _).
    eapply list_elem_of_lookup_2. exact Hi. }
  apply list_elem_of_filter in Hr as [Hr _].
  apply Is_true_true in Hx, Hr. apply Is_true_true.
  eapply StringOrder.ltb_trans; eassumption.
Qed.

(** Two consecutive pages of a scan are the page of the two limits
    together: the second query resumes exactly where the first page
    ended. *)
Theorem query_resumes (tbl : Table) (pk sk_prefix : string) (n1 n2 : Z)
    (start : option JSON) (resp1 : QueryResponse) (k : Key) :
  0 < n2 ->
  query None tbl pk sk_prefix n1 start = Ok resp1 ->
  LastEvaluatedKey resp1 = Some k ->
  exists resp2 resp12,
    query None tbl pk sk_prefix n2 (Some (key_to_json k)) = Ok resp2
    /\ query None tbl pk sk_prefix (n1 + n2) start = Ok resp12
    /\ (Items resp1 ++ Items resp2)%list = Items resp12.
Proof.
  intros Hn2. unfold query.
  destruct (Z.leb_spec n1 0) as [|Hn1]; [discriminate|].
  destruct (Z.leb_spec n2 0) as [|_]; [lia|].
  destruct (Z.leb_spec (n1 + n2) 0) as [|_]; [lia|].
  set (rows := partition_desc tbl pk sk_prefix).
  assert (Hgen : forall s : option Key,
            LastEvaluatedKey (page_of n1 (rows_after rows s)) = Some k ->
            k.1 = pk
            /\ (Items (page_of n1 (rows_after rows s))
                ++ Items (page_of n2 (rows_after rows (Some k))))%list
               = Items (page_of (n1 + n2) (rows_after rows s))).
  { intros s Hk. apply page_of_last_key in Hk as (r & Hlast & <-).
    split.
    - apply last_Some_elem_of in Hlast.
      apply elem_of_take in Hlast as (i & Hi & _).
      apply list_elem_of_lookup_2 in Hi.
      assert (Hin : r ∈ rows).
      { destruct s; cbn [rows_after] in Hi; [|exact Hi].
        apply list_elem_of_filter in Hi as [_ Hi]. exact Hi. }
      apply partition_desc_elem in Hin. tauto.
    - unfold rows. rewrite (rows_after_resume tbl pk sk_prefix s _ r Hlast).
      fold rows. rewrite !page_of_items, <- fmap_app, take_take_drop.
      rewrite Z2Nat.inj_add by lia. reflexivity. }
  rewrite start_key_of_json.
  destruct start as [v|].
  - destruct (start_key v) as [k0|e]; [|discriminate].
    destruct (String.eqb k0.1 pk); [|discriminate].
    intros [= <-] Hk. destruct (Hgen (Some k0) Hk) as [Hpk Hitems].
    rewrite Hpk, String.eqb_refl. eauto.
  - intros [= <-] Hk. destruct (Hgen None Hk) as [Hpk Hitems].
    rewrite Hpk, String.eqb_refl. eauto.
Qed.

End StoreFacts.

(* ===================================================================== *)
(** * The balance adjustment *)
(* ===================================================================== *)

Section AdjustFacts.

Context {L : PyLib}.

Import Store StoreFacts.

Lemma get_user_profile_ok (env : Env) (user_id : string) (w : World) :
  read_fault env = None ->
  get_user_profile env user_id w
  = (Ok (full_item (profile_key user_id) <$> table w !! profile_key user_id), w).
Proof. intros H. unfold get_user_profile, get_item. rewrite H. reflexivity. Qed.

Lemma get_user_profile_fault (env : Env) (user_id : string) (w : World) f :
  read_fault env = Some f ->
  get_user_profile env user_id w
  = (Raise DatabaseError, logged ERROR "Failed to get user profile" w).
Proof.
  intros H. unfold get_user_profile, get_item. rewrite H.
  destruct f; reflexivity.
Qed.

(** A read never changes the table. *)
Lemma get_user_profile_table (env : Env) (user_id : string) (w : World) :
  table (get_user_profile env user_id w).2 = table w.
Proof.
  destruct (read_fault env) as [f|] eqn:E.
  - erewrite get_user_profile_fault by eauto. reflexivity.
  - rewrite get_user_profile_ok by assumption. reflexivity.
Qed.

Lemma transaction_item_key user_id ts id amount ty desc nb by_ :
  key_of (transaction_item user_id ts id amount ty desc nb by_)
  = Some (KeyPattern.user_pk user_id, KeyPattern.transaction_sk ts id).
Proof. reflexivity. Qed.

Lemma transaction_key_fresh user_id ts id :
  (KeyPattern.user_pk user_id, KeyPattern.transaction_sk ts id)
  <> profile_key user_id.
Proof. unfold profile_key. intros [= H]. Qed.

(** The answer of the service to the transactional write when it does
    not fail by itself. *)
Lemma transact_answer tbl user_id ts id amount ty desc cur nb by_ :
  transact_write_items None tbl
    [ balance_update user_id ts cur nb;
      Put (transaction_item user_id ts id amount ty desc nb by_) ]
  = if holds (cond_and (attribute_exists "PK")
                       (attr_equals "balance" (NAttr cur)))
             (full_item (profile_key user_id) <$> tbl !! profile_key user_id)
    then Ok (committed tbl user_id ts id amount ty desc nb by_)
    else Raise (TransactionCanceledException ["ConditionalCheckFailed"; "None"]).
Proof.
  unfold transact_write_items.
  cbn [forallb well_formed balance_update negb andb].
  rewrite transaction_item_key.
  rewrite bool_decide_eq_true_2 by eauto.
  cbn [negb andb fmap list_fmap reason balance_update].
  destruct (holds _ _); reflexivity.
Qed.

(** The function once its read has found a row with a numeric
    balance. *)
Lemma adjust_unfold env user_id amount ty desc by_ w attrs b :
  read_fault env = None ->
  table w !! profile_key user_id = Some attrs ->
  attrs !! "balance" = Some (NAttr b) ->
  adjust_balance_with_transaction env user_id amount ty desc by_ w
  = if Dec.is_neg (b +d amount) then (Raise InsufficientFundsError, w)
    else
      let ts := utc_timestamp (now env) in
      let w2 := stored (concurrent env (table w)) w in
      match
        transact_write_items (write_fault env) (table w2)
          [ balance_update user_id ts b (b +d amount);
            Put (transaction_item user_id ts (uuid4 env) amount ty desc
                   (b +d amount) by_) ]
      with
      | Ok tbl =>
          (Ok (mkTransactionDict (uuid4 env) user_id amount (type_value ty)
                 desc (b +d amount) by_ ts),
           logged INFO "Transaction successful" (stored tbl w2))
      | Raise (TransactionCanceledException codes) =>
          let (e, w3) := on_cancellation codes w2 in (Raise e, w3)
      | Raise e =>
          if is_ClientError e
          then (Raise DatabaseError, logged ERROR "Transaction failed" w2)
          else (Raise e, w2)
      end.
Proof.
  intros Hr Hrow Hb. unfold adjust_balance_with_transaction.
  rewrite get_user_profile_ok by assumption. rewrite Hrow. cbn [fmap option_fmap option_map].
  rewrite bool_decide_eq_false_2 by apply full_item_nonempty.
  rewrite full_item_lookup by discriminate. rewrite Hb. cbn [Decimal_of_attr].
  reflexivity.
Qed.

End AdjustFacts.

Section AdjustClaims.

Context {L : PyLib}.

Import Store StoreFacts DecFacts.

(** C10.  When no profile row is stored for [user_id], the adjustment
    never changes the table, whatever its surroundings; and when its
    read is answered, it fails with [NotFoundError] and leaves the whole
    world as it was: no row is created or modified and no transaction
    record is written. *)
Theorem adjust_missing_profile_not_found
    env user_id amount ty desc by_ (w : World) :
  table w !! profile_key user_id = None ->
  table (adjust_balance_with_transaction env user_id amount ty desc by_ w).2
  = table w
  /\ (read_fault env = None ->
      adjust_balance_with_transaction env user_id amount ty desc by_ w
      = (Raise NotFoundError, w)).
Proof.
  intros Hnone. unfold adjust_balance_with_transaction.
  destruct (read_fault env) as [f|] eqn:Hr.
  - erewrite get_user_profile_fault by eauto. split; [reflexivity|discriminate].
  - rewrite get_user_profile_ok by assumption. rewrite Hnone. cbn.
    split; reflexivity.
Qed.


End AdjustClaims.

Section SnapshotClaims.

Context {L : PyLib}.

Import Store StoreFacts DecFacts.

Lemma get_user_profile_world env user_id (w w1 : World) o :
  get_user_profile env user_id w = (Ok o, w1) -> w1 = w.
Proof.
  unfold get_user_profile.
  destruct (get_item _ _ _) as [item|e]; [congruence|].
  destruct (is_ClientError e); congruence.
Qed.


(** C3.  Once the read has found the account and the new balance is
    not negative, every failure of the write ends the call at once,
    with the table exactly as the call found it at the write and one
    more log entry: a rejected condition, found by the store on a
    balance that is no longer the one read or reported by the service
    with the code [ConditionalCheckFailed], gives [ConflictError]; any
    other cancellation and any other error of the service gives
    [DatabaseError]. *)
Theorem write_failures_surface
    env user_id a ty desc by_ (w : World) (attrs : Item) b r w' :
  read_fault env = None ->
  table w !! profile_key user_id = Some attrs ->
  attrs !! "balance" = Some (NAttr b) ->
  Dec.is_neg (b +d a) = false ->
  adjust_balance_with_transaction env user_id a ty desc by_ w = (r, w') ->
  let tbl := concurrent env (table w) in
  (write_fault env = None ->
     ~ (exists (attrs2 : Item) b2,
          tbl !! profile_key user_id = Some attrs2
          /\ attrs2 !! "balance" = Some (NAttr b2)
          /\ (Dec.dval b2 == Dec.dval b)%Q) ->
     r = Raise ConflictError /\ table w' = tbl
     /\ log w' = (log w ++ [(WARNING, "Balance changed during transaction")])%list)
  /\ (forall codes,
        write_fault env = Some (Canceled codes) ->
        In "ConditionalCheckFailed" codes ->
        r = Raise ConflictError /\ table w' = tbl
        /\ log w' = (log w ++ [(WARNING, "Balance changed during transaction")])%list)
  /\ (forall codes,
        write_fault env = Some (Canceled codes) ->
        ~ In "ConditionalCheckFailed" codes ->
        r = Raise DatabaseError /\ table w' = tbl
        /\ log w' = (log w ++ [(ERROR, "Transaction cancelled")])%list)
  /\ (forall code,
        write_fault env = Some (ServiceError code) ->
        r = Raise DatabaseError /\ table w' = tbl
        /\ log w' = (log w ++ [(ERROR, "Transaction failed")])%list).
Proof.
  intros Hr Hrow Hb Hneg Hrun tbl.
  rewrite (adjust_unfold env user_id a ty desc by_ w attrs b) in Hrun
    by assumption.
  rewrite Hneg in Hrun. cbn zeta in Hrun. cbn [table stored] in Hrun.
  fold tbl in Hrun.
  split; [|split; [|split]].
  - intros Hw Hchanged. rewrite Hw, transact_answer in Hrun.
    destruct (holds _ _) eqn:Hcond.
    + exfalso. apply Hchanged.
      apply balance_condition in Hcond as (attrs2 & b2 & ? & ? & Heq).
      exists attrs2, b2. apply eqb_spec in Heq. auto.
    + cbn in Hrun. injection Hrun as <- <-. auto.
  - intros codes Hw Hin. rewrite Hw in Hrun. cbn in Hrun.
    unfold on_cancellation in Hrun.
    assert (Hex : existsb (String.eqb "ConditionalCheckFailed") codes = true).
    { apply existsb_exists. exists "ConditionalCheckFailed".
      split; [exact Hin|apply String.eqb_refl]. }
    rewrite Hex in Hrun. injection Hrun as <- <-. auto.
  - intros codes Hw Hnin. rewrite Hw in Hrun. cbn in Hrun.
    unfold on_cancellation in Hrun.
    assert (Hex : existsb (String.eqb "ConditionalCheckFailed") codes = false).
    { apply not_true_is_false. intros Hex.
      apply existsb_exists in Hex as (c & Hin & Hc).
      apply String.eqb_eq in Hc as <-. auto. }
    rewrite Hex in Hrun. injection Hrun as <- <-. auto.
  - intros code Hw. rewrite Hw in Hrun. cbn in Hrun.
    injection Hrun as <- <-. auto.
Qed.

End SnapshotClaims.

(* ===================================================================== *)
(** * Profiles: creation and update *)
(* ===================================================================== *)

Section ProfileClaims.

Import Store StoreFacts.

Lemma new_profile_item_key ts user_id email name role parent balance rate :
  key_of (new_profile_item ts user_id email name role parent balance rate)
  = Some (profile_key user_id).
Proof.
  unfold new_profile_item.
  destruct role, parent as [[|c p]|]; reflexivity.
Qed.

Lemma new_profile_item_balance ts user_id email name role parent balance rate :
  new_profile_item ts user_id email name role parent balance rate !! "balance"
  = Some (NAttr balance).
Proof.
  unfold new_profile_item.
  destruct role, parent as [[|c p]|]; reflexivity.
Qed.

(** C4, as the code has it.  [create_user_profile] writes
    unconditionally: when the service performs the write, the call
    succeeds whether or not a row was stored for the id, the row stored
    afterwards is the new item, with the balance given to the call, and
    the other rows are untouched; no surroundings make it fail with
    [ConflictError]. *)
Theorem create_user_profile_overwrites
    env user_id email name role parent balance rate (w : World) :
  let ts := utc_timestamp (now env) in
  let item := new_profile_item ts user_id email name role parent balance rate in
  (create_user_profile env user_id email name role parent balance rate w).1
  <> Raise ConflictError
  /\ (write_fault env = None ->
      exists w',
        create_user_profile env user_id email name role parent balance rate w
        = (Ok item, w')
        /\ table w' !! profile_key user_id = Some (strip_key item)
        /\ strip_key item !! "balance" = Some (NAttr balance)
        /\ forall k, k <> profile_key user_id -> table w' !! k = table w !! k).
Proof.
  intros ts item.
  pose proof (new_profile_item_key ts user_id email name role parent
                balance rate) as Hkey.
  fold item in Hkey.
  unfold create_user_profile, put_item. fold ts item.
  destruct (write_fault env) as [f|].
  - split; [|discriminate]. destruct f; cbn; discriminate.
  - rewrite Hkey.
    split; [cbn; discriminate|]. intros _.
    eexists. split; [reflexivity|]. cbn [table logged stored].
    split; [apply lookup_insert_eq|].
    split.
    + unfold strip_key. rewrite !lookup_delete_ne by discriminate.
      apply new_profile_item_balance.
    + intros k Hk. rewrite lookup_insert_ne by congruence. reflexivity.
Qed.

(** Lookups after a SET expression. *)
Lemma apply_set_other (sets : list (string * AttrValue)) (attrs : Item) name :
  (forall v, ~ In (name, v) sets) ->
  apply_set sets attrs !! name = attrs !! name.
Proof.
  unfold apply_set. revert attrs.
  induction sets as [|[k v] sets IH]; intros attrs Hnot; [reflexivity|].
  cbn [foldl]. rewrite IH.
  - cbn. apply lookup_insert_ne. intros ->. apply (Hnot v). left. reflexivity.
  - intros v' Hin. apply (Hnot v'). right. exact Hin.
Qed.

(** C5, as the code has it.  [update_user_profile] sends an
    unconditional update: when the service performs it, the call
    succeeds and stores, under the profile key, the previous attributes
    of the row (none when there was no row) with [updatedAt] and the
    supplied fields assigned; every other attribute and every other row
    is left as it was.  For a missing row this creates a row holding
    only the assigned attributes. *)
Theorem update_user_profile_upserts
    env user_id name rate (w : World) :
  write_fault env = None ->
  let ts := utc_timestamp (now env) in
  let old : Item := default ∅ (table w !! profile_key user_id) in
  exists attrs' : Item,
    update_user_profile env user_id name rate w
    = (Ok (full_item (profile_key user_id) attrs'),
       stored (<[profile_key user_id := attrs']> (table w)) w)
    /\ attrs' !! "updatedAt" = Some (SAttr ts)
    /\ (forall n, name = Some n -> attrs' !! "name" = Some (SAttr n))
    /\ (forall r, rate = Some r -> attrs' !! "interestRate" = Some (NAttr r))
    /\ (forall attr,
          attr <> "updatedAt" ->
          (attr = "name" -> name = None) ->
          (attr = "interestRate" -> rate = None) ->
          attrs' !! attr = old !! attr).
Proof.
  intros Hw ts old. unfold update_user_profile, update_item.
  rewrite Hw. fold ts old.
  eexists. split; [reflexivity|].
  split; [|split; [|split]].
  - destruct name, rate; cbn;
      rewrite ?lookup_insert_ne by discriminate; apply lookup_insert_eq.
  - intros n ->. destruct rate; cbn;
      rewrite ?lookup_insert_ne by discriminate; apply lookup_insert_eq.
  - intros r ->. destruct name; cbn; apply lookup_insert_eq.
  - intros attr H1 H2 H3. apply apply_set_other.
    intros v Hin. unfold profile_sets in Hin.
    apply in_app_or in Hin as [Hin|Hin].
    + destruct Hin as [[= <- _]|[]]. congruence.
    + apply in_app_or in Hin as [Hin|Hin].
      * destruct name as [n|]; [|destruct Hin].
        destruct Hin as [[= <- _]|[]]. specialize (H2 eq_refl). discriminate.
      * destruct rate as [r|]; [|destruct Hin].
        destruct Hin as [[= <- _]|[]]. specialize (H3 eq_refl). discriminate.
Qed.

End ProfileClaims.

(* ===================================================================== *)
(** * Sort keys of transactions *)
(* ===================================================================== *)

Module TimestampFacts.

Import Datetime StringOrder.

Lemma digits_length (w : nat) (n : N) : String.length (digits w n) = w.
Proof.
  revert n. induction w as [|w IH]; intros n; [reflexivity|].
  cbn [digits]. rewrite app_length, IH. cbn. lia.
Qed.

Lemma digit_compare (a b : N) :
  (a < 10)%N -> (b < 10)%N ->
  Ascii.compare (ascii_of_N (48 + a)) (ascii_of_N (48 + b)) = (a ?= b)%N.
Proof.
  intros Ha Hb. unfold Ascii.compare.
  rewrite !N_ascii_embedding by lia.
  destruct (N.compare_spec a b) as [->|H|H].
  - apply N.compare_refl.
  - apply N.compare_lt_iff. lia.
  - apply N.compare_gt_iff. lia.
Qed.

(** Numbers printed with the same width compare as numbers. *)
Lemma digits_compare (w : nat) (n m : N) :
  (n < 10 ^ N.of_nat w)%N -> (m < 10 ^ N.of_nat w)%N ->
  String.compare (digits w n) (digits w m) = (n ?= m)%N.
Proof.
  revert n m. induction w as [|w IH]; intros n m Hn Hm.
  - cbn in Hn, Hm. assert (n = 0%N) as -> by lia. assert (m = 0%N) as -> by lia.
    reflexivity.
  - cbn [digits].
    rewrite compare_app_field by (rewrite !digits_length; reflexivity).
    assert (Hpow : (10 ^ N.of_nat (S w) = 10 * 10 ^ N.of_nat w)%N).
    { rewrite Nat2N.inj_succ, N.pow_succ_r'. reflexivity. }
    rewrite Hpow in Hn, Hm.
    pose proof (N.div_mod n 10 ltac:(lia)) as Dn.
    pose proof (N.div_mod m 10 ltac:(lia)) as Dm.
    pose proof (N.mod_lt n 10 ltac:(lia)) as Rn.
    pose proof (N.mod_lt m 10 ltac:(lia)) as Rm.
    rewrite IH by (apply N.Div0.div_lt_upper_bound; lia).
    cbn [String.compare]. rewrite digit_compare by assumption.
    generalize dependent (n / 10)%N. generalize dependent (n mod 10)%N.
    generalize dependent (m / 10)%N. generalize dependent (m mod 10)%N.
    intros rm Rm qm Dm rn Rn qn Dn.
    destruct (N.compare_spec qn qm) as [He|Hl|Hg];
      [destruct (N.compare_spec rn rm) as [He'|Hl'|Hg']|..]; symmetry;
      first [apply N.compare_eq_iff; lia | apply N.compare_lt_iff; lia
            | apply N.compare_gt_iff; lia].
Qed.

Lemma valid_bounds (t : datetime) :
  valid t = true ->
  (year t < 10 ^ N.of_nat 4 /\ month t < 10 ^ N.of_nat 2
   /\ day t < 10 ^ N.of_nat 2 /\ hour t < 10 ^ N.of_nat 2
   /\ minute t < 10 ^ N.of_nat 2 /\ second t < 10 ^ N.of_nat 2
   /\ microsecond t < 10 ^ N.of_nat 6)%N.
Proof.
  unfold valid. rewrite !andb_true_iff, !N.leb_le. cbn. lia.
Qed.

Lemma transaction_sk_layout (t : datetime) (id : string) :
  KeyPattern.transaction_sk (utc_timestamp t) id
  = "TRANS#" +:+ digits 4 (year t) +:+ "-" +:+ digits 2 (month t) +:+ "-" +:+
    digits 2 (day t) +:+ "T" +:+ digits 2 (hour t) +:+ ":" +:+
    digits 2 (minute t) +:+ ":" +:+ digits 2 (second t) +:+
    fraction t +:+ "Z" +:+ "#" +:+ id.
Proof.
  unfold KeyPattern.transaction_sk, utc_timestamp, isoformat.
  rewrite !app_assoc. reflexivity.
Qed.

Ltac field_step H :=
  rewrite compare_app_field by (rewrite !digits_length; reflexivity);
  rewrite digits_compare by assumption;
  match type of H with
  | (if (?a <? ?b)%N then _ else _) = true =>
      destruct (N.ltb_spec a b) as [Hlt|Hge];
      [ rewrite (proj2 (N.compare_lt_iff a b) Hlt); reflexivity
      | destruct (N.eqb_spec a b) as [Heq|Hne]; [|discriminate H];
        rewrite Heq, N.compare_refl; clear Hge Heq ]
  end.

(** When both time stamps print a fraction, or neither does, the sort
    keys are in the order of the instants. *)
Theorem transaction_keys_ordered_in_fixed_format (t1 t2 : datetime) (id1 id2 : string) :
  valid t1 = true -> valid t2 = true ->
  ((microsecond t1 =? 0) = (microsecond t2 =? 0))%N ->
  ltb t1 t2 = true ->
  String.ltb (KeyPattern.transaction_sk (utc_timestamp t1) id1)
             (KeyPattern.transaction_sk (utc_timestamp t2) id2) = true.
Proof.
  intros V1 V2 Hfmt H.
  apply valid_bounds in V1 as (Y1 & M1 & D1 & h1 & m1 & s1 & u1).
  apply valid_bounds in V2 as (Y2 & M2 & D2 & h2 & m2 & s2 & u2).
  rewrite !transaction_sk_layout. unfold String.ltb.
  unfold ltb, fields in H. cbn [lex_ltb] in H.
  rewrite (compare_app_same "TRANS#").
  field_step H. rewrite (compare_app_same "-").
  field_step H. rewrite (compare_app_same "-").
  field_step H. rewrite (compare_app_same "T").
  field_step H. rewrite (compare_app_same ":").
  field_step H. rewrite (compare_app_same ":").
  field_step H.
  unfold fraction. rewrite Hfmt.
  destruct (N.eqb_spec (microsecond t2) 0) as [Hz2|Hnz2].
  - apply N.eqb_eq in Hfmt. rewrite Hfmt, Hz2 in H. discriminate H.
  - rewrite !app_assoc. rewrite (compare_app_same ".").
    rewrite compare_app_field by (rewrite !digits_length; reflexivity).
    rewrite digits_compare by assumption.
    destruct (N.ltb_spec (microsecond t1) (microsecond t2)) as [Hlt|Hge].
    + rewrite (proj2 (N.compare_lt_iff _ _) Hlt). reflexivity.
    + destruct (N.eqb_spec (microsecond t1) (microsecond t2)); discriminate H.
Qed.

End TimestampFacts.

(** C6, evaluated on the code.  Two instants of the same second, the
    first with microsecond 0 and the second half a second later, are in
    chronological order, but the sort key written for the later one is
    smaller than the sort key written for the earlier one, whatever the
    two identifiers are: [isoformat] leaves out the fraction of the first
    time stamp, and ['.'] sorts before ['Z']. *)
Theorem transaction_keys_break_time_order (id1 id2 : string) :
  let t1 := mkDatetime 2024 1 1 0 0 0 0 in
  let t2 := mkDatetime 2024 1 1 0 0 0 500000 in
  Datetime.valid t1 = true /\ Datetime.valid t2 = true
  /\ Datetime.ltb t1 t2 = true
  /\ utc_timestamp t1 = "2024-01-01T00:00:00Z"
  /\ utc_timestamp t2 = "2024-01-01T00:00:00.500000Z"
  /\ String.ltb (KeyPattern.transaction_sk (utc_timestamp t2) id2)
                (KeyPattern.transaction_sk (utc_timestamp t1) id1) = true.
Proof. repeat split; reflexivity. Qed.

(* ===================================================================== *)
(** * Page size *)
(* ===================================================================== *)

Section LimitClaims.

Context {L : PyLib}.


(** The handler passes that limit on to the store client. *)
Lemma list_transactions_passes_limit env event (w : World) n :
  effective_limit (default ∅ (queryStringParameters event)) = Ok n ->
  String.eqb (default (current_user_id event)
                (default ∅ (queryStringParameters event) !! "userId"))
             (current_user_id event) = true ->
  list_transactions env event w
  = get_transactions env (current_user_id event) n
      (default ∅ (queryStringParameters event) !! "nextToken")
      (logged INFO "Fetching transactions" w).
Proof.
  intros Hn Hself. unfold list_transactions, authorize_target.
  rewrite Hn, Hself. apply String.eqb_eq in Hself. rewrite Hself. reflexivity.
Qed.

End LimitClaims.

(* ===================================================================== *)
(** * The interest job *)
(* ===================================================================== *)

Section InterestClaims.

Context {L : PyLib}.







End InterestClaims.

(* ===================================================================== *)
(** * Continuation tokens *)
(* ===================================================================== *)

Section TokenFacts.

Context {L : PyLib}.

Import Store StoreFacts.

Lemma run_query_table env user_id limit start (w : World) :
  table (run_query env user_id limit start w).2 = table w.
Proof.
  unfold run_query. destruct (query _ _ _ _ _ _) as [resp|e]; [reflexivity|].
  destruct (is_ClientError e); reflexivity.
Qed.

(** The answer of a query does not depend on the log. *)
Lemma run_query_answer env user_id limit start (w1 w2 : World) :
  table w1 = table w2 ->
  (run_query env user_id limit start w1).1
  = (run_query env user_id limit start w2).1.
Proof.
  intros H. unfold run_query. rewrite H.
  destruct (query _ _ _ _ _ _) as [resp|e]; [reflexivity|].
  destruct (is_ClientError e); reflexivity.
Qed.

Lemma key_of_full_item (k : Key) (attrs : Item) :
  key_of (full_item k attrs) = Some k.
Proof.
  unfold key_of, full_item. rewrite lookup_insert_eq.
  rewrite lookup_insert_ne by discriminate. rewrite lookup_insert_eq.
  destruct k; reflexivity.
Qed.

(** What a successful query answers with. *)
Lemma run_query_page env user_id limit start (w w1 : World) page :
  run_query env user_id limit start w = (Ok page, w1) ->
  exists resp,
    query (read_fault env) (table w) (KeyPattern.user_pk user_id) "TRANS#"
          limit start = Ok resp
    /\ transactions page = Items resp
    /\ nextToken page = encode_token <$> LastEvaluatedKey resp.
Proof.
  unfold run_query. destruct (query _ _ _ _ _ _) as [resp|e].
  - intros [= <- _]. eauto.
  - destruct (is_ClientError e); discriminate.
Qed.

(** In every answer, the key handed out is the key of the last item of
    the page. *)
Lemma query_last_key (fault : option Fault) (tbl : Table)
    (pk sk_prefix : string) (limit : Z) (start : option JSON)
    (resp : QueryResponse) (k : Key) :
  query fault tbl pk sk_prefix limit start = Ok resp ->
  LastEvaluatedKey resp = Some k ->
  exists item, last (Items resp) = Some item /\ key_of item = Some k.
Proof.
  unfold query. destruct fault; [discriminate|].
  destruct (limit <=? 0); [discriminate|].
  assert (Hans : forall rows, LastEvaluatedKey (page_of limit rows) = Some k ->
            exists item, last (Items (page_of limit rows)) = Some item
                         /\ key_of item = Some k).
  { intros rows. unfold page_of. cbn [LastEvaluatedKey Items].
    destruct (_ <? _); [discriminate|].
    rewrite fmap_last.
    destruct (last _) as [[k' attrs]|]; [|discriminate].
    intros [= <-]. eexists. split; [reflexivity|]. apply key_of_full_item. }
  destruct start as [v|].
  - destruct (start_key v) as [k0|]; [|discriminate].
    destruct (String.eqb _ _); [|discriminate].
    intros [= <-]. apply Hans.
  - intros [= <-]. apply Hans.
Qed.

End TokenFacts.

Section TokenClaims.

Context {L : PyLib}.

Import Store StoreFacts.

Lemma exclusive_start_key_table (next_token : option string) (w : World) :
  table (exclusive_start_key next_token w).2 = table w.
Proof.
  unfold exclusive_start_key. destruct (truthy next_token); [|reflexivity].
  destruct (decode_token _); reflexivity.
Qed.

(** A token that does not decode is set aside with a warning. *)
Lemma token_ignored env user_id limit tok (w : World) :
  decode_token tok = None ->
  tok <> "" ->
  get_transactions env user_id limit (Some tok) w
  = get_transactions env user_id limit None
      (logged WARNING "Invalid pagination token" w).
Proof.
  intros Hdec Htok. unfold get_transactions, exclusive_start_key.
  destruct tok as [|c tok]; [congruence|]. cbn [truthy default from_option id].
  rewrite Hdec. reflexivity.
Qed.

(** A token made from a key reads back as that key. *)
Lemma token_roundtrip `{!PyLibLaws L} (k : Key) :
  encode_token k <> "" /\ decode_token (encode_token k) = Some (key_to_json k).
Proof.
  unfold decode_token, encode_token, key_to_json. split.
  - apply b64_nonempty, json_nonempty.
  - rewrite b64_roundtrip. apply json_roundtrip.
Qed.

Lemma token_resumes `{!PyLibLaws L} (k : Key) env user_id limit (w : World) :
  get_transactions env user_id limit (Some (encode_token k)) w
  = run_query env user_id limit (Some (key_to_json k)) w.
Proof.
  destruct (token_roundtrip k) as [Hne Hdec].
  unfold get_transactions, exclusive_start_key.
  destruct (encode_token k) as [|c rest] eqn:E; [congruence|].
  cbn [truthy default from_option id]. rewrite Hdec. reflexivity.
Qed.

(** C9.  A token whose decoding fails does not make the call fail: the
    call answers what the call without a token answers and leaves the
    table alone; it is the call without a token preceded by one warning
    in the log (the empty string is not decoded at all and counts as no
    token).  With the codecs behaving as the library's do, a token
    handed out by a call is never empty, decodes to the key of the last
    item of the page it came with, and a later call given it queries
    with exactly that key as its exclusive start key, without a
    warning; on the same table the page it then returns continues the
    first page exactly: the two pages together are the page a single call
    with the sum of the two limits returns. *)
Theorem continuation_token_handling :
  (forall env user_id limit tok (w : World),
      decode_token tok = None ->
      (get_transactions env user_id limit (Some tok) w).1
      = (get_transactions env user_id limit None w).1
      /\ table (get_transactions env user_id limit (Some tok) w).2 = table w
      /\ (tok <> "" ->
          get_transactions env user_id limit (Some tok) w
          = get_transactions env user_id limit None
              (logged WARNING "Invalid pagination token" w))
      /\ (tok = "" ->
          get_transactions env user_id limit (Some tok) w
          = get_transactions env user_id limit None w))
  /\ (PyLibLaws L ->
      forall env user_id limit tok0 (w w1 : World) page t,
        get_transactions env user_id limit tok0 w = (Ok page, w1) ->
        nextToken page = Some t ->
        exists (k : Key) (item : Item),
          last (transactions page) = Some item
          /\ key_of item = Some k
          /\ t = encode_token k
          /\ t <> ""
          /\ decode_token t = Some (key_to_json k)
          /\ start_key (key_to_json k) = Ok k
          /\ (forall env' limit' (w' : World),
                get_transactions env' user_id limit' (Some t) w'
                = run_query env' user_id limit' (Some (key_to_json k)) w')
          /\ (forall env' limit' (w' : World),
                read_fault env = None -> read_fault env' = None ->
                0 < limit' -> table w' = table w ->
                exists page' both w2,
                  get_transactions env' user_id limit' (Some t) w'
                  = (Ok page', w')
                  /\ get_transactions env user_id (limit + limit') tok0 w
                     = (Ok both, w2)
                  /\ (transactions page ++ transactions page')%list
                     = transactions both)).
Proof.
  split.
  - intros env user_id limit tok w Hdec.
    assert (He : tok = "" ->
              get_transactions env user_id limit (Some tok) w
              = get_transactions env user_id limit None w).
    { intros ->. reflexivity. }
    split; [|split; [|split]]; [| |apply token_ignored; assumption|assumption].
    + destruct tok as [|c tok].
      * rewrite He by reflexivity. reflexivity.
      * rewrite token_ignored by (assumption || discriminate).
        unfold get_transactions. cbn.
        apply run_query_answer. reflexivity.
    + destruct tok as [|c tok].
      * rewrite He by reflexivity. apply run_query_table.
      * rewrite token_ignored by (assumption || discriminate).
        unfold get_transactions. cbn.
        rewrite run_query_table. reflexivity.
  - intros Laws env user_id limit tok0 w w1 page t Hrun Htok.
    unfold get_transactions in Hrun.
    pose proof (exclusive_start_key_table tok0 w) as Htbl.
    destruct (exclusive_start_key tok0 w) as [start w0] eqn:Hsw.
    cbn [snd] in Htbl.
    apply run_query_page in Hrun as (resp & Hq & Hitems & Hnext).
    rewrite Htok in Hnext.
    destruct (LastEvaluatedKey resp) as [k|] eqn:Hk; [|discriminate].
    injection Hnext as ->.
    destruct (query_last_key _ _ _ _ _ _ _ _ Hq Hk) as (item & Hlast & Hkey).
    destruct (token_roundtrip k) as [Hnonempty Hdecode].
    exists k, item. rewrite Hitems.
    split; [exact Hlast|]. split; [exact Hkey|]. split; [reflexivity|].
    split; [exact Hnonempty|]. split; [exact Hdecode|].
    split; [apply start_key_of_json|].
    split; [intros; apply token_resumes|].
    intros env' limit' w' Hr Hr' Hpos Hsame.
    rewrite Hr, Htbl in Hq.
    destruct (query_resumes _ _ _ _ limit' _ _ _ Hpos Hq Hk)
      as (resp2 & resp12 & Hq2 & Hq12 & Happ).
    rewrite token_resumes. unfold get_transactions. rewrite Hsw.
    unfold run_query.
    rewrite Hr', Hsame, Hq2, Hr, Htbl, Hq12. cbn [transactions].
    do 3 eexists. split; [reflexivity|]. split; [reflexivity|]. exact Happ.
Qed.

End TokenClaims.

(* ===================================================================== *)
(** * The library instance satisfies the laws *)
(* ===================================================================== *)

Module PlainLibFacts.

Import PlainLib StringOrder.

Local Open Scope N_scope.

Ltac ndiv := zify; Z.to_euclidean_division_equations; lia.

Lemma sextet_small (P : N -> Prop) :
  (forall m : nat, (m < 64)%nat -> P (N.of_nat m)) -> forall n, n < 64 -> P n.
Proof.
  intros H n Hn. rewrite <- (N2Nat.id n). apply H. lia.
Qed.

Lemma sextet_roundtrip n : n < 64 -> sextet_of_char (char_of_sextet n) = Some n.
Proof.
  revert n. apply sextet_small. intros m Hm.
  do 64 (destruct m as [|m]; [reflexivity|]). lia.
Qed.

Lemma sextet_not_pad n : n < 64 -> char_of_sextet n <> pad.
Proof.
  revert n. apply sextet_small. intros m Hm.
  do 64 (destruct m as [|m]; [discriminate|]). lia.
Qed.

Lemma byte_code (a : ascii) (n : N) : n = code a -> byte n = a.
Proof.
  intros ->. unfold byte, code.
  rewrite N.mod_small by apply N_ascii_bounded. apply ascii_N_embedding.
Qed.

Lemma string_ind3 (P : string -> Prop) :
  P EmptyString ->
  (forall a, P (String a EmptyString)) ->
  (forall a b, P (String a (String b EmptyString))) ->
  (forall a b c rest, P rest -> P (String a (String b (String c rest)))) ->
  forall s, P s.
Proof.
  intros H0 H1 H2 H3 s.
  assert (H : P s /\ (forall a, P (String a s))
              /\ (forall a b, P (String a (String b s)))).
  { induction s as [|c s (IH0 & IH1 & IH2)]; [auto|].
    split; [apply IH1|]. split; [intros a; apply IH2|].
    intros a b. apply H3, IH0. }
  apply H.
Qed.

Lemma decode_group_full (a b c : ascii) (final : bool) :
  let x := code a in let y := code b in let z := code c in
  decode_group (char_of_sextet (x / 4))
               (char_of_sextet ((x mod 4) * 16 + y / 16))
               (char_of_sextet ((y mod 16) * 4 + z / 64))
               (char_of_sextet (z mod 64)) final
  = Some (String a (String b (String c EmptyString))).
Proof.
  intros x y z.
  pose proof (N_ascii_bounded a) as Ha. pose proof (N_ascii_bounded b) as Hb.
  pose proof (N_ascii_bounded c) as Hc. fold (code a) in Ha. fold x in Ha.
  fold (code b) in Hb. fold y in Hb. fold (code c) in Hc. fold z in Hc.
  unfold decode_group.
  rewrite !sextet_roundtrip by ndiv.
  rewrite (bool_decide_eq_false_2 (char_of_sextet (y mod 16 * 4 + z / 64) = pad))
    by (apply sextet_not_pad; ndiv).
  rewrite (bool_decide_eq_false_2 (char_of_sextet (z mod 64) = pad))
    by (apply sextet_not_pad; ndiv).
  rewrite !andb_false_r.
  rewrite (byte_code a), (byte_code b), (byte_code c); [reflexivity|..];
    fold x y z; ndiv.
Qed.

Lemma decode_group_two (a b : ascii) :
  let x := code a in let y := code b in
  decode_group (char_of_sextet (x / 4))
               (char_of_sextet ((x mod 4) * 16 + y / 16))
               (char_of_sextet ((y mod 16) * 4)) pad true
  = Some (String a (String b EmptyString)).
Proof.
  intros x y.
  pose proof (N_ascii_bounded a) as Ha. pose proof (N_ascii_bounded b) as Hb.
  fold (code a) in Ha. fold x in Ha. fold (code b) in Hb. fold y in Hb.
  unfold decode_group.
  rewrite !sextet_roundtrip by ndiv.
  rewrite (bool_decide_eq_false_2 (char_of_sextet (y mod 16 * 4) = pad))
    by (apply sextet_not_pad; ndiv).
  rewrite (bool_decide_eq_true_2 (pad = pad)) by reflexivity.
  rewrite andb_false_r. cbn [andb].
  rewrite (byte_code a), (byte_code b); [reflexivity|..]; fold x y; ndiv.
Qed.

Lemma decode_group_one (a : ascii) :
  let x := code a in
  decode_group (char_of_sextet (x / 4)) (char_of_sextet ((x mod 4) * 16))
               pad pad true
  = Some (String a EmptyString).
Proof.
  intros x. pose proof (N_ascii_bounded a) as Ha. fold (code a) in Ha.
  fold x in Ha. unfold decode_group.
  rewrite !sextet_roundtrip by ndiv.
  rewrite (bool_decide_eq_true_2 (pad = pad)) by reflexivity. cbn [andb].
  rewrite (byte_code a); [reflexivity|]. fold x. ndiv.
Qed.

Theorem decode_encode (data : string) : decode (encode data) = Some data.
Proof.
  induction data as [|a|a b|a b c rest IH] using string_ind3.
  - reflexivity.
  - cbn [encode decode].
    change (bool_decide (EmptyString = EmptyString)) with true.
    rewrite decode_group_one. reflexivity.
  - cbn [encode decode].
    change (bool_decide (EmptyString = EmptyString)) with true.
    rewrite decode_group_two. reflexivity.
  - cbn [encode decode]. rewrite decode_group_full, IH. reflexivity.
Qed.

Lemma encode_nonempty (data : string) : data <> EmptyString -> encode data <> EmptyString.
Proof.
  destruct data as [|a [|b [|c rest]]]; [congruence|discriminate..].
Qed.

Local Close Scope N_scope.

(** The JSON reader undoes the writer on key dictionaries. *)
Lemma read_body_escape (s rest : string) :
  read_body (escape s +:+ String dq rest) = Some (s, rest).
Proof.
  induction s as [|c s IH]; cbn [escape].
  - rewrite app_nil. cbn [read_body].
    rewrite bool_decide_eq_true_2 by reflexivity. reflexivity.
  - destruct (bool_decide (c = dq)) eqn:Hq; cbn [orb].
    + rewrite !app_cons. cbn [read_body].
      rewrite (bool_decide_eq_false_2 (bs = dq)) by discriminate.
      rewrite (bool_decide_eq_true_2 (bs = bs)) by reflexivity.
      rewrite IH. reflexivity.
    + destruct (bool_decide (c = bs)) eqn:Hb.
      * rewrite !app_cons. cbn [read_body].
        rewrite (bool_decide_eq_false_2 (bs = dq)) by discriminate.
        rewrite (bool_decide_eq_true_2 (bs = bs)) by reflexivity.
        rewrite IH. reflexivity.
      * rewrite !app_cons. cbn [read_body]. rewrite Hq, Hb, IH. reflexivity.
Qed.

Ltac normalise_app :=
  repeat first [rewrite app_cons | rewrite app_nil | rewrite app_assoc].

Lemma expect_app (p s : string) : expect p (p +:+ s) = Some s.
Proof.
  induction p as [|x p IHp]; [reflexivity|].
  rewrite app_cons. cbn [expect].
  rewrite bool_decide_eq_true_2 by reflexivity. apply IHp.
Qed.

Lemma read_member_quote (name value rest : string) :
  read_member name (quote name +:+ ": " +:+ quote value +:+ rest)
  = Some (value, rest).
Proof.
  unfold read_member.
  replace (quote name +:+ ": " +:+ quote value +:+ rest)
    with ((quote name +:+ ": " +:+ String dq EmptyString)
          +:+ (escape value +:+ String dq rest)).
  - rewrite expect_app. apply read_body_escape.
  - unfold quote. normalise_app. reflexivity.
Qed.

Theorem loads_dumps (pk sk : string) :
  loads (dumps (key_dict pk sk)) = Some (key_dict pk sk).
Proof.
  unfold key_dict, loads. cbn [dumps].
  rewrite expect_app, !app_assoc.
  rewrite (read_member_quote "PK" pk), expect_app.
  rewrite (read_member_quote "SK" sk). reflexivity.
Qed.

Lemma dumps_nonempty (pk sk : string) : dumps (key_dict pk sk) <> EmptyString.
Proof. discriminate. Qed.

#[global] Instance laws : PyLibLaws lib.
Proof.
  split.
  - exact decode_encode.
  - exact encode_nonempty.
  - exact loads_dumps.
  - exact dumps_nonempty.
Qed.

End PlainLibFacts.

(* ===================================================================== *)
(** * The scenarios of the specification, run on the model *)
(* ===================================================================== *)

(** Scenario A: a deposit of 50.00 on a balance of 100.00. *)
Example scenario_A :
  (balanceAfter <$> (match deposit_50.1 with Ok tx => Some tx | _ => None end))
  = Some (cents 15000)
  /\ balance_in deposit_50.2 "child-456" = Some (NAttr (cents 15000))
  /\ records_in deposit_50.2 "child-456" = 1%nat.
Proof. vm_compute. repeat split; reflexivity. Qed.

(** Scenario B: a withdrawal of 200.00 from a balance of 100.00. *)
Example scenario_B :
  withdraw_200 = (Raise InsufficientFundsError, sample_world)
  /\ balance_in withdraw_200.2 "child-456" = Some (NAttr (cents 10000))
  /\ records_in withdraw_200.2 "child-456" = 0%nat.
Proof. vm_compute. repeat split; reflexivity. Qed.

(* ===================================================================== *)
(** * The theorems at concrete inputs *)
(* ===================================================================== *)

Lemma adjust_missing_profile_witness :
  table empty_world !! profile_key "nonexistent" = None
  /\ table (adjust_balance_with_transaction sample_env "nonexistent"
              (cents 5000) DEPOSIT "Test" "parent-123" empty_world).2
     = table empty_world
  /\ (read_fault sample_env = None ->
      adjust_balance_with_transaction sample_env "nonexistent"
        (cents 5000) DEPOSIT "Test" "parent-123" empty_world
      = (Raise NotFoundError, empty_world)).
Proof.
  split; [reflexivity|].
  apply (adjust_missing_profile_not_found sample_env "nonexistent"
           (cents 5000) DEPOSIT "Test" "parent-123" empty_world).
  reflexivity.
Defined.



Lemma write_failures_witness :
  read_fault racing_env = None
  /\ table sample_world !! profile_key "child-456" = Some sample_child_attrs
  /\ sample_child_attrs !! "balance" = Some (NAttr (cents 10000))
  /\ Dec.is_neg (cents 10000 +d cents 1000) = false
  /\ deposit_10_racing.1 = Raise ConflictError
  /\ table deposit_10_racing.2 = concurrent racing_env (table sample_world).
Proof.
  split; [reflexivity|]. split; [reflexivity|]. split; [reflexivity|].
  split; [reflexivity|].
  destruct (write_failures_surface racing_env "child-456" (cents 1000)
              DEPOSIT "Pocket money" "parent-123" sample_world
              sample_child_attrs (cents 10000)
              deposit_10_racing.1 deposit_10_racing.2
              eq_refl eq_refl eq_refl eq_refl eq_refl) as [Hconflict _].
  destruct (Hconflict eq_refl) as (Hr & Ht & _); [|split; assumption].
  intros (attrs2 & b2 & Hrow & Hbal & Heq).
  vm_compute in Hrow. injection Hrow as <-.
  vm_compute in Hbal. injection Hbal as <-.
  apply DecFacts.eqb_spec in Heq. discriminate Heq.
Defined.

(** C4 fails on the code: a profile with balance 100.00 is stored for
    the id, and creating the account again does not fail with
    [ConflictError] but succeeds and leaves the balance at 0.00. *)
Lemma create_existing_profile_counterexample :
  balance_in sample_world "child-456" = Some (NAttr (cents 10000))
  /\ create_again.1 <> Raise ConflictError
  /\ (exists item, create_again.1 = Ok item)
  /\ balance_in create_again.2 "child-456" = Some (NAttr (cents 0)).
Proof.
  split; [reflexivity|]. split; [discriminate|].
  split; [eexists; reflexivity|]. reflexivity.
Qed.

Lemma create_overwrites_witness :
  write_fault sample_env = None
  /\ exists w',
       create_again
       = (Ok (new_profile_item (utc_timestamp (now sample_env)) "child-456"
                "child@example.com" "Jane Doe" CHILD (Some "parent-123")
                (cents 0) DEFAULT_INTEREST_RATE), w')
       /\ balance_in w' "child-456" = Some (NAttr (cents 0)).
Proof.
  split; [reflexivity|].
  destruct (create_user_profile_overwrites sample_env "child-456"
              "child@example.com" "Jane Doe" CHILD (Some "parent-123")
              (cents 0) DEFAULT_INTEREST_RATE sample_world) as [_ H].
  destruct (H eq_refl) as (w' & Hrun & Hrow & Hbal & _).
  exists w'. split; [exact Hrun|].
  unfold balance_in. rewrite Hrow. exact Hbal.
Defined.

(** C5 fails on the code: no profile is stored for the id, and the
    update does not fail with [NotFoundError] but succeeds and creates a
    row. *)
Lemma update_missing_profile_counterexample :
  table empty_world !! profile_key "ghost" = None
  /\ rename_ghost.1 <> Raise NotFoundError
  /\ (exists item, rename_ghost.1 = Ok item)
  /\ table rename_ghost.2 !! profile_key "ghost"
     = Some (list_to_map [("updatedAt", SAttr "2024-02-01T00:00:00.250000Z");
                          ("name", SAttr "Nobody")]).
Proof.
  split; [reflexivity|]. split; [discriminate|].
  split; [eexists; reflexivity|]. vm_compute. reflexivity.
Qed.

Lemma update_upserts_witness :
  write_fault sample_env = None
  /\ exists attrs' : Item,
       rename_ghost
       = (Ok (Store.full_item (profile_key "ghost") attrs'),
          stored (<[profile_key "ghost" := attrs']> (table empty_world)) empty_world)
       /\ attrs' !! "name" = Some (SAttr "Nobody")
       /\ attrs' !! "balance" = None.
Proof.
  split; [reflexivity|].
  destruct (update_user_profile_upserts sample_env "ghost" (Some "Nobody") None
              empty_world eq_refl) as (attrs' & Hrun & _ & Hname & _ & Hother).
  exists attrs'. split; [exact Hrun|]. split; [apply Hname; reflexivity|].
  rewrite Hother; [reflexivity|discriminate..].
Defined.



(** Scenario C: 5 % on 100.00 is 5.00; one record of type interest. *)
Example scenario_C :
  interest_of (cents 10000) (mkDecimal 5 (-2)) = cents 500
  /\ successful interest_run.1 = 1%nat
  /\ balance_in interest_run.2 "child-456" = Some (NAttr (cents 10500))
  /\ (fun r => (r.2 !! "type", r.2 !! "initiatedBy", r.2 !! "amount"))
       <$> Store.partition_desc (table interest_run.2) "USER#child-456" "TRANS#"
     = [(Some (SAttr "interest"), Some (SAttr "SYSTEM"), Some (NAttr (cents 500)))].
Proof. vm_compute. repeat split; reflexivity. Qed.

(** Scenario D: a rate of zero. *)
Example scenario_D :
  let row := <["interestRate" := NAttr (mkDecimal 0 (-2))]> sample_child_row in
  let run := process_child sample_env row (mkTally 0 0 0 [], sample_world) in
  skipped run.1 = 1%nat /\ table run.2 = table sample_world.
Proof. vm_compute. repeat split; reflexivity. Qed.

(** Scenario E: two adjustments read the balance 100.00; the one that
    writes second meets the balance written by the first and fails. *)
Example scenario_E :
  let first := deposit_50 in
  let second :=
    adjust_balance_with_transaction
      (mkEnv (mkDatetime 2024 2 1 0 0 0 250001) "txn-791" None None
         (fun _ => table first.2))
      "child-456" (cents 2000) DEPOSIT "Second" "parent-123" sample_world in
  second.1 = Raise ConflictError
  /\ balance_in second.2 "child-456" = Some (NAttr (cents 15000)).
Proof. vm_compute. repeat split; reflexivity. Qed.


Lemma continuation_token_witness :
  decode_token "not a token" = None
  /\ (get_transactions sample_env "u" 2 (Some "not a token") three_records).1
     = first_page.1
  /\ exists page t (k : Key),
       first_page = (Ok page, three_records)
       /\ nextToken page = Some t
       /\ t <> ""
       /\ k = ("USER#u", "TRANS#2024-01-02T00:00:00.000001Z#b")
       /\ decode_token t = Some (Store.key_to_json k)
       /\ (forall env' limit' (w' : World),
             get_transactions env' "u" limit' (Some t) w'
             = run_query env' "u" limit' (Some (Store.key_to_json k)) w')
       /\ exists page' both w2,
            get_transactions sample_env "u" 2 (Some t) three_records
            = (Ok page', three_records)
            /\ get_transactions sample_env "u" (2 + 2) None three_records
               = (Ok both, w2)
            /\ (transactions page ++ transactions page')%list
               = transactions both.
Proof.
  destruct continuation_token_handling as [Hbad Hgood].
  split; [reflexivity|].
  split; [apply (Hbad sample_env "u" 2 "not a token" three_records); reflexivity|].
  assert (Hrun : exists page t,
            first_page = (Ok page, three_records) /\ nextToken page = Some t).
  { eexists. eexists. split; vm_compute; reflexivity. }
  destruct Hrun as (page & t & Hrun & Htok).
  destruct (Hgood PlainLibFacts.laws sample_env "u" 2 None three_records
              three_records page t Hrun Htok)
    as (k & item & Hlast & Hkey & Ht & Hne & Hdec & _ & Hnext & Hpages).
  exists page, t, k.
  split; [exact Hrun|]. split; [exact Htok|]. split; [exact Hne|].
  split.
  { unfold first_page in Hrun.
    vm_compute in Hrun. injection Hrun as <-.
    vm_compute in Hlast. injection Hlast as <-.
    vm_compute in Hkey. injection Hkey as <-. reflexivity. }
  split; [exact Hdec|]. split; [exact Hnext|].
  apply (Hpages sample_env 2 three_records); reflexivity.
Defined.

(* ===================================================================== *)
(** * Further properties of the store client *)
(* ===================================================================== *)

Section ClientProperties.

Context {L : PyLib}.

Import Store StoreFacts DecFacts.

(** An item read back is the item that was put. *)
Lemma full_item_strip_key (item : Item) (k : Key) :
  key_of item = Some k -> full_item k (strip_key item) = item.
Proof.
  unfold key_of. intros Hk.
  destruct (item !! "PK") as [[pk|]|] eqn:Hpk; try discriminate.
  destruct (item !! "SK") as [[sk|]|] eqn:Hsk; try discriminate.
  injection Hk as <-. apply map_eq. intros name. unfold full_item, strip_key.
  cbn [fst snd].
  destruct (decide (name = "PK")) as [->|H1].
  { rewrite lookup_insert_eq. congruence. }
  rewrite lookup_insert_ne by congruence.
  destruct (decide (name = "SK")) as [->|H2].
  { rewrite lookup_insert_eq. congruence. }
  rewrite lookup_insert_ne by congruence.
  rewrite !lookup_delete_ne by congruence. reflexivity.
Qed.

(** X1.  A profile that has been created is read back as it was
    written: the read returns exactly the item the creation returned. *)
Theorem create_then_get_user_profile
    env env' user_id email name role parent balance rate (w : World) :
  write_fault env = None ->
  read_fault env' = None ->
  exists item w1,
    create_user_profile env user_id email name role parent balance rate w
    = (Ok item, w1)
    /\ get_user_profile env' user_id w1 = (Ok (Some item), w1)
    /\ Decimal_of_attr (item !! "balance") = Some balance
    /\ item !! "userId" = Some (SAttr user_id).
Proof.
  intros Hw Hr. unfold create_user_profile, put_item. rewrite Hw.
  rewrite new_profile_item_key.
  eexists. eexists. split; [reflexivity|].
  split; [|split].
  - rewrite get_user_profile_ok by assumption. cbn [table logged stored].
    rewrite lookup_insert_eq. cbn [fmap option_fmap option_map].
    rewrite full_item_strip_key by apply new_profile_item_key. reflexivity.
  - rewrite new_profile_item_balance. reflexivity.
  - unfold new_profile_item. destruct role, parent as [[|c p]|]; reflexivity.
Qed.

(** X2.  The row written for a child with a parent carries the parent
    reference and the keys of both indexes; a row written for a parent,
    or for a child created without a parent identifier, carries none of
    them, so it appears in no index. *)
Theorem created_profile_index_attributes
    env user_id email name role parent balance rate (w w1 : World) item :
  create_user_profile env user_id email name role parent balance rate w
  = (Ok item, w1) ->
  let indexed := match role with CHILD => truthy parent | PARENT => false end in
  let names := ["parentId"; "GSI1PK"; "GSI1SK"; "GSI2PK"; "GSI2SK"] in
  table w1 !! profile_key user_id = Some (strip_key item)
  /\ (indexed = true ->
      exists p, parent = Some p
        /\ item !! "parentId" = Some (SAttr p)
        /\ item !! "GSI1PK" = Some (SAttr (KeyPattern.parent_gsi1_pk p))
        /\ item !! "GSI1SK" = Some (SAttr (KeyPattern.child_gsi1_sk user_id))
        /\ item !! "GSI2PK" = Some (SAttr "ROLE#child")
        /\ item !! "GSI2SK" = Some (SAttr (KeyPattern.user_gsi2_sk user_id)))
  /\ (indexed = false -> Forall (fun n => item !! n = None) names).
Proof.
  unfold create_user_profile, put_item.
  destruct (write_fault env) as [f|]; [destruct f; discriminate|].
  rewrite new_profile_item_key. intros [= <- <-]. cbn [table logged stored].
  split; [apply lookup_insert_eq|].
  unfold new_profile_item.
  destruct role, parent as [[|c p]|]; cbn [truthy]; split;
    try discriminate; intros _;
    try (repeat constructor; reflexivity).
  exists (String c p). repeat split; reflexivity.
Qed.

(** The three ways a call can leave the table: as it was at the read, as
    it was at the write, or with the two rows of the commit. *)
Lemma adjust_table_cases env user_id a ty desc by_ (w w' : World) r :
  adjust_balance_with_transaction env user_id a ty desc by_ w = (r, w') ->
  let tbl := concurrent env (table w) in
  table w' = table w \/ table w' = tbl
  \/ exists ts id nb,
       r = Ok (mkTransactionDict id user_id a (type_value ty) desc nb by_ ts)
       /\ table w' = committed tbl user_id ts id a ty desc nb by_.
Proof.
  intros Hrun tbl.
  unfold adjust_balance_with_transaction in Hrun.
    destruct (get_user_profile env user_id w) as [[[profile|]|e] w1] eqn:Hget.
    - apply get_user_profile_world in Hget as ->.
      destruct (bool_decide _); [injection Hrun as _ <-; auto|].
      destruct (Decimal_of_attr _) as [cur|]; [|injection Hrun as _ <-; auto].
      destruct (Dec.is_neg _); [injection Hrun as _ <-; auto|].
      cbn [table stored] in Hrun. fold tbl in Hrun.
      destruct (write_fault env) as [f|].
      { destruct f; cbn in Hrun.
        - injection Hrun as _ <-. auto.
        - unfold on_cancellation in Hrun.
          destruct (existsb _ _); injection Hrun as _ <-; auto. }
      rewrite transact_answer in Hrun.
      destruct (holds _ _).
      + injection Hrun as <- <-. right. right. eauto.
      + cbn in Hrun. injection Hrun as _ <-. auto.
    - apply get_user_profile_world in Hget as ->. injection Hrun as _ <-. auto.
    - pose proof (get_user_profile_table env user_id w) as Ht.
      rewrite Hget in Ht. cbn in Ht. injection Hrun as _ <-. auto.
Qed.

(** X3.  What a call of the adjustment writes is confined: a call that
    fails leaves the table as it found it (at its read, or at its write
    when other clients wrote in between), and no call, whatever its
    outcome, changes a row of another user's partition. *)
Theorem adjust_writes_are_confined
    env user_id a ty desc by_ (w w' : World) r :
  adjust_balance_with_transaction env user_id a ty desc by_ w = (r, w') ->
  let tbl := concurrent env (table w) in
  (forall e, r = Raise e -> table w' = table w \/ table w' = tbl)
  /\ (forall k : Key,
        k.1 <> KeyPattern.user_pk user_id ->
        table w' !! k = table w !! k \/ table w' !! k = tbl !! k)
  /\ (forall other, other <> user_id ->
        KeyPattern.user_pk other <> KeyPattern.user_pk user_id).
Proof.
  intros Hrun tbl.
  pose proof (adjust_table_cases _ _ _ _ _ _ _ _ _ Hrun) as Hcases.
  fold tbl in Hcases.
  split; [|split].
  - intros e ->. destruct Hcases as [H|[H|(ts & id & nb & Hr & _)]]; auto.
    discriminate Hr.
  - intros k Hk. destruct Hcases as [H|[H|(ts & id & nb & _ & H)]].
    + left. rewrite H. reflexivity.
    + right. rewrite H. reflexivity.
    + right. rewrite H. unfold committed.
      rewrite lookup_insert_ne by (intros <-; apply Hk; reflexivity).
      rewrite lookup_insert_ne by (intros <-; apply Hk; reflexivity).
      reflexivity.
  - intros other Hne Heq. apply Hne.
    unfold KeyPattern.user_pk in Heq.
    repeat (rewrite StringOrder.app_cons in Heq; injection Heq as Heq).
    exact Heq.
Qed.

(** What a committed call leaves behind. *)
Lemma adjust_commit_inv env user_id a ty desc by_ (w w' : World) tx :
  adjust_balance_with_transaction env user_id a ty desc by_ w = (Ok tx, w') ->
  let tbl := concurrent env (table w) in
  exists (attrs0 : Item) found,
    tbl !! profile_key user_id = Some attrs0
    /\ attrs0 !! "balance" = Some (NAttr found)
    /\ Dec.is_neg (balanceAfter tx) = false
    /\ (Dec.dval (balanceAfter tx) == Dec.dval found + Dec.dval a)%Q
    /\ tx = mkTransactionDict (uuid4 env) user_id a (type_value ty) desc
              (balanceAfter tx) by_ (utc_timestamp (now env))
    /\ table w'
       = committed tbl user_id (utc_timestamp (now env)) (uuid4 env) a ty desc
           (balanceAfter tx) by_.
Proof.
  unfold adjust_balance_with_transaction.
  destruct (get_user_profile env user_id w) as [[[profile|]|e] w1] eqn:Hget;
    try discriminate.
  apply get_user_profile_world in Hget as ->.
  destruct (bool_decide _); [discriminate|].
  destruct (Decimal_of_attr _) as [cur|]; [|discriminate].
  destruct (Dec.is_neg _) eqn:Hneg; [discriminate|].
  cbn [table stored].
  destruct (write_fault env) as [f|].
  { destruct f; cbn; [discriminate|].
    destruct (on_cancellation _ _); discriminate. }
  rewrite transact_answer.
  destruct (holds _ _) eqn:Hcond; [|cbn; discriminate].
  apply balance_condition in Hcond as (attrs0 & found & Hrow & Hbal & Heq).
  intros [= <- <-]. cbn [balanceAfter table logged stored].
  exists attrs0, found. repeat split; try assumption.
  rewrite dval_add. apply eqb_spec in Heq. rewrite Heq. reflexivity.
Qed.

(** X4.  A committed adjustment changes two attributes of the profile
    row and no other: the balance and [updatedAt], which becomes the time
    stamp of the transaction; the name, the rate, the parent reference
    and the index keys are as the write found them. *)
Theorem adjust_keeps_other_attributes
    env user_id a ty desc by_ (w w' : World) tx :
  adjust_balance_with_transaction env user_id a ty desc by_ w = (Ok tx, w') ->
  exists attrs0 attrs' : Item,
    concurrent env (table w) !! profile_key user_id = Some attrs0
    /\ table w' !! profile_key user_id = Some attrs'
    /\ attrs' !! "updatedAt" = Some (SAttr (timestamp tx))
    /\ attrs' !! "balance" = Some (NAttr (balanceAfter tx))
    /\ forall name, name <> "balance" -> name <> "updatedAt" ->
         attrs' !! name = attrs0 !! name.
Proof.
  intros Hrun.
  destruct (adjust_commit_inv _ _ _ _ _ _ _ _ _ Hrun)
    as (attrs0 & found & Hrow & _ & _ & _ & Htx & Htbl).
  exists attrs0. eexists. split; [exact Hrow|].
  rewrite Htbl. unfold committed.
  rewrite lookup_insert_ne by apply transaction_key_fresh.
  rewrite lookup_insert_eq, Hrow. cbn [default from_option id apply_set foldl fst snd].
  assert (Hts : timestamp tx = utc_timestamp (now env))
    by (rewrite Htx; reflexivity).
  split; [reflexivity|]. rewrite Hts.
  split; [apply lookup_insert_eq|].
  split; [rewrite lookup_insert_ne by discriminate; apply lookup_insert_eq|].
  intros name H1 H2. rewrite !lookup_insert_ne by congruence. reflexivity.
Qed.

(** X5.  A read that follows a committed adjustment returns the profile
    with the balance the adjustment reported. *)
Theorem adjust_then_get_user_profile
    env env' user_id a ty desc by_ (w w' : World) tx :
  adjust_balance_with_transaction env user_id a ty desc by_ w = (Ok tx, w') ->
  read_fault env' = None ->
  exists profile : Item,
    get_user_profile env' user_id w' = (Ok (Some profile), w')
    /\ Decimal_of_attr (profile !! "balance") = Some (balanceAfter tx)
    /\ (0 <= Dec.dval (balanceAfter tx))%Q.
Proof.
  intros Hrun Hr.
  destruct (adjust_commit_inv _ _ _ _ _ _ _ _ _ Hrun)
    as (attrs0 & found & Hrow & _ & Hneg & _ & _ & Htbl).
  rewrite get_user_profile_ok by assumption. rewrite Htbl. unfold committed.
  rewrite lookup_insert_ne by apply transaction_key_fresh.
  rewrite lookup_insert_eq. cbn [fmap option_fmap option_map].
  eexists. split; [reflexivity|].
  rewrite full_item_lookup by discriminate.
  split; [|apply is_neg_false; exact Hneg].
  cbn [apply_set foldl fst snd].
  rewrite lookup_insert_ne by discriminate. rewrite lookup_insert_eq. reflexivity.
Qed.

(** One call keeps the invariant, provided the other clients do. *)
Lemma adjust_keeps_nonneg env user_id a ty desc by_ (w : World) :
  nonneg_balance (table w) user_id ->
  nonneg_balance (concurrent env (table w)) user_id ->
  nonneg_balance
    (table (adjust_balance_with_transaction env user_id a ty desc by_ w).2)
    user_id.
Proof.
  intros H0 H1.
  destruct (adjust_balance_with_transaction env user_id a ty desc by_ w)
    as [[tx|e] w'] eqn:Hrun; cbn [snd].
  - destruct (adjust_commit_inv _ _ _ _ _ _ _ _ _ Hrun)
      as (attrs0 & found & Hrow & _ & Hneg & _ & _ & Htbl).
    rewrite Htbl. unfold nonneg_balance, committed.
    rewrite lookup_insert_ne by apply transaction_key_fresh.
    rewrite lookup_insert_eq. eexists. exists (balanceAfter tx).
    split; [reflexivity|]. split; [|apply is_neg_false; exact Hneg].
    cbn [apply_set foldl fst snd].
    rewrite lookup_insert_ne by discriminate. apply lookup_insert_eq.
  - destruct (adjust_table_cases _ _ _ _ _ _ _ _ _ Hrun)
      as [-> | [-> | (ts & id & nb & Hr & _)]];
      [assumption|assumption|discriminate Hr].
Qed.

(** X6.  The balance is never negative after any sequence of calls: if
    the stored balance of the account is a number that is not negative
    and the other clients keep it so, it is so again after every
    sequence of adjustments, whatever their amounts, faults and
    outcomes. *)
Theorem balance_never_negative (user_id : string) (calls : list AdjustCall)
    (w : World) :
  (forall call tbl, In call calls -> nonneg_balance tbl user_id ->
     nonneg_balance (concurrent (call_env call) tbl) user_id) ->
  nonneg_balance (table w) user_id ->
  nonneg_balance (table (adjust_all user_id calls w)) user_id.
Proof.
  revert w. induction calls as [|call calls IH]; intros w Henv Hw; [exact Hw|].
  cbn [adjust_all foldl]. apply IH.
  - intros c tbl Hc. apply Henv. right. exact Hc.
  - apply adjust_keeps_nonneg; [exact Hw|].
    apply Henv; [left; reflexivity|exact Hw].
Qed.


Lemma sort_key_full_item (k : Key) (attrs : Item) :
  sort_key (full_item k attrs) = Some k.2.
Proof.
  unfold sort_key, full_item.
  rewrite lookup_insert_ne by discriminate. rewrite lookup_insert_eq.
  reflexivity.
Qed.

(** Every row the query visits is a transaction row of the partition. *)
Lemma rows_after_elem (tbl : Table) (pk sk_prefix : string)
    (start : option Key) (r : Key * Item) :
  r ∈ rows_after (partition_desc tbl pk sk_prefix) start ->
  tbl !! r.1 = Some r.2 /\ r.1.1 = pk /\ String.prefix sk_prefix r.1.2 = true.
Proof.
  destruct start as [k0|]; cbn [rows_after].
  - rewrite list_elem_of_filter. intros [_ H]. revert H.
    apply partition_desc_elem.
  - apply partition_desc_elem.
Qed.

(** What a successful query answers with, in terms of the rows. *)
Lemma query_rows (fault : option Fault) (tbl : Table) (pk sk_prefix : string)
    (limit : Z) (start : option JSON) (resp : QueryResponse) :
  query fault tbl pk sk_prefix limit start = Ok resp ->
  0 < limit
  /\ exists k0, resp = page_of limit
                         (rows_after (partition_desc tbl pk sk_prefix) k0).
Proof.
  unfold query. destruct fault; [discriminate|].
  destruct (Z.leb_spec limit 0); [discriminate|].
  intros Hq. split; [assumption|]. revert Hq.
  destruct start as [v|].
  - destruct (start_key v) as [k0|]; [|discriminate].
    destruct (String.eqb _ _); [|discriminate].
    intros [= <-]. exists (Some k0). reflexivity.
  - intros [= <-]. exists None. reflexivity.
Qed.

(** The items of a page are the first rows of the partition after the
    start key. *)
Lemma get_transactions_rows env user_id limit tok (w w1 : World) page :
  get_transactions env user_id limit tok w = (Ok page, w1) ->
  exists rows : list (Key * Item),
    transactions page = (fun r => full_item r.1 r.2) <$> rows
    /\ Z.of_nat (length rows) <= limit
    /\ StronglySorted strictly_desc rows
    /\ forall r, r ∈ rows ->
         table w !! r.1 = Some r.2 /\ r.1.1 = KeyPattern.user_pk user_id
         /\ String.prefix "TRANS#" r.1.2 = true.
Proof.
  intros Hrun. unfold get_transactions in Hrun.
  destruct (exclusive_start_key tok w) as [start w0] eqn:Hs.
  assert (Ht0 : table w0 = table w).
  { change w0 with (start, w0).2. rewrite <- Hs.
    apply exclusive_start_key_table. }
  apply run_query_page in Hrun as (resp & Hq & Hitems & _).
  rewrite Ht0 in Hq. apply query_rows in Hq as (Hlim & k0 & ->).
  rewrite page_of_items in Hitems.
  set (rows := rows_after _ k0) in *.
  exists (take (Z.to_nat limit) rows). split; [exact Hitems|].
  split; [rewrite length_take; lia|]. split.
  - pose proof (rows_after_sorted (table w) (KeyPattern.user_pk user_id)
                  "TRANS#" k0) as Hss.
    fold rows in Hss. rewrite <- (take_drop (Z.to_nat limit) rows) in Hss.
    apply StronglySorted_app in Hss as (_ & Hss & _). exact Hss.
  - intros r Hr. apply (rows_after_elem _ _ _ k0).
    revert Hr. apply subseteq_take.
Qed.

(** X8.  A page of [get_transactions] holds at most [limit] items; each
    is a stored row of the user's partition whose sort key starts with
    [TRANS#], so never the profile row and never a row of another user;
    the items come in strictly descending order of their sort keys, and
    the table is not written. *)
Theorem get_transactions_page_shape env user_id limit tok (w w1 : World) page :
  get_transactions env user_id limit tok w = (Ok page, w1) ->
  table w1 = table w
  /\ Z.of_nat (length (transactions page)) <= limit
  /\ Forall (fun item =>
       exists sk (attrs : Item),
         table w !! (KeyPattern.user_pk user_id, sk) = Some attrs
         /\ item = full_item (KeyPattern.user_pk user_id, sk) attrs
         /\ String.prefix "TRANS#" sk = true
         /\ sk <> KeyPattern.profile_sk) (transactions page)
  /\ StronglySorted (fun a b =>
       exists ka kb, sort_key a = Some ka /\ sort_key b = Some kb
                     /\ String.ltb kb ka = true) (transactions page).
Proof.
  intros Hrun.
  assert (Htbl : table w1 = table w).
  { change w1 with (Ok page, w1).2. rewrite <- Hrun. unfold get_transactions.
    destruct (exclusive_start_key tok w) as [start w0] eqn:Hs.
    rewrite run_query_table. change w0 with (start, w0).2. rewrite <- Hs.
    apply exclusive_start_key_table. }
  split; [exact Htbl|].
  apply get_transactions_rows in Hrun as (rows & -> & Hlen & Hsorted & Hel).
  split; [|split].
  - rewrite length_fmap. exact Hlen.
  - apply Forall_fmap, Forall_forall. intros [[pk sk] attrs] Hr.
    destruct (Hel _ Hr) as (Hrow & Hpk & Hpre). cbn in Hrow, Hpk, Hpre.
    subst pk. exists sk, attrs. cbn [fst snd compose].
    repeat split; try assumption.
    intros ->. vm_compute in Hpre. discriminate Hpre.
  - clear Hel Hlen. induction Hsorted as [|r l Hl IH Hr]; [constructor|].
    cbn [fmap list_fmap]. constructor; [exact IH|].
    apply Forall_fmap. eapply Forall_impl; [exact Hr|].
    intros y Hy. cbn [compose]. exists r.1.2, y.1.2.
    rewrite !sort_key_full_item. auto.
Qed.

Lemma partition_desc_intro (tbl : Table) (pk sk_prefix : string)
    (k : Key) (attrs : Item) :
  tbl !! k = Some attrs -> k.1 = pk -> String.prefix sk_prefix k.2 = true ->
  (k, attrs) ∈ partition_desc tbl pk sk_prefix.
Proof.
  intros Hrow Hpk Hpre. unfold partition_desc.
  rewrite merge_sort_Permutation. apply list_elem_of_filter. split.
  - cbn [fst snd]. rewrite Hpre, bool_decide_eq_true_2 by exact Hpk. exact I.
  - apply elem_of_map_to_list. exact Hrow.
Qed.

(** X9.  A committed adjustment is in the history: a listing of the
    account taken afterwards from the start, that reports no further
    page, contains the transaction row of the adjustment with the
    attributes the call returned. *)
Theorem committed_record_is_listed
    env env' user_id a ty desc by_ (w w' w'' : World) tx limit page :
  adjust_balance_with_transaction env user_id a ty desc by_ w = (Ok tx, w') ->
  get_transactions env' user_id limit None w' = (Ok page, w'') ->
  nextToken page = None ->
  transaction_item user_id (timestamp tx) (transactionId tx) a ty desc
    (balanceAfter tx) by_ ∈ transactions page.
Proof.
  intros Hrun Hlist Hnext.
  destruct (adjust_commit_inv _ _ _ _ _ _ _ _ _ Hrun)
    as (_ & _ & _ & _ & _ & _ & Htx & Htbl).
  assert (Hts : timestamp tx = utc_timestamp (now env))
    by (rewrite Htx; reflexivity).
  assert (Hid : transactionId tx = uuid4 env) by (rewrite Htx; reflexivity).
  rewrite Hts, Hid.
  set (item := transaction_item _ _ _ _ _ _ _ _).
  set (k := (KeyPattern.user_pk user_id,
             KeyPattern.transaction_sk (utc_timestamp (now env)) (uuid4 env))).
  assert (Hin : (k, strip_key item)
                ∈ partition_desc (table w') (KeyPattern.user_pk user_id)
                    "TRANS#").
  { apply partition_desc_intro; [|reflexivity|reflexivity].
    rewrite Htbl. unfold committed. apply lookup_insert_eq. }
  unfold get_transactions in Hlist. cbn [exclusive_start_key truthy] in Hlist.
  apply run_query_page in Hlist as (resp & Hq & Hitems & Htok).
  unfold query in Hq. destruct (read_fault env'); [discriminate|].
  destruct (Z.leb_spec limit 0) as [|Hlim]; [discriminate|].
  injection Hq as <-. cbn [rows_after] in Hitems, Htok.
  rewrite Hitems, page_of_items.
  revert Htok Hin. rewrite Hnext. unfold page_of. cbn [LastEvaluatedKey].
  set (rows := partition_desc _ _ _).
  intros Htok Hin.
  assert (Hall : take (Z.to_nat limit) rows = rows).
  { destruct (Z.ltb_spec (Z.of_nat (length rows)) limit) as [Hlt|Hge].
    - apply take_ge. lia.
    - exfalso. destruct (last (take (Z.to_nat limit) rows)) eqn:Hlast;
        [discriminate|].
      apply last_None in Hlast.
      apply (f_equal length) in Hlast. rewrite length_take in Hlast.
      cbn in Hlast. assert (length rows = 0)%nat as Hz by lia.
      destruct rows; [|discriminate]. cbn in Hge. lia. }
  rewrite Hall. apply list_elem_of_fmap.
  exists (k, strip_key item). split.
  - cbn [fst snd]. symmetry. apply full_item_strip_key. reflexivity.
  - exact Hin.
Qed.

End ClientProperties.

(* ===================================================================== *)
(** * Further properties of list_transactions.py *)
(* ===================================================================== *)

Section ListProperties.

Context {L : PyLib}.

Import Store StoreFacts.

Lemma get_transactions_table env user_id limit tok (w : World) :
  table (get_transactions env user_id limit tok w).2 = table w.
Proof.
  unfold get_transactions.
  destruct (exclusive_start_key tok w) as [start w0] eqn:Hs.
  rewrite run_query_table. change w0 with (start, w0).2. rewrite <- Hs.
  apply exclusive_start_key_table.
Qed.

Lemma authorize_target_table env event target (w : World) :
  table (authorize_target env event target w).2 = table w.
Proof.
  unfold authorize_target.
  destruct (String.eqb _ _); [reflexivity|].
  destruct (negb _); [reflexivity|].
  pose proof (get_user_profile_table env target w) as Ht.
  destruct (get_user_profile env target w) as [[[p|]|e] w1]; cbn [snd] in *;
    try exact Ht.
  destruct (bool_decide _); [exact Ht|].
  destruct (bool_decide _); exact Ht.
Qed.

(** X10.  The listing is read-only: whatever the event, the faults and
    the outcome, the handler leaves the table as it found it. *)
Theorem list_transactions_never_writes env event (w : World) :
  table (list_transactions env event w).2 = table w.
Proof.
  unfold list_transactions. cbn zeta.
  destruct (effective_limit _) as [limit|e]; [|reflexivity].
  pose proof (authorize_target_table env event
    (default (current_user_id event)
       (default ∅ (queryStringParameters event) !! "userId")) w) as Ht.
  destruct (authorize_target _ _ _ _) as [[[]|e] w1]; cbn [snd] in *;
    [|exact Ht].
  rewrite get_transactions_table. exact Ht.
Qed.

(** X11.  Who gets a page: the handler answers with a page only when the
    account asked for is the caller's own, or the caller is in the
    Parents group and the stored profile of the account names the caller
    as its parent; and every item of the page is then a transaction row
    of the account asked for. *)
Theorem list_transactions_access env event (w w1 : World) page :
  list_transactions env event w = (Ok page, w1) ->
  let target :=
    default (current_user_id event)
      (default ∅ (queryStringParameters event) !! "userId") in
  (target = current_user_id event
   \/ (is_parent (groups event) = true
       /\ exists attrs : Item,
            table w !! profile_key target = Some attrs
            /\ attrs !! "parentId" = Some (SAttr (current_user_id event))))
  /\ Forall (fun item =>
       exists sk (attrs : Item),
         table w !! (KeyPattern.user_pk target, sk) = Some attrs
         /\ item = full_item (KeyPattern.user_pk target, sk) attrs
         /\ String.prefix "TRANS#" sk = true) (transactions page).
Proof.
  intros Hrun target. revert Hrun. unfold list_transactions. cbn zeta.
  change (default (current_user_id event)
            (default ∅ (queryStringParameters event) !! "userId"))
    with target.
  destruct (effective_limit _) as [limit|e]; [|discriminate].
  pose proof (authorize_target_table env event target w) as Ht.
  destruct (authorize_target env event target w) as [[[]|e] w0] eqn:Hauth;
    [|discriminate].
  cbn [snd] in Ht. intros Hrun. split.
  - unfold authorize_target in Hauth.
    destruct (String.eqb_spec target (current_user_id event)) as [Heq|Hne];
      [left; exact Heq|right].
    destruct (is_parent (groups event)); [|discriminate].
    split; [reflexivity|]. cbn [negb] in Hauth.
    destruct (read_fault env) as [f|] eqn:Hf.
    { rewrite (get_user_profile_fault _ _ _ f Hf) in Hauth. discriminate. }
    rewrite get_user_profile_ok in Hauth by exact Hf.
    destruct (table w !! profile_key target) as [attrs|] eqn:Hrow;
      [|discriminate].
    cbn [fmap option_fmap option_map] in Hauth.
    destruct (bool_decide _); [discriminate|].
    destruct (bool_decide _) eqn:Hp; [|discriminate].
    apply bool_decide_eq_true_1 in Hp.
    rewrite full_item_lookup in Hp by discriminate. eauto.
  - apply get_transactions_rows in Hrun as (rows & -> & _ & _ & Hel).
    cbn [table logged] in Hel. rewrite Ht in Hel.
    apply Forall_fmap, Forall_forall. intros [[pk sk] attrs] Hr.
    destruct (Hel _ Hr) as (Hrow & Hpk & Hpre). cbn in Hrow, Hpk, Hpre.
    subst pk. exists sk, attrs. cbn [fst snd compose]. auto.
Qed.

(** X12.  A caller outside the Parents group who asks for another
    account is refused with 403 before anything is read, and nothing is
    logged or written. *)
Theorem list_transactions_refuses_other_accounts env event (w : World) other :
  default ∅ (queryStringParameters event) !! "userId" = Some other ->
  other <> current_user_id event ->
  is_parent (groups event) = false ->
  (exists limit, effective_limit (default ∅ (queryStringParameters event))
                 = Ok limit) ->
  list_transactions env event w = (Raise ForbiddenError, w)
  /\ response_status (list_transactions env event w).1 = 403.
Proof.
  intros Hother Hne Hgrp [limit Hlimit].
  assert (Hrun : list_transactions env event w = (Raise ForbiddenError, w)).
  { unfold list_transactions. cbn zeta. rewrite Hlimit, Hother.
    cbn [default from_option id]. unfold authorize_target.
    destruct (String.eqb_spec other (current_user_id event)); [contradiction|].
    rewrite Hgrp. reflexivity. }
  rewrite Hrun. split; reflexivity.
Qed.

End ListProperties.

(* ===================================================================== *)
(** * Further properties of the request handlers *)
(* ===================================================================== *)

Section HandlerProperties.

Context {L : PyLib}.

Import Store StoreFacts DecFacts.

Lemma answer_error_table {A} (e : Exn) (w : World) :
  table (answer_error (A := A) e w).2 = table w.
Proof. unfold answer_error. destruct (status_code e); reflexivity. Qed.

Lemma answer_error_failure {A} (e : Exn) (w : World) :
  exists status, (answer_error (A := A) e w).1 = Failure status.
Proof. unfold answer_error. destruct (status_code e); eauto. Qed.

Lemma only_parents_pass (groups : list string) :
  in_required_group ["Parents"] groups = is_parent groups.
Proof. unfold in_required_group, is_parent. cbn. apply orb_false_r. Qed.

(** A profile read that answers with a row read it from the table. *)
Lemma get_user_profile_some env user_id (w w1 : World) (profile : Item) :
  get_user_profile env user_id w = (Ok (Some profile), w1) ->
  w1 = w
  /\ exists attrs : Item,
       table w !! profile_key user_id = Some attrs
       /\ profile = full_item (profile_key user_id) attrs.
Proof.
  intros Hget. pose proof (get_user_profile_world _ _ _ _ _ Hget) as ->.
  split; [reflexivity|].
  destruct (read_fault env) as [f|] eqn:Hf.
  { rewrite (get_user_profile_fault _ _ _ f Hf) in Hget. discriminate. }
  rewrite get_user_profile_ok in Hget by exact Hf.
  destruct (table w !! profile_key user_id) as [attrs|]; [|discriminate].
  injection Hget as <-. eauto.
Qed.

(** X13.  Who can adjust a balance: the endpoint answers 200 only when
    the token verifies, the caller is in the Parents group and the stored
    profile of the child names the caller as its parent; the amount is
    then not zero, and the transaction is an adjustment of that child
    initiated by the caller. *)
Theorem adjust_balance_endpoint_access
    env between verified body (w w' : World) tx :
  adjust_balance_endpoint env between verified body w = (Success tx, w') ->
  exists ctx child_id (attrs : Item),
    verified = Some ctx
    /\ is_parent (auth_groups ctx) = true
    /\ body_childId body = Some child_id
    /\ table w !! profile_key child_id = Some attrs
    /\ attrs !! "parentId" = Some (SAttr (auth_userId ctx))
    /\ userId tx = child_id
    /\ type_ tx = "adjustment"
    /\ initiatedBy tx = auth_userId ctx
    /\ Dec.is_zero (amount tx) = false
    /\ Dec.is_neg (balanceAfter tx) = false.
Proof.
  unfold adjust_balance_endpoint, authorize.
  destruct verified as [ctx|]; [|discriminate].
  rewrite only_parents_pass.
  destruct (is_parent (auth_groups ctx)) eqn:Hgrp; [|discriminate].
  unfold adjust_balance_handler, bad_request. cbn zeta.
  destruct (body_childId body) as [[|c child]|]; cbn [truthy negb];
    try discriminate.
  cbn [default from_option id].
  destruct (body_amount body) as [text|]; [|discriminate].
  destruct (py_Decimal text) as [a|].
  2:{ intros H. destruct (answer_error_failure (A := TransactionDict)
                            InvalidOperation
                            (logged INFO "Authenticated user" w)) as [s Hs].
      rewrite H in Hs. discriminate Hs. }
  destruct (Dec.is_zero a) eqn:Hzero; [discriminate|].
  destruct (get_user_profile env (String c child) _) as [[[profile|]|e] w1]
    eqn:Hget.
  2:{ intros H. destruct (answer_error_failure (A := TransactionDict)
                            NotFoundError w1) as [s Hs].
      rewrite H in Hs. discriminate Hs. }
  2:{ intros H. destruct (answer_error_failure (A := TransactionDict) e w1)
        as [s Hs]. rewrite H in Hs. discriminate Hs. }
  apply get_user_profile_some in Hget as (-> & attrs & Hrow & ->).
  cbn [table logged] in Hrow.
  rewrite bool_decide_eq_false_2 by apply full_item_nonempty.
  rewrite full_item_lookup by discriminate.
  destruct (bool_decide _) eqn:Hparent; cbn [negb]; [|discriminate].
  apply bool_decide_eq_true_1 in Hparent.
  destruct (adjust_balance_with_transaction _ _ _ _ _ _ _) as [[tx0|e] w2]
    eqn:Hrun.
  2:{ intros H. destruct (answer_error_failure (A := TransactionDict) e w2)
        as [s Hs]. rewrite H in Hs. discriminate Hs. }
  intros [= <- _].
  destruct (adjust_commit_inv _ _ _ _ _ _ _ _ _ Hrun)
    as (_ & _ & _ & _ & Hneg & _ & Htx & _).
  exists ctx, (String c child), attrs.
  rewrite Htx. cbn [userId type_ initiatedBy amount balanceAfter type_value].
  rewrite Htx in Hneg. cbn [balanceAfter] in Hneg.
  repeat split; try assumption; reflexivity.
Qed.

(** X14.  An error answer of the adjustment endpoint means the call
    wrote nothing: the table is as the handler found it, or as the other
    clients left it before the adjustment read or wrote; and the status
    is one of 400, 401, 403, 404, 409 and 500. *)
Theorem adjust_balance_endpoint_failure
    env between verified body (w w' : World) status :
  adjust_balance_endpoint env between verified body w = (Failure status, w') ->
  (table w' = table w \/ table w' = between (table w)
   \/ table w' = concurrent env (between (table w)))
  /\ In status [400; 401; 403; 404; 409; 500].
Proof.
  assert (Herr : forall e (w0 : World) st (w1 : World),
            In e [NotFoundError; InsufficientFundsError; ConflictError;
                  DatabaseError; ForbiddenError; InvalidOperation;
                  ParamValidationError] \/ status_code e = None ->
            answer_error (A := TransactionDict) e w0 = (Failure st, w1) ->
            table w1 = table w0 /\ In st [400; 401; 403; 404; 409; 500]).
  { intros e w0 st w1 He H. split.
    - change w1 with (Failure (A := TransactionDict) st, w1).2.
      rewrite <- H. apply answer_error_table.
    - unfold answer_error in H. destruct (status_code e) as [c|] eqn:Hc.
      + injection H as <- _.
        destruct e; cbn in Hc; try discriminate; injection Hc as <-;
          cbn; tauto.
      + injection H as <- _. cbn. tauto. }
  unfold adjust_balance_endpoint, authorize.
  destruct verified as [ctx|].
  2:{ intros [= <- <-]. cbn. tauto. }
  rewrite only_parents_pass.
  destruct (is_parent (auth_groups ctx)) eqn:Hgrp.
  2:{ intros [= <- <-]. cbn. tauto. }
  unfold adjust_balance_handler, bad_request. cbn zeta.
  destruct (negb (truthy (body_childId body))).
  { intros [= <- <-]. cbn. tauto. }
  destruct (body_amount body) as [text|].
  2:{ intros [= <- <-]. cbn. tauto. }
  destruct (py_Decimal text) as [a|].
  2:{ intros H. apply Herr in H as [Ht Hs]; [|right; reflexivity].
      split; [left; exact Ht|exact Hs]. }
  destruct (Dec.is_zero a).
  { intros [= <- <-]. cbn. tauto. }
  set (child_id := default "" (body_childId body)).
  set (w0 := logged INFO "Adjusting balance" _).
  pose proof (get_user_profile_table env child_id w0) as Hread.
  destruct (get_user_profile env child_id w0) as [[[profile|]|e] w1] eqn:Hget;
    cbn [snd] in Hread; change (table w0) with (table w) in Hread.
  - destruct (bool_decide (profile = ∅)).
    { intros H. apply Herr in H as [Ht Hs]; [|left; cbn; tauto].
      split; [left; congruence|exact Hs]. }
    destruct (negb _).
    { intros H. apply Herr in H as [Ht Hs]; [|left; cbn; tauto].
      split; [left; congruence|exact Hs]. }
    destruct (adjust_balance_with_transaction _ _ _ _ _ _ _) as [[tx|e] w2]
      eqn:Hrun; [discriminate|].
    intros H.
    pose proof (adjust_table_cases _ _ _ _ _ _ _ _ _ Hrun) as Hcases.
    cbn [table stored] in Hcases. rewrite Hread in Hcases.
    assert (He : In e [NotFoundError; InsufficientFundsError; ConflictError;
                       DatabaseError; ForbiddenError; InvalidOperation;
                       ParamValidationError] \/ status_code e = None).
    { destruct e; cbn; tauto. }
    apply Herr in H as [Ht Hs]; [|exact He].
    split; [|exact Hs]. rewrite Ht.
    destruct Hcases as [Hc|[Hc|(ts & id & nb & Hr & _)]];
      [tauto|tauto|discriminate Hr].
  - intros H. apply Herr in H as [Ht Hs]; [|left; cbn; tauto].
    split; [left; congruence|exact Hs].
  - intros H.
    assert (He : In e [NotFoundError; InsufficientFundsError; ConflictError;
                       DatabaseError; ForbiddenError; InvalidOperation;
                       ParamValidationError] \/ status_code e = None).
    { destruct e; cbn; tauto. }
    apply Herr in H as [Ht Hs]; [|exact He].
    split; [left; congruence|exact Hs].
Qed.

(** X15.  Input validation of the adjustment: for a caller in the
    Parents group, a body without a child identifier (or with an empty
    one), without an amount, or with an amount that is numerically zero
    is answered with 400 before anything is read, and the table is not
    touched. *)
Theorem adjust_balance_rejects_bad_input
    env between ctx body (w : World) :
  is_parent (auth_groups ctx) = true ->
  (truthy (body_childId body) = false
   \/ body_amount body = None
   \/ exists text a, body_amount body = Some text
                     /\ py_Decimal text = Some a /\ (Dec.dval a == 0)%Q) ->
  exists w',
    adjust_balance_endpoint env between (Some ctx) body w = (Failure 400, w')
    /\ table w' = table w.
Proof.
  intros Hgrp Hbad. unfold adjust_balance_endpoint, authorize.
  rewrite only_parents_pass, Hgrp.
  unfold adjust_balance_handler, bad_request. cbn zeta.
  destruct (truthy (body_childId body)); cbn [negb].
  2:{ eexists. split; reflexivity. }
  destruct Hbad as [Hbad|[Hbad|(text & a & Htext & Ha & Hzero)]].
  - discriminate Hbad.
  - rewrite Hbad. eexists. split; reflexivity.
  - rewrite Htext, Ha. apply is_zero_spec in Hzero. rewrite Hzero.
    eexists. split; reflexivity.
Qed.

Lemma answer_error_not_success {A} (e : Exn) (w w' : World) (a : A) :
  answer_error e w <> (Success a, w').
Proof. unfold answer_error. destruct (status_code e); discriminate. Qed.

(** X16.  Who gets a child's summary: the endpoint reaches its 200
    answer only when the caller is in the Parents group and the stored
    profile of the child names the caller as its parent; the answer then
    carries that profile and at most ten transaction rows, all of the
    child's partition; and the table is not written. *)
Theorem child_summary_access
    env verified childId (w w' : World) (profile : Item) (txs : list Item) :
  get_child_summary_endpoint env verified childId w
  = (Success (profile, txs), w') ->
  exists ctx child_id (attrs : Item),
    verified = Some ctx
    /\ is_parent (auth_groups ctx) = true
    /\ childId = Some child_id
    /\ table w !! profile_key child_id = Some attrs
    /\ attrs !! "parentId" = Some (SAttr (auth_userId ctx))
    /\ profile = full_item (profile_key child_id) attrs
    /\ (length txs <= 10)%nat
    /\ Forall (fun item =>
         exists sk (row : Item),
           table w !! (KeyPattern.user_pk child_id, sk) = Some row
           /\ item = full_item (KeyPattern.user_pk child_id, sk) row
           /\ String.prefix "TRANS#" sk = true) txs
    /\ table w' = table w.
Proof.
  unfold get_child_summary_endpoint, authorize.
  destruct verified as [ctx|]; [|discriminate].
  rewrite only_parents_pass.
  destruct (is_parent (auth_groups ctx)) eqn:Hgrp; [|discriminate].
  unfold get_child_summary_handler. cbn zeta.
  destruct childId as [[|c child]|]; cbn [truthy negb];
    try (intros H; exfalso; revert H; apply answer_error_not_success).
  cbn [default from_option id].
  destruct (get_user_profile env (String c child) _) as [[[p|]|e] w1] eqn:Hget;
    try (intros H; exfalso; revert H; apply answer_error_not_success).
  apply get_user_profile_some in Hget as (-> & attrs & Hrow & ->).
  cbn [table logged] in Hrow.
  rewrite bool_decide_eq_false_2 by apply full_item_nonempty.
  rewrite full_item_lookup by discriminate.
  destruct (bool_decide _) eqn:Hparent; cbn [negb];
    [|intros H; exfalso; revert H; apply answer_error_not_success].
  apply bool_decide_eq_true_1 in Hparent.
  destruct (get_transactions _ _ _ _ _) as [[page|e] w2] eqn:Hlist;
    [|intros H; exfalso; revert H; apply answer_error_not_success].
  intros [= <- <- <-].
  pose proof (get_transactions_table env (String c child) 10 None
                (logged INFO "Fetching summary"
                   (logged INFO "Authenticated user" w))) as Ht.
  rewrite Hlist in Ht. cbn [snd table logged] in Ht.
  apply get_transactions_rows in Hlist as (rows & Hitems & Hlen & _ & Hel).
  cbn [table logged] in Hel.
  exists ctx, (String c child), attrs.
  repeat split; try assumption; try reflexivity.
  - rewrite Hitems, length_fmap. lia.
  - rewrite Hitems. apply Forall_fmap, Forall_forall.
    intros [[pk sk] row] Hr.
    destruct (Hel _ Hr) as (Hrow' & Hpk & Hpre). cbn in Hrow', Hpk, Hpre.
    subst pk. exists sk, row. cbn [fst snd compose]. auto.
Qed.

Lemma may_update_table env ctx body (w : World) :
  table (may_update env ctx body w).2 = table w.
Proof.
  unfold may_update, bad_request. cbn zeta.
  assert (Hchecked : forall checked : Reply unit * World,
            table checked.2 = table w ->
            table (match checked with
                   | (Failure status, w1) => (Failure status, w1)
                   | (Success _, w1) =>
                       match upd_interestRate body with
                       | Some _ =>
                           if is_parent (auth_groups ctx) then (Success tt, w1)
                           else answer_error ForbiddenError w1
                       | None => (Success tt, w1)
                       end
                   end).2 = table w).
  { intros [[u|status] w1] Hw1; cbn [snd] in *; [|exact Hw1].
    destruct (upd_interestRate body); [|exact Hw1].
    destruct (is_parent _); [exact Hw1|]. exact Hw1. }
  assert (Hinner : table
            (if String.eqb (default (auth_userId ctx) (upd_userId body))
                           (auth_userId ctx)
             then (Success tt, w)
             else if negb (is_parent (auth_groups ctx))
             then answer_error ForbiddenError w
             else
               match get_user_profile env
                       (default (auth_userId ctx) (upd_userId body)) w with
               | (Raise e, w1) => answer_error e w1
               | (Ok None, w1) => (Failure 400, logged WARNING "Business logic error" w1)
               | (Ok (Some target_profile), w1) =>
                   if bool_decide (target_profile = ∅)
                   then (Failure 400, logged WARNING "Business logic error" w1)
                   else if bool_decide (target_profile !! "parentId"
                                        = Some (SAttr (auth_userId ctx)))
                   then (Success tt, w1)
                   else answer_error ForbiddenError w1
               end : Reply unit * World).2 = table w).
  { destruct (String.eqb _ _); [reflexivity|].
    destruct (negb _); [reflexivity|].
    pose proof (get_user_profile_table env
                  (default (auth_userId ctx) (upd_userId body)) w) as Ht.
    destruct (get_user_profile _ _ _) as [[[p|]|e] w1]; cbn [snd] in Ht.
    - destruct (bool_decide _); [exact Ht|].
      destruct (bool_decide _); [exact Ht|].
      rewrite answer_error_table. exact Ht.
    - exact Ht.
    - rewrite answer_error_table. exact Ht. }
  destruct (upd_name body), (upd_interestRate body);
    try (apply Hchecked; exact Hinner).
  reflexivity.
Qed.


(** X18.  Who can update a profile: the handler reaches the update only
    when the target is the caller's own profile, or the caller is in the
    Parents group and the stored profile of the target names the caller
    as its parent; and a request that carries an interest rate only when
    the caller is in the Parents group. *)
Theorem update_user_access env between ctx body (w w' : World) (item : Item) :
  update_user_handler env between ctx body w = (Success item, w') ->
  let target := default (auth_userId ctx) (upd_userId body) in
  (target = auth_userId ctx
   \/ (is_parent (auth_groups ctx) = true
       /\ exists attrs : Item,
            table w !! profile_key target = Some attrs
            /\ attrs !! "parentId" = Some (SAttr (auth_userId ctx))))
  /\ (upd_interestRate body <> None -> is_parent (auth_groups ctx) = true)
  /\ (upd_name body <> None \/ upd_interestRate body <> None).
Proof.
  intros Hrun target. unfold update_user_handler in Hrun. cbn zeta in Hrun.
  destruct (may_update env ctx body w) as [[[]|status] w1] eqn:Hmay;
    [|discriminate]. clear Hrun.
  unfold may_update, bad_request in Hmay. cbn zeta in Hmay.
  fold target in Hmay.
  assert (Hfield : upd_name body <> None \/ upd_interestRate body <> None).
  { destruct (upd_name body), (upd_interestRate body);
      try (left; discriminate); try (right; discriminate). }
  assert (Hgen : forall checked : Reply unit * World,
            match checked with
            | (Failure status, w1) => (Failure status, w1)
            | (Success _, w1) =>
                match upd_interestRate body with
                | Some _ =>
                    if is_parent (auth_groups ctx) then (Success tt, w1)
                    else answer_error ForbiddenError w1
                | None => (Success tt, w1)
                end
            end = (Success tt, w1) ->
            (exists w0, checked = (Success tt, w0))
            /\ (upd_interestRate body <> None
                -> is_parent (auth_groups ctx) = true)).
  { intros [[[]|status] w0]; [|discriminate].
    destruct (upd_interestRate body) as [rate|].
    - destruct (is_parent _); [|discriminate]. intros _. eauto.
    - intros _. split; [eauto|]. intros H. contradiction. }
  assert (Hchecked :
            exists checked : Reply unit * World,
              checked = (if String.eqb target (auth_userId ctx)
                         then (Success tt, w)
                         else if negb (is_parent (auth_groups ctx))
                         then answer_error ForbiddenError w
                         else
                           match get_user_profile env target w with
                           | (Raise e, w1) => answer_error e w1
                           | (Ok None, w1) =>
                               (Failure 400,
                                logged WARNING "Business logic error" w1)
                           | (Ok (Some target_profile), w1) =>
                               if bool_decide (target_profile = ∅)
                               then (Failure 400,
                                     logged WARNING "Business logic error" w1)
                               else if bool_decide
                                         (target_profile !! "parentId"
                                          = Some (SAttr (auth_userId ctx)))
                               then (Success tt, w1)
                               else answer_error ForbiddenError w1
                           end)
              /\ (exists w0, checked = (Success tt, w0))
              /\ (upd_interestRate body <> None
                  -> is_parent (auth_groups ctx) = true)).
  { eexists. split; [reflexivity|]. apply Hgen.
    destruct (upd_name body), (upd_interestRate body);
      try exact Hmay. discriminate Hmay. }
  destruct Hchecked as (checked & Hdef & (w0 & Hok) & Hrate).
  split; [|split; assumption].
  rewrite Hok in Hdef.
  destruct (String.eqb_spec target (auth_userId ctx)) as [Heq|Hne];
    [left; exact Heq|right].
  destruct (is_parent (auth_groups ctx)); cbn [negb] in Hdef.
  2:{ exfalso. symmetry in Hdef. revert Hdef. apply answer_error_not_success. }
  split; [reflexivity|].
  destruct (get_user_profile env target w) as [[[p|]|e] w2] eqn:Hget.
  - apply get_user_profile_some in Hget as (-> & attrs & Hrow & ->).
    rewrite bool_decide_eq_false_2 in Hdef by apply full_item_nonempty.
    rewrite full_item_lookup in Hdef by discriminate.
    destruct (bool_decide (attrs !! "parentId" = _)) eqn:Hp.
    + apply bool_decide_eq_true_1 in Hp. exists attrs. split; assumption.
    + exfalso. symmetry in Hdef. revert Hdef. apply answer_error_not_success.
  - discriminate Hdef.
  - exfalso. symmetry in Hdef. revert Hdef. apply answer_error_not_success.
Qed.

End HandlerProperties.

(* ===================================================================== *)
(** * Further properties of calculate_interest.py *)
(* ===================================================================== *)

Section InterestProperties.

Context {L : PyLib}.

Import Store StoreFacts DecFacts.




Lemma process_child_counts env child (st : Tally * World) :
  count (process_child env child st).1 = S (count st.1)
  /\ (length (failed_details st.1) = failed st.1 ->
      length (failed_details (process_child env child st).1)
      = failed (process_child env child st).1).
Proof.
  destruct st as [t w]. unfold process_child.
  destruct (try_child env child w) as [[[|tx]|e] w1]; cbn [fst successful
    skipped failed failed_details count]; unfold count; cbn; split;
    try lia; try (intros H; exact H).
  intros H. rewrite length_app, H. cbn. lia.
Qed.

Lemma interest_loop_counts envs i children (st : Tally * World) :
  count (interest_loop envs i children st).1
  = (count st.1 + length children)%nat
  /\ (length (failed_details st.1) = failed st.1 ->
      length (failed_details (interest_loop envs i children st).1)
      = failed (interest_loop envs i children st).1).
Proof.
  revert i st. induction children as [|child rest IH]; intros i st.
  - cbn. split; [lia|auto].
  - cbn [interest_loop length].
    destruct (IH (S i) (process_child (envs i) child st)) as [Hc Hf].
    destruct (process_child_counts (envs i) child st) as [Hc1 Hf1].
    split; [rewrite Hc, Hc1; lia|]. intros H. apply Hf, Hf1, H.
Qed.

(** X20.  The summary of the job adds up: when the scan answers, the
    status is 200, [totalChildren] is the number of rows scanned, every
    row is counted once as successful, skipped or failed, and the
    failure report has one entry for each failure; when the scan fails,
    the status is 500 and nothing is written. *)
Theorem interest_summary_adds_up envs (scanned : result (list Item))
    (w : World) :
  match scanned with
  | Ok children =>
      let s := (interest_handler envs (Ok children) w).1 in
      statusCode s = 200
      /\ totalChildren s = length children
      /\ (successful (tally s) + skipped (tally s) + failed (tally s))%nat
         = length children
      /\ length (failed_details (tally s)) = failed (tally s)
  | Raise e =>
      statusCode (interest_handler envs (Raise e) w).1 = 500
      /\ table (interest_handler envs (Raise e) w).2 = table w
  end.
Proof.
  destruct scanned as [children|e]; [|split; reflexivity].
  unfold interest_handler. cbn zeta.
  set (st0 := (mkTally 0 0 0 [], _)).
  destruct (interest_loop_counts envs 0%nat children st0) as [Hc Hf].
  destruct (interest_loop envs 0%nat children st0) as [t w1].
  cbn [fst statusCode totalChildren tally] in *.
  split; [reflexivity|]. split; [reflexivity|].
  split; [exact Hc|]. apply Hf. reflexivity.
Qed.

Lemma try_child_confined env child (w : World) (k : Key) :
  (forall tbl, concurrent env tbl = tbl) ->
  (forall user_id, child !! "userId" = Some (SAttr user_id) ->
     k.1 <> KeyPattern.user_pk user_id) ->
  table (try_child env child w).2 !! k = table w !! k.
Proof.
  intros Hq Hk. unfold try_child.
  destruct (child !! "userId") as [id|]; [|reflexivity].
  destruct (Decimal_of_attr (child !! "balance")); [|reflexivity].
  destruct (Decimal_of_attr (child !! "interestRate")); [|reflexivity].
  destruct (Dec.is_zero _); [reflexivity|].
  destruct (Dec.is_zero _); [reflexivity|]. cbn zeta.
  destruct (Dec.is_zero _); [reflexivity|].
  destruct id as [user_id|]; [|reflexivity].
  specialize (Hk user_id eq_refl).
  destruct (adjust_balance_with_transaction _ _ _ _ _ _ _) as [r w1] eqn:Hrun.
  pose proof (adjust_table_cases _ _ _ _ _ _ _ _ _ Hrun) as Hcases.
  cbn zeta in Hcases. rewrite Hq in Hcases.
  assert (Hw1 : table w1 !! k = table w !! k).
  { destruct Hcases as [->|[->|(ts & id & nb & _ & ->)]]; try reflexivity.
    unfold committed.
    rewrite lookup_insert_ne by (intros <-; apply Hk; reflexivity).
    rewrite lookup_insert_ne by (intros <-; apply Hk; reflexivity).
    reflexivity. }
  destruct r; exact Hw1.
Qed.

Lemma process_child_confined env child (st : Tally * World) (k : Key) :
  (forall tbl, concurrent env tbl = tbl) ->
  (forall user_id, child !! "userId" = Some (SAttr user_id) ->
     k.1 <> KeyPattern.user_pk user_id) ->
  table (process_child env child st).2 !! k = table st.2 !! k.
Proof.
  intros Hq Hk. destruct st as [t w]. unfold process_child.
  pose proof (try_child_confined env child w k Hq Hk) as H.
  destruct (try_child env child w) as [[[|tx]|e] w1]; exact H.
Qed.

(** X21.  The job writes only to the accounts it was given: when no
    other client writes meanwhile, a row whose partition is not that of
    one of the scanned children is the same after the run as before,
    whatever happened to the children. *)
Theorem interest_job_confined envs (children : list Item) (w : World)
    (k : Key) :
  (forall i tbl, concurrent (envs i) tbl = tbl) ->
  (forall child user_id, In child children ->
     child !! "userId" = Some (SAttr user_id) ->
     k.1 <> KeyPattern.user_pk user_id) ->
  table (interest_handler envs (Ok children) w).2 !! k = table w !! k.
Proof.
  intros Hq Hk. unfold interest_handler. cbn zeta.
  set (st0 := (mkTally 0 0 0 [], _)).
  assert (Hloop : forall i (st : Tally * World),
            table (interest_loop envs i children st).2 !! k
            = table st.2 !! k).
  { clear st0. induction children as [|child rest IH]; intros i st;
      [reflexivity|].
    cbn [interest_loop]. rewrite IH.
    - apply process_child_confined; [apply Hq|].
      intros user_id. apply Hk. left. reflexivity.
    - intros c u Hc. apply Hk. right. exact Hc. }
  specialize (Hloop 0%nat st0).
  destruct (interest_loop envs 0%nat children st0) as [t w1].
  exact Hloop.
Qed.

End InterestProperties.

(* ===================================================================== *)
(** * Further properties: the reads through the indexes *)
(* ===================================================================== *)

Module IndexFacts.

Import Store Index.

Lemma after_key_split (l1 l2 : list (Key * Item)) (r : Key * Item) :
  NoDup (fst <$> (l1 ++ r :: l2)%list) ->
  after_key r.1 (l1 ++ r :: l2)%list = l2.
Proof.
  induction l1 as [|x l1 IH]; cbn [app after_key fmap list_fmap]; intros Hnd.
  - rewrite bool_decide_eq_true_2 by reflexivity. reflexivity.
  - apply NoDup_cons in Hnd as [Hx Hnd].
    rewrite bool_decide_eq_false_2; [apply IH; exact Hnd|].
    intros Heq. apply Hx. rewrite Heq, fmap_app. cbn.
    apply elem_of_app. right. left.
Qed.

Lemma index_rows_perm (tbl : Table) (pk_attr sk_attr pk : string) :
  index_rows tbl pk_attr sk_attr pk
  ≡ₚ filter (fun r => bool_decide
                        (fst <$> index_key pk_attr sk_attr r.2 = Some pk))
            (map_to_list tbl).
Proof. unfold index_rows. apply merge_sort_Permutation. Qed.

Lemma scan_rows_keys (tbl : Table) : NoDup (fst <$> scan_rows tbl).
Proof. apply NoDup_fst_map_to_list. Qed.

Lemma NoDup_fst_filter (P : Key * Item -> Prop) `{forall x, Decision (P x)}
    (l : list (Key * Item)) :
  NoDup (fst <$> l) -> NoDup (fst <$> filter P l).
Proof.
  induction l as [|x l IH]; [intros; constructor|].
  cbn [fmap list_fmap]. intros Hnd. apply NoDup_cons in Hnd as [Hx Hnd].
  rewrite filter_cons. destruct (decide (P x)); [|apply IH; exact Hnd].
  cbn [fmap list_fmap]. apply NoDup_cons. split; [|apply IH; exact Hnd].
  intros Hin. apply Hx. apply list_elem_of_fmap in Hin as (y & Hy & Hin).
  apply list_elem_of_filter in Hin as [_ Hin].
  apply list_elem_of_fmap. exists y. split; assumption.
Qed.

Lemma index_rows_keys (tbl : Table) (pk_attr sk_attr pk : string) :
  NoDup (fst <$> index_rows tbl pk_attr sk_attr pk).
Proof.
  rewrite index_rows_perm. apply NoDup_fst_filter, NoDup_fst_map_to_list.
Qed.

Lemma index_rows_length (tbl : Table) (pk_attr sk_attr pk : string) :
  (length (index_rows tbl pk_attr sk_attr pk) <= size tbl)%nat.
Proof.
  rewrite index_rows_perm, <- length_map_to_list. apply length_filter.
Qed.

Lemma index_rows_elem (tbl : Table) (pk_attr sk_attr pk : string)
    (r : Key * Item) :
  r ∈ index_rows tbl pk_attr sk_attr pk
  <-> tbl !! r.1 = Some r.2
      /\ exists sk, r.2 !! pk_attr = Some (SAttr pk)
                    /\ r.2 !! sk_attr = Some (SAttr sk).
Proof.
  rewrite index_rows_perm, list_elem_of_filter.
  destruct r as [k attrs]. rewrite elem_of_map_to_list. cbn [fst snd].
  rewrite bool_decide_spec. unfold index_key.
  split.
  - intros [Hk Hrow]. split; [exact Hrow|].
    destruct (attrs !! pk_attr) as [[p|]|]; try discriminate.
    destruct (attrs !! sk_attr) as [[s|]|]; try discriminate.
    injection Hk as ->. eauto.
  - intros [Hrow (sk & -> & ->)]. split; [reflexivity|exact Hrow].
Qed.

(** The loop collects every row once, whatever the sizes of the
    answers. *)
Lemma read_all_collects (rows : list (Key * Item)) (keep : Item -> bool)
    (caps : nat -> nat) :
  NoDup (fst <$> rows) ->
  forall fuel i start items (pre rest : list (Key * Item)),
    rows = (pre ++ rest)%list ->
    match start with
    | None => rows
    | Some k => after_key k rows
    end = rest ->
    (length rest < fuel)%nat ->
    read_all fuel
      (fun i start => read_page None rows keep (S (caps i)) start)
      i start items
    = Some (Ok (items
                ++ filter (fun item => keep item = true)
                          ((fun r => full_item r.1 r.2) <$> rest))%list).
Proof.
  intros Hnd. induction fuel as [|fuel IH];
    intros i start items pre rest Hrows Hrest Hfuel; [lia|].
  cbn [read_all read_page]. rewrite Hrest. cbn zeta.
  cbn [Items LastEvaluatedKey].
  destruct (Nat.ltb_spec (length rest) (S (caps i))) as [Hlt|Hge].
  - rewrite take_ge by lia. reflexivity.
  - destruct (last (take (S (caps i)) rest)) as [r|] eqn:Hlast.
    2:{ apply last_None in Hlast. apply (f_equal length) in Hlast.
        rewrite length_take in Hlast. cbn [length] in Hlast. lia. }
    cbn [fmap option_fmap option_map].
    apply last_Some in Hlast as [l1 Hl1].
    assert (Hsplit : rest = (l1 ++ r :: drop (S (caps i)) rest)%list).
    { rewrite <- (take_drop (S (caps i)) rest) at 1. rewrite Hl1.
      rewrite <- (assoc_L (++)). reflexivity. }
    rewrite (IH (S i) (Some r.1) _ (pre ++ l1 ++ [r])%list
               (drop (S (caps i)) rest)).
    + rewrite <- (assoc_L (++)). f_equal. f_equal. f_equal.
      rewrite <- (take_drop (S (caps i)) rest) at 3.
      rewrite fmap_app, filter_app. reflexivity.
    + rewrite Hrows. rewrite Hsplit at 1.
      rewrite <- !(assoc_L (++)). reflexivity.
    + assert (Hr : rows = ((pre ++ l1) ++ r :: drop (S (caps i)) rest)%list).
      { rewrite Hrows. rewrite Hsplit at 1. rewrite <- (assoc_L (++)).
        reflexivity. }
      rewrite Hr. apply after_key_split. rewrite <- Hr. exact Hnd.
    + rewrite length_drop. lia.
Qed.

Lemma full_item_inj (k k' : Key) (attrs attrs' : Item) :
  full_item k attrs = full_item k' attrs' -> k = k'.
Proof.
  intros H. apply (f_equal key_of) in H. unfold key_of, full_item in H.
  rewrite !lookup_insert_eq in H.
  rewrite !(lookup_insert_ne _ "PK" "SK") in H by discriminate.
  rewrite !lookup_insert_eq in H. destruct k, k'. cbn in H. congruence.
Qed.

Lemma NoDup_full_items (rows : list (Key * Item)) (keep : Item -> bool) :
  NoDup (fst <$> rows) ->
  NoDup (filter (fun item => keep item = true)
                ((fun r => full_item r.1 r.2) <$> rows)).
Proof.
  intros Hnd. apply NoDup_filter.
  induction rows as [|r rows IH]; [constructor|].
  cbn [fmap list_fmap] in *. apply NoDup_cons in Hnd as [Hr Hnd].
  apply NoDup_cons. split; [|apply IH; exact Hnd].
  intros Hin. apply Hr. apply list_elem_of_fmap in Hin as (y & Hy & Hin).
  apply full_item_inj in Hy. apply list_elem_of_fmap. exists y.
  split; [exact Hy|exact Hin].
Qed.

End IndexFacts.

Section IndexProperties.

Import Store StoreFacts Index IndexFacts.

Lemma read_all_ext (request request' : nat -> option Key -> result QueryResponse) :
  (forall i start, request i start = request' i start) ->
  forall fuel i start items,
    read_all fuel request i start items = read_all fuel request' i start items.
Proof.
  intros Hext. induction fuel as [|fuel IH]; intros i start items;
    [reflexivity|].
  cbn [read_all]. rewrite Hext. destruct (request' i start) as [resp|e];
    [|reflexivity].
  destruct (LastEvaluatedKey resp); [apply IH|reflexivity].
Qed.


Lemma is_child_profile_spec (k : Key) (attrs : Item) :
  is_child_profile (full_item k attrs) = true
  <-> attrs !! "role" = Some (SAttr "child") /\ k.2 = "PROFILE".
Proof.
  unfold is_child_profile, full_item.
  rewrite andb_true_iff, !bool_decide_eq_true.
  rewrite !lookup_insert_ne by discriminate. rewrite lookup_insert_eq.
  change KeyPattern.profile_sk with "PROFILE". cbn [role_value].
  split; intros [H1 H2]; (split; [exact H1|congruence]).
Qed.

(** What the loop returns when no request fails. *)
Lemma scan_all_children_collects (use_gsi : bool) faults caps fuel (w : World) :
  (forall i, faults i = None) ->
  (size (table w) < fuel)%nat ->
  scan_all_children use_gsi faults caps fuel w
  = Some (Ok (if use_gsi
              then (fun r => full_item r.1 r.2)
                   <$> index_rows (table w) "GSI2PK" "GSI2SK"
                         (KeyPattern.role_gsi2_pk CHILD)
              else filter (fun item => is_child_profile item = true)
                     ((fun r => full_item r.1 r.2) <$> scan_rows (table w))),
          w).
Proof.
  intros Hfaults Hfuel. unfold scan_all_children. cbn zeta.
  destruct use_gsi.
  - set (rows := index_rows (table w) "GSI2PK" "GSI2SK"
                   (KeyPattern.role_gsi2_pk CHILD)).
    rewrite (read_all_ext _
               (fun i start => read_page None rows (fun _ => true)
                                 (S (caps i)) start))
      by (intros i start; rewrite Hfaults; reflexivity).
    rewrite (read_all_collects rows (fun _ => true) caps
               (index_rows_keys _ _ _ _) fuel 0%nat None [] [] rows
               eq_refl eq_refl)
      by (pose proof (index_rows_length (table w) "GSI2PK" "GSI2SK"
                        (KeyPattern.role_gsi2_pk CHILD)); unfold rows; lia).
    cbn [app]. rewrite filter_all
      by (apply Forall_forall; intros x _; reflexivity).
    reflexivity.
  - set (rows := scan_rows (table w)).
    rewrite (read_all_ext _
               (fun i start => read_page None rows is_child_profile
                                 (S (caps i)) start))
      by (intros i start; rewrite Hfaults; reflexivity).
    rewrite (read_all_collects rows is_child_profile caps
               (scan_rows_keys _) fuel 0%nat None [] [] rows
               eq_refl eq_refl)
      by (unfold rows, scan_rows; rewrite length_map_to_list; lia).
    reflexivity.
Qed.

(** The rows a mode of the scan looks for are the rows it collects. *)
Lemma scanned_row_collected (use_gsi : bool) (tbl : Table) (item : Item) :
  item ∈ (if use_gsi
          then (fun r => full_item r.1 r.2)
               <$> index_rows tbl "GSI2PK" "GSI2SK"
                     (KeyPattern.role_gsi2_pk CHILD)
          else filter (fun item => is_child_profile item = true)
                 ((fun r => full_item r.1 r.2) <$> scan_rows tbl))
  <-> exists (k : Key) (attrs : Item),
        tbl !! k = Some attrs /\ item = full_item k attrs
        /\ scanned_row use_gsi k attrs.
Proof.
  destruct use_gsi; cbn [scanned_row].
  - rewrite list_elem_of_fmap. split.
    + intros ([k attrs] & -> & Hin).
      apply index_rows_elem in Hin as [Hrow (sk & Hpk & Hsk)].
      exists k, attrs. cbn [fst snd] in *. split; [exact Hrow|].
      split; [reflexivity|]. split; [exact Hpk|eauto].
    + intros (k & attrs & Hrow & -> & Hpk & sk & Hsk).
      exists (k, attrs). split; [reflexivity|].
      apply index_rows_elem. cbn [fst snd]. eauto.
  - rewrite list_elem_of_filter, list_elem_of_fmap. split.
    + intros [Hkeep ([k attrs] & -> & Hin)].
      apply elem_of_map_to_list in Hin. cbn [fst snd] in *.
      exists k, attrs. split; [exact Hin|]. split; [reflexivity|].
      apply is_child_profile_spec. exact Hkeep.
    + intros (k & attrs & Hrow & -> & Hkeep).
      split; [apply is_child_profile_spec; exact Hkeep|].
      exists (k, attrs). split; [reflexivity|].
      apply elem_of_map_to_list. exact Hrow.
Qed.

(** X22.  The scan for children is complete and exact whatever the
    sizes of the answers of the service: when no request fails, the loop
    returns every row the mode looks for (with the role index, the rows
    that carry both index keys with [ROLE#child]; without it, the profile
    rows whose role is child), each once, and nothing else. *)
Theorem scan_all_children_complete (use_gsi : bool) faults caps fuel (w : World) :
  (forall i, faults i = None) ->
  (size (table w) < fuel)%nat ->
  exists items,
    scan_all_children use_gsi faults caps fuel w = Some (Ok items, w)
    /\ NoDup items
    /\ forall item,
         item ∈ items
         <-> exists (k : Key) (attrs : Item),
               table w !! k = Some attrs /\ item = full_item k attrs
               /\ scanned_row use_gsi k attrs.
Proof.
  intros Hfaults Hfuel.
  rewrite (scan_all_children_collects use_gsi faults caps fuel w Hfaults Hfuel).
  eexists. split; [reflexivity|]. split; [|apply scanned_row_collected].
  destruct use_gsi.
  - pose proof (NoDup_full_items
                  (index_rows (table w) "GSI2PK" "GSI2SK"
                     (KeyPattern.role_gsi2_pk CHILD)) (fun _ => true)) as Hnd.
    rewrite filter_all in Hnd
      by (apply Forall_forall; intros x _; reflexivity).
    apply Hnd, index_rows_keys.
  - apply NoDup_full_items, scan_rows_keys.
Qed.


(** What a successful read of the children of a parent returns. *)
Lemma get_children_for_parent_inv env cap parent_id (w w' : World) items :
  get_children_for_parent env cap parent_id w = (Ok items, w') ->
  w' = w
  /\ items = (fun r => full_item r.1 r.2)
             <$> take (S cap)
                   (index_rows (table w) "GSI1PK" "GSI1SK"
                      (KeyPattern.parent_gsi1_pk parent_id)).
Proof.
  unfold get_children_for_parent, read_page.
  destruct (read_fault env) as [f|].
  { destruct f; discriminate. }
  cbn [Items]. intros [= <- <-]. split; [reflexivity|].
  apply filter_all. apply Forall_forall. intros x _. reflexivity.
Qed.

(** X24.  The children of a parent: the answer holds rows of the parent
    index under this parent only, each once, and no more than one answer
    of the service holds; when all the rows of the parent fit into one
    answer, every one of them is returned. *)
Theorem get_children_for_parent_rows env cap parent_id (w w' : World) items :
  get_children_for_parent env cap parent_id w = (Ok items, w') ->
  w' = w
  /\ NoDup items
  /\ (length items <= S cap)%nat
  /\ (forall item, item ∈ items ->
        exists (k : Key) (attrs : Item),
          table w !! k = Some attrs /\ item = full_item k attrs
          /\ attrs !! "GSI1PK"
             = Some (SAttr (KeyPattern.parent_gsi1_pk parent_id)))
  /\ ((length (index_rows (table w) "GSI1PK" "GSI1SK"
                 (KeyPattern.parent_gsi1_pk parent_id)) <= S cap)%nat ->
      forall (k : Key) (attrs : Item) sk,
        table w !! k = Some attrs ->
        attrs !! "GSI1PK" = Some (SAttr (KeyPattern.parent_gsi1_pk parent_id)) ->
        attrs !! "GSI1SK" = Some (SAttr sk) ->
        full_item k attrs ∈ items).
Proof.
  intros Hrun. apply get_children_for_parent_inv in Hrun as [-> ->].
  set (rows := index_rows _ _ _ _).
  split; [reflexivity|]. split.
  { pose proof (NoDup_full_items (take (S cap) rows) (fun _ => true)) as Hnd.
    rewrite filter_all in Hnd
      by (apply Forall_forall; intros x _; reflexivity).
    apply Hnd. pose proof (index_rows_keys (table w) "GSI1PK" "GSI1SK"
                             (KeyPattern.parent_gsi1_pk parent_id)) as Hk.
    fold rows in Hk. rewrite <- (take_drop (S cap) rows), fmap_app in Hk.
    apply NoDup_app in Hk as [Hk _]. exact Hk. }
  split; [rewrite length_fmap, length_take; lia|]. split.
  - intros item Hin. apply list_elem_of_fmap in Hin as ([k attrs] & -> & Hin).
    apply subseteq_take in Hin.
    apply index_rows_elem in Hin as [Hrow (sk & Hpk & _)].
    exists k, attrs. auto.
  - intros Hfit k attrs sk Hrow Hpk Hsk. rewrite take_ge by exact Hfit.
    apply list_elem_of_fmap. exists (k, attrs). split; [reflexivity|].
    apply index_rows_elem. cbn [fst snd]. eauto.
Qed.

Lemma create_user_profile_inv
    env user_id email name role parent balance rate (w w1 : World) item :
  create_user_profile env user_id email name role parent balance rate w
  = (Ok item, w1) ->
  item = new_profile_item (utc_timestamp (now env)) user_id email name role
           parent balance rate
  /\ table w1 = <[profile_key user_id := strip_key item]> (table w).
Proof.
  unfold create_user_profile, put_item.
  destruct (write_fault env) as [f|]; [destruct f; discriminate|].
  rewrite new_profile_item_key. intros [= <- <-]. split; reflexivity.
Qed.

(** X25.  A child created with a parent is found afterwards: the parent
    index returns its row to the parent when the rows of the parent fit
    into one answer, and the scan for children returns it in both modes,
    so the interest job reaches the account. *)
Theorem created_child_is_found
    env user_id email name p balance rate (w w1 : World) item :
  create_user_profile env user_id email name CHILD (Some p) balance rate w
  = (Ok item, w1) ->
  p <> "" ->
  (forall env' cap,
     read_fault env' = None -> (size (table w1) <= S cap)%nat ->
     exists items,
       get_children_for_parent env' cap p w1 = (Ok items, w1)
       /\ item ∈ items)
  /\ (forall use_gsi faults caps fuel,
        (forall i, faults i = None) -> (size (table w1) < fuel)%nat ->
        exists items,
          scan_all_children use_gsi faults caps fuel w1 = Some (Ok items, w1)
          /\ item ∈ items).
Proof.
  intros Hrun Hp.
  apply create_user_profile_inv in Hrun as [Hitem Htbl].
  assert (Hkey : key_of item = Some (profile_key user_id))
    by (rewrite Hitem; apply new_profile_item_key).
  assert (Hfull : item = full_item (profile_key user_id) (strip_key item))
    by (symmetry; apply full_item_strip_key; exact Hkey).
  assert (Hrow : table w1 !! profile_key user_id = Some (strip_key item))
    by (rewrite Htbl; apply lookup_insert_eq).
  assert (Hattrs : strip_key item !! "GSI1PK"
                   = Some (SAttr (KeyPattern.parent_gsi1_pk p))
                   /\ strip_key item !! "GSI1SK"
                      = Some (SAttr (KeyPattern.child_gsi1_sk user_id))
                   /\ strip_key item !! "GSI2PK" = Some (SAttr "ROLE#child")
                   /\ strip_key item !! "GSI2SK"
                      = Some (SAttr (KeyPattern.user_gsi2_sk user_id))
                   /\ strip_key item !! "role" = Some (SAttr "child")).
  { unfold strip_key. rewrite !lookup_delete_ne by discriminate.
    rewrite Hitem. unfold new_profile_item.
    destruct p as [|c p]; [contradiction|]. cbn [truthy].
    repeat split; reflexivity. }
  destruct Hattrs as (H1 & H2 & H3 & H4 & H5).
  split.
  - intros env' cap Hr Hsize.
    unfold get_children_for_parent, read_page. rewrite Hr. cbn [Items].
    eexists. split; [reflexivity|].
    rewrite filter_all by (apply Forall_forall; intros x _; reflexivity).
    rewrite take_ge
      by (pose proof (index_rows_length (table w1) "GSI1PK" "GSI1SK"
                        (KeyPattern.parent_gsi1_pk p)); lia).
    apply list_elem_of_fmap. exists (profile_key user_id, strip_key item).
    split; [exact Hfull|]. apply index_rows_elem. cbn [fst snd]. eauto.
  - intros use_gsi faults caps fuel Hfaults Hfuel.
    rewrite (scan_all_children_collects use_gsi faults caps fuel w1
               Hfaults Hfuel).
    eexists. split; [reflexivity|]. apply scanned_row_collected.
    exists (profile_key user_id), (strip_key item).
    split; [exact Hrow|]. split; [exact Hfull|].
    destruct use_gsi; cbn [scanned_row]; [eauto|].
    split; [exact H5|reflexivity].
Qed.

(** X26.  A child created without a parent identifier is in no index:
    the scan through the role index does not return it, so the interest
    job does not reach the account in that mode; the scan without the
    index returns it. *)
Theorem unparented_child_is_missed
    env user_id email name parent balance rate (w w1 : World) item
    faults caps fuel :
  create_user_profile env user_id email name CHILD parent balance rate w
  = (Ok item, w1) ->
  truthy parent = false ->
  (forall i, faults i = None) ->
  (size (table w1) < fuel)%nat ->
  exists indexed scanned,
    scan_all_children true faults caps fuel w1 = Some (Ok indexed, w1)
    /\ scan_all_children false faults caps fuel w1 = Some (Ok scanned, w1)
    /\ (item ∉ indexed)
    /\ item ∈ scanned.
Proof.
  intros Hrun Hparent Hfaults Hfuel.
  apply create_user_profile_inv in Hrun as [Hitem Htbl].
  assert (Hkey : key_of item = Some (profile_key user_id))
    by (rewrite Hitem; apply new_profile_item_key).
  assert (Hfull : item = full_item (profile_key user_id) (strip_key item))
    by (symmetry; apply full_item_strip_key; exact Hkey).
  assert (Hrow : table w1 !! profile_key user_id = Some (strip_key item))
    by (rewrite Htbl; apply lookup_insert_eq).
  assert (Hattrs : strip_key item !! "GSI2PK" = None
                   /\ strip_key item !! "role" = Some (SAttr "child")).
  { unfold strip_key. rewrite !lookup_delete_ne by discriminate.
    rewrite Hitem. unfold new_profile_item.
    destruct parent as [[|c p]|]; try discriminate Hparent;
      split; reflexivity. }
  destruct Hattrs as [H1 H2].
  rewrite !(scan_all_children_collects _ faults caps fuel w1 Hfaults Hfuel).
  eexists. eexists. split; [reflexivity|]. split; [reflexivity|]. split.
  - intros Hin. apply (scanned_row_collected true) in Hin
      as (k & attrs & Hk & Heq & Hpk & _).
    rewrite Heq in Hkey. rewrite key_of_full_item in Hkey.
    injection Hkey as ->. rewrite Hrow in Hk. injection Hk as <-.
    rewrite H1 in Hpk. discriminate Hpk.
  - apply (scanned_row_collected false).
    exists (profile_key user_id), (strip_key item).
    split; [exact Hrow|]. split; [exact Hfull|].
    split; [exact H2|reflexivity].
Qed.

(** X27.  Who can list children: the endpoint reaches its 200 answer
    only for a caller in the Parents group; every row it returns is a
    stored row whose parent index key is that of the caller; and the
    table is not written, whatever the outcome. *)
Theorem list_children_endpoint_access env cap verified (w w' : World) reply :
  list_children_endpoint env cap verified w = (reply, w') ->
  table w' = table w
  /\ forall items, reply = Success items ->
       exists ctx,
         verified = Some ctx
         /\ is_parent (auth_groups ctx) = true
         /\ forall item, item ∈ items ->
              exists (k : Key) (attrs : Item),
                table w !! k = Some attrs /\ item = full_item k attrs
                /\ attrs !! "GSI1PK"
                   = Some (SAttr (KeyPattern.parent_gsi1_pk (auth_userId ctx))).
Proof.
  unfold list_children_endpoint, authorize.
  destruct verified as [ctx|].
  2:{ intros [= <- <-]. split; [reflexivity|discriminate]. }
  assert (Hgrp : in_required_group ["Parents"] (auth_groups ctx)
                 = is_parent (auth_groups ctx)).
  { unfold in_required_group, is_parent. cbn. apply orb_false_r. }
  rewrite Hgrp. clear Hgrp.
  destruct (is_parent (auth_groups ctx)) eqn:Hparent.
  2:{ intros [= <- <-]. split; [reflexivity|discriminate]. }
  unfold list_children_handler. cbn zeta.
  destruct (get_children_for_parent env cap (auth_userId ctx) _)
    as [[children|e] w1] eqn:Hget.
  - apply get_children_for_parent_inv in Hget as [-> ->].
    intros [= <- <-]. split; [reflexivity|].
    intros items [= <-]. exists ctx. split; [reflexivity|].
    split; [exact Hparent|].
    intros item Hin. apply list_elem_of_fmap in Hin as ([k attrs] & -> & Hin).
    apply subseteq_take in Hin. cbn [table logged] in Hin.
    apply index_rows_elem in Hin as [Hrow (sk & Hpk & _)].
    exists k, attrs. auto.
  - intros Hreply.
    assert (Hw1 : table w1 = table w).
    { unfold get_children_for_parent in Hget.
      destruct (read_page _ _ _ _ _) as [resp|e0]; [discriminate|].
      destruct (is_ClientError e0); injection Hget as _ <-; reflexivity. }
    split.
    + change w' with (reply, w').2. rewrite <- Hreply.
      unfold answer_error. destruct (status_code e); exact Hw1.
    + intros items ->. unfold answer_error in Hreply.
      destruct (status_code e); discriminate.
Qed.

End IndexProperties.

(* ===================================================================== *)
(** * Further properties of get_user.py *)
(* ===================================================================== *)

Section GetUserProperties.

Context {L : PyLib}.

Import Store StoreFacts.

(** X28.  The get-user handler serves the caller's own profile only: it
    never writes; a 200 answer carries the stored profile row of the
    caller's identifier; and when the read does not fail and no such row
    is stored, the answer is 404. *)
Theorem get_user_returns_own_profile env ctx (w w' : World) reply :
  get_user_handler env ctx w = (reply, w') ->
  table w' = table w
  /\ (forall profile, reply = Success profile ->
        exists attrs : Item,
          table w !! profile_key (auth_userId ctx) = Some attrs
          /\ profile = full_item (profile_key (auth_userId ctx)) attrs)
  /\ (read_fault env = None ->
      table w !! profile_key (auth_userId ctx) = None ->
      reply = Failure 404).
Proof.
  unfold get_user_handler. cbn zeta.
  set (w0 := logged INFO "Fetching profile" w).
  destruct (read_fault env) as [f|] eqn:Hf.
  - rewrite (get_user_profile_fault env (auth_userId ctx) w0 f Hf).
    intros [= <- <-]. split; [reflexivity|].
    split; [discriminate|discriminate].
  - rewrite get_user_profile_ok by exact Hf.
    change (table w0) with (table w).
    destruct (table w !! profile_key (auth_userId ctx)) as [attrs|];
      cbn [fmap option_fmap option_map].
    + rewrite bool_decide_eq_false_2 by apply full_item_nonempty.
      intros [= <- <-]. split; [reflexivity|].
      split; [|discriminate].
      intros profile [= <-]. exists attrs. split; reflexivity.
    + intros [= <- <-]. split; [reflexivity|].
      split; [discriminate|reflexivity].
Qed.

End GetUserProperties.

(* ===================================================================== *)
(** * The further properties on the fixtures *)
(* ===================================================================== *)

Lemma deposit_50_commits : deposit_50 = (Ok deposit_50_tx, deposit_50.2).
Proof. vm_compute. reflexivity. Qed.

Lemma create_then_get_witness :
  write_fault sample_env = None /\ read_fault sample_env = None
  /\ exists item w1,
       create_sibling = (Ok item, w1)
       /\ get_user_profile sample_env "child-457" w1 = (Ok (Some item), w1)
       /\ Decimal_of_attr (item !! "balance") = Some (cents 0)
       /\ item !! "userId" = Some (SAttr "child-457").
Proof.
  split; [reflexivity|]. split; [reflexivity|].
  apply (create_then_get_user_profile sample_env sample_env "child-457"
           "sib@example.com" "John Doe" CHILD (Some "parent-123") (cents 0)
           DEFAULT_INTEREST_RATE sample_world); reflexivity.
Defined.

Lemma created_profile_index_witness :
  exists item w1,
    create_sibling = (Ok item, w1)
    /\ table w1 !! profile_key "child-457" = Some (Store.strip_key item)
    /\ item !! "GSI1PK" = Some (SAttr "PARENT#parent-123")
    /\ item !! "GSI2SK" = Some (SAttr "USER#child-457").
Proof.
  assert (Hrun : exists item w1, create_sibling = (Ok item, w1))
    by (eexists; eexists; reflexivity).
  destruct Hrun as (item & w1 & Hrun). exists item, w1.
  destruct (created_profile_index_attributes sample_env "child-457"
              "sib@example.com" "John Doe" CHILD (Some "parent-123") (cents 0)
              DEFAULT_INTEREST_RATE sample_world w1 item Hrun)
    as (Hrow & Hidx & _).
  destruct (Hidx eq_refl) as (p & Hp & _ & H1 & _ & _ & H2).
  injection Hp as <-.
  split; [exact Hrun|]. split; [exact Hrow|]. split; [exact H1|exact H2].
Defined.

Lemma adjust_confined_witness :
  (forall e, withdraw_200.1 = Raise e ->
     table withdraw_200.2 = table sample_world
     \/ table withdraw_200.2 = concurrent sample_env (table sample_world))
  /\ (("USER#parent-123", "PROFILE") : Key).1 <> KeyPattern.user_pk "child-456"
  /\ (table deposit_50.2 !! ("USER#parent-123", "PROFILE")
      = table sample_world !! ("USER#parent-123", "PROFILE")
      \/ table deposit_50.2 !! ("USER#parent-123", "PROFILE")
         = concurrent sample_env (table sample_world)
             !! ("USER#parent-123", "PROFILE")).
Proof.
  destruct (adjust_writes_are_confined sample_env "child-456" (cents (-20000))
              WITHDRAWAL "Too much" "child-456" sample_world withdraw_200.2
              withdraw_200.1 (surjective_pairing withdraw_200)) as (H1 & _ & _).
  destruct (adjust_writes_are_confined sample_env "child-456" (cents 5000)
              DEPOSIT "Birthday gift" "parent-123" sample_world deposit_50.2
              deposit_50.1 (surjective_pairing deposit_50)) as (_ & H2 & _).
  split; [exact H1|].
  assert (Hk : (("USER#parent-123", "PROFILE") : Key).1
               <> KeyPattern.user_pk "child-456") by discriminate.
  split; [exact Hk|]. exact (H2 _ Hk).
Defined.

Lemma adjust_keeps_other_attributes_witness :
  deposit_50 = (Ok deposit_50_tx, deposit_50.2)
  /\ exists attrs0 attrs' : Item,
       table sample_world !! profile_key "child-456" = Some attrs0
       /\ table deposit_50.2 !! profile_key "child-456" = Some attrs'
       /\ attrs' !! "balance" = Some (NAttr (cents 15000))
       /\ attrs' !! "name" = attrs0 !! "name"
       /\ attrs' !! "parentId" = attrs0 !! "parentId".
Proof.
  split; [exact deposit_50_commits|].
  destruct (adjust_keeps_other_attributes sample_env "child-456" (cents 5000)
              DEPOSIT "Birthday gift" "parent-123" sample_world deposit_50.2
              deposit_50_tx deposit_50_commits)
    as (attrs0 & attrs' & H0 & H1 & _ & H3 & H4).
  exists attrs0, attrs'. split; [exact H0|]. split; [exact H1|].
  split; [exact H3|]. split; apply H4; discriminate.
Defined.

Lemma adjust_then_get_witness :
  deposit_50 = (Ok deposit_50_tx, deposit_50.2)
  /\ read_fault sample_env = None
  /\ exists profile : Item,
       get_user_profile sample_env "child-456" deposit_50.2
       = (Ok (Some profile), deposit_50.2)
       /\ Decimal_of_attr (profile !! "balance") = Some (cents 15000).
Proof.
  split; [exact deposit_50_commits|]. split; [reflexivity|].
  destruct (adjust_then_get_user_profile sample_env sample_env "child-456"
              (cents 5000) DEPOSIT "Birthday gift" "parent-123" sample_world
              deposit_50.2 deposit_50_tx deposit_50_commits eq_refl)
    as (profile & H1 & H2 & _).
  exists profile. split; [exact H1|exact H2].
Defined.

Lemma balance_never_negative_witness :
  nonneg_balance (table sample_world) "child-456"
  /\ nonneg_balance (table (adjust_all "child-456" sample_calls sample_world))
       "child-456".
Proof.
  assert (H0 : nonneg_balance (table sample_world) "child-456").
  { exists sample_child_attrs, (cents 10000).
    split; [reflexivity|]. split; [reflexivity|]. vm_compute. discriminate. }
  split; [exact H0|].
  apply (balance_never_negative "child-456" sample_calls sample_world);
    [|exact H0].
  intros call tbl [<-|[<-|[]]] H; exact H.
Defined.


Lemma page_shape_witness :
  exists page,
    first_page = (Ok page, three_records)
    /\ Z.of_nat (length (transactions page)) <= 2
    /\ Forall (fun item =>
         exists sk, item !! "SK" = Some (SAttr sk)
                    /\ sk <> KeyPattern.profile_sk) (transactions page).
Proof.
  assert (Hrun : exists page, first_page = (Ok page, three_records))
    by (eexists; reflexivity).
  destruct Hrun as (page & Hrun). exists page. split; [exact Hrun|].
  destruct (get_transactions_page_shape sample_env "u" 2 None three_records
              three_records page Hrun) as (_ & Hlen & Hall & _).
  split; [exact Hlen|].
  eapply Forall_impl; [exact Hall|].
  intros item (sk & attrs & _ & -> & _ & Hsk). exists sk.
  split; [|exact Hsk]. unfold Store.full_item.
  rewrite lookup_insert_ne by discriminate. apply lookup_insert_eq.
Defined.

Lemma committed_record_listed_witness :
  deposit_50 = (Ok deposit_50_tx, deposit_50.2)
  /\ exists page,
       history_after_deposit = (Ok page, deposit_50.2)
       /\ nextToken page = None
       /\ transaction_item "child-456" "2024-02-01T00:00:00.250000Z" "txn-789"
            (cents 5000) DEPOSIT "Birthday gift" (cents 15000) "parent-123"
          ∈ transactions page.
Proof.
  split; [exact deposit_50_commits|].
  assert (Hlist : exists page,
            history_after_deposit = (Ok page, deposit_50.2)
            /\ nextToken page = None).
  { eexists. split; vm_compute; reflexivity. }
  destruct Hlist as (page & Hlist & Hnext). exists page.
  split; [exact Hlist|]. split; [exact Hnext|].
  exact (committed_record_is_listed sample_env sample_env "child-456"
           (cents 5000) DEPOSIT "Birthday gift" "parent-123" sample_world
           deposit_50.2 deposit_50.2 deposit_50_tx 10 page
           deposit_50_commits Hlist Hnext).
Defined.

Lemma list_access_witness :
  exists page w1,
    parent_lists_child = (Ok page, w1)
    /\ is_parent ["Parents"] = true
    /\ exists attrs : Item,
         table deposit_50.2 !! profile_key "child-456" = Some attrs
         /\ attrs !! "parentId" = Some (SAttr "parent-123").
Proof.
  assert (Hrun : exists page w1, parent_lists_child = (Ok page, w1))
    by (eexists; eexists; reflexivity).
  destruct Hrun as (page & w1 & Hrun). exists page, w1.
  split; [exact Hrun|].
  destruct (list_transactions_access sample_env
              (mkListEvent "parent-123" ["Parents"]
                 (Some {[ "userId" := "child-456" ]}))
              deposit_50.2 w1 page Hrun) as [[Heq|H] _].
  - vm_compute in Heq. discriminate Heq.
  - exact H.
Defined.

Lemma list_refusal_witness :
  default ∅ (queryStringParameters child_asks_other) !! "userId"
  = Some "child-457"
  /\ "child-457" <> current_user_id child_asks_other
  /\ is_parent (groups child_asks_other) = false
  /\ list_transactions sample_env child_asks_other sample_world
     = (Raise ForbiddenError, sample_world)
  /\ response_status
       (list_transactions sample_env child_asks_other sample_world).1 = 403.
Proof.
  assert (Hne : "child-457" <> current_user_id child_asks_other)
    by discriminate.
  split; [reflexivity|]. split; [exact Hne|]. split; [reflexivity|].
  apply (list_transactions_refuses_other_accounts sample_env child_asks_other
           sample_world "child-457" eq_refl Hne eq_refl).
  exists 50. reflexivity.
Defined.

Lemma adjust_endpoint_access_witness :
  exists tx w',
    parent_deposits = (Success tx, w')
    /\ userId tx = "child-456"
    /\ type_ tx = "adjustment"
    /\ initiatedBy tx = "parent-123".
Proof.
  assert (Hrun : exists tx w', parent_deposits = (Success tx, w'))
    by (eexists; eexists; reflexivity).
  destruct Hrun as (tx & w' & Hrun). exists tx, w'. split; [exact Hrun|].
  destruct (adjust_balance_endpoint_access sample_env (fun tbl => tbl)
              (Some sample_parent)
              (mkAdjustBody (Some "child-456") (Some "50.00")
                 (Some "Birthday gift"))
              sample_world w' tx Hrun)
    as (ctx & child_id & attrs & Hctx & _ & Hchild & _ & _ & H1 & H2 & H3 & _).
  injection Hctx as <-. injection Hchild as <-.
  split; [exact H1|]. split; [exact H2|exact H3].
Defined.

Lemma adjust_endpoint_failure_witness :
  exists w',
    parent_overdraws = (Failure 400, w')
    /\ (table w' = table sample_world
        \/ table w' = (fun tbl : Table => tbl) (table sample_world)
        \/ table w' = concurrent sample_env
                        ((fun tbl : Table => tbl) (table sample_world))).
Proof.
  assert (Hrun : exists w', parent_overdraws = (Failure 400, w'))
    by (eexists; reflexivity).
  destruct Hrun as (w' & Hrun). exists w'. split; [exact Hrun|].
  destruct (adjust_balance_endpoint_failure sample_env (fun tbl => tbl)
              (Some sample_parent)
              (mkAdjustBody (Some "child-456") (Some "-200.00") None)
              sample_world w' 400 Hrun) as [H _].
  exact H.
Defined.

Lemma adjust_bad_input_witness :
  is_parent (auth_groups sample_parent) = true
  /\ exists w',
       adjust_balance_endpoint sample_env (fun tbl => tbl) (Some sample_parent)
         (mkAdjustBody (Some "child-456") (Some "0.00") None) sample_world
       = (Failure 400, w')
       /\ table w' = table sample_world.
Proof.
  split; [reflexivity|].
  apply (adjust_balance_rejects_bad_input sample_env (fun tbl => tbl)
           sample_parent (mkAdjustBody (Some "child-456") (Some "0.00") None)
           sample_world eq_refl).
  right. right. exists "0.00", (mkDecimal 0 (-2)).
  split; [reflexivity|]. split; [reflexivity|]. vm_compute. reflexivity.
Defined.

Lemma child_summary_witness :
  exists profile txs w',
    parent_reads_summary = (Success (profile, txs), w')
    /\ (length txs <= 10)%nat
    /\ table w' = table deposit_50.2
    /\ exists attrs : Item,
         table deposit_50.2 !! profile_key "child-456" = Some attrs
         /\ attrs !! "parentId" = Some (SAttr "parent-123").
Proof.
  assert (Hrun : exists profile txs w',
            parent_reads_summary = (Success (profile, txs), w'))
    by (eexists; eexists; eexists; reflexivity).
  destruct Hrun as (profile & txs & w' & Hrun). exists profile, txs, w'.
  split; [exact Hrun|].
  destruct (child_summary_access sample_env (Some sample_parent)
              (Some "child-456") deposit_50.2 w' profile txs Hrun)
    as (ctx & child_id & attrs & Hctx & _ & Hchild & Hrow & Hparent & _
        & Hlen & _ & Htbl).
  injection Hctx as <-. injection Hchild as <-.
  split; [exact Hlen|]. split; [exact Htbl|].
  exists attrs. split; [exact Hrow|exact Hparent].
Defined.


Lemma update_access_witness :
  exists item w',
    parent_sets_rate = (Success item, w')
    /\ is_parent (auth_groups sample_parent) = true
    /\ exists attrs : Item,
         table sample_world !! profile_key "child-456" = Some attrs
         /\ attrs !! "parentId" = Some (SAttr "parent-123").
Proof.
  assert (Hrun : exists item w', parent_sets_rate = (Success item, w'))
    by (eexists; eexists; reflexivity).
  destruct Hrun as (item & w' & Hrun). exists item, w'.
  split; [exact Hrun|].
  destruct (update_user_access sample_env (fun tbl => tbl) sample_parent
              (mkUpdateBody (Some "child-456") None (Some "0.10"))
              sample_world w' item Hrun) as ([Heq|[_ H]] & Hrate & _).
  - discriminate Heq.
  - split; [|exact H]. apply Hrate. discriminate.
Defined.

Lemma interest_confined_witness :
  (forall (i : nat) tbl, concurrent sample_env tbl = tbl)
  /\ table (interest_handler (fun _ => sample_env) (Ok [sample_child_row])
              sample_world).2 !! ("USER#parent-123", "PROFILE")
     = table sample_world !! ("USER#parent-123", "PROFILE").
Proof.
  split; [intros i tbl; reflexivity|].
  apply (interest_job_confined (fun _ => sample_env) [sample_child_row]
           sample_world ("USER#parent-123", "PROFILE")).
  - intros i tbl. reflexivity.
  - intros child user_id [<-|[]] Hid. vm_compute in Hid.
    injection Hid as <-. discriminate.
Defined.

Lemma scan_complete_witness :
  (forall i, no_faults i = None)
  /\ (size (table sample_world) < 2)%nat
  /\ exists items,
       scan_all_children true no_faults one_row_answers 2 sample_world
       = Some (Ok items, sample_world)
       /\ NoDup items
       /\ sample_child_row ∈ items.
Proof.
  assert (Hsize : (size (table sample_world) < 2)%nat)
    by (vm_compute; lia).
  split; [reflexivity|]. split; [exact Hsize|].
  destruct (scan_all_children_complete true no_faults one_row_answers 2
              sample_world (fun i => eq_refl) Hsize)
    as (items & Hrun & Hnd & Hin).
  exists items. split; [exact Hrun|]. split; [exact Hnd|].
  apply Hin. exists ("USER#child-456", "PROFILE"), sample_child_attrs.
  split; [reflexivity|]. split; [reflexivity|].
  split; [reflexivity|]. eexists. reflexivity.
Defined.


Lemma children_for_parent_witness :
  exists items,
    get_children_for_parent sample_env 0 "parent-123" sample_world
    = (Ok items, sample_world)
    /\ NoDup items
    /\ (length items <= 1)%nat.
Proof.
  assert (Hrun : exists items,
            get_children_for_parent sample_env 0 "parent-123" sample_world
            = (Ok items, sample_world)) by (eexists; reflexivity).
  destruct Hrun as (items & Hrun). exists items. split; [exact Hrun|].
  destruct (get_children_for_parent_rows sample_env 0 "parent-123"
              sample_world sample_world items Hrun) as (_ & Hnd & Hlen & _).
  split; [exact Hnd|exact Hlen].
Defined.

Lemma created_child_found_witness :
  "parent-123" <> ""
  /\ exists item w1,
       create_sibling = (Ok item, w1)
       /\ (exists items,
             get_children_for_parent sample_env 1 "parent-123" w1
             = (Ok items, w1) /\ item ∈ items)
       /\ (exists items,
             scan_all_children true no_faults one_row_answers 3 w1
             = Some (Ok items, w1) /\ item ∈ items).
Proof.
  assert (Hp : "parent-123" <> "") by discriminate.
  split; [exact Hp|].
  assert (Hrun : exists item w1,
            create_sibling = (Ok item, w1) /\ size (table w1) = 2%nat)
    by (eexists; eexists; split; [reflexivity|vm_compute; reflexivity]).
  destruct Hrun as (item & w1 & Hrun & Hsize). exists item, w1.
  split; [exact Hrun|].
  destruct (created_child_is_found sample_env "child-457" "sib@example.com"
              "John Doe" "parent-123" (cents 0) DEFAULT_INTEREST_RATE
              sample_world w1 item Hrun Hp) as [Hlist Hscan].
  split.
  - apply Hlist; [reflexivity|]. rewrite Hsize. lia.
  - apply Hscan; [reflexivity|]. rewrite Hsize. lia.
Defined.

Lemma unparented_child_witness :
  truthy None = false
  /\ (forall i, no_faults i = None)
  /\ exists item w1 indexed scanned,
       create_orphan = (Ok item, w1)
       /\ scan_all_children true no_faults one_row_answers 3 w1
          = Some (Ok indexed, w1)
       /\ scan_all_children false no_faults one_row_answers 3 w1
          = Some (Ok scanned, w1)
       /\ (item ∉ indexed)
       /\ item ∈ scanned.
Proof.
  split; [reflexivity|]. split; [reflexivity|].
  assert (Hrun : exists item w1,
            create_orphan = (Ok item, w1) /\ size (table w1) = 2%nat)
    by (eexists; eexists; split; [reflexivity|vm_compute; reflexivity]).
  destruct Hrun as (item & w1 & Hrun & Hsize). exists item, w1.
  assert (Hfuel : (size (table w1) < 3)%nat) by (rewrite Hsize; lia).
  destruct (unparented_child_is_missed sample_env "child-458"
              "orphan@example.com" "Ann Roe" None (cents 0)
              DEFAULT_INTEREST_RATE sample_world w1 item no_faults
              one_row_answers 3 Hrun eq_refl (fun i => eq_refl) Hfuel)
    as (indexed & scanned & H1 & H2 & H3 & H4).
  exists indexed, scanned. repeat split; assumption.
Defined.

Lemma list_children_witness :
  exists items w',
    parent_lists_children = (Success items, w')
    /\ table w' = table sample_world
    /\ is_parent (auth_groups sample_parent) = true.
Proof.
  assert (Hrun : exists items w',
            parent_lists_children = (Success items, w'))
    by (eexists; eexists; reflexivity).
  destruct Hrun as (items & w' & Hrun). exists items, w'.
  split; [exact Hrun|].
  destruct (list_children_endpoint_access sample_env 0 (Some sample_parent)
              sample_world w' (Success items) Hrun) as [Ht Hok].
  split; [exact Ht|].
  destruct (Hok items eq_refl) as (ctx & Hctx & Hgrp & _).
  injection Hctx as <-. exact Hgrp.
Defined.

Lemma get_user_witness :
  exists reply w',
    get_user_handler sample_env sample_child sample_world = (reply, w')
    /\ table w' = table sample_world
    /\ reply = Success sample_child_row.
Proof.
  assert (Hrun : exists w',
            get_user_handler sample_env sample_child sample_world
            = (Success sample_child_row, w')) by (eexists; reflexivity).
  destruct Hrun as (w' & Hrun). exists (Success sample_child_row), w'.
  split; [exact Hrun|].
  destruct (get_user_returns_own_profile sample_env sample_child sample_world
              w' (Success sample_child_row) Hrun) as [Ht _].
  split; [exact Ht|reflexivity].
Defined.
